(** * A digital clock with a settings form: model of [main.py]

    The program is a PyQt6 application made of three classes:
    [DigitalClockWidget] (the clock screen), [SettingsWidget] (the settings
    form) and [MainApp] (the shell that switches between the two).

    The embedding follows the source: the settings are a Python [dict]
    living in a store of objects and reached through references, widgets are
    records, methods are functions from state to state, and a method that can
    raise returns in the exception monad [result].  The pieces of the Python
    runtime and of Qt the methods call (string splitting, [int], binary64
    arithmetic, [datetime] addition, [QColor.name], [QFont.setPixelSize],
    [QTimer]) are modelled next to them. *)

From Stdlib Require Import ZArith Ascii String List Lia.
From Stdlib Require Import Floats.SpecFloat.
From stdpp Require Import gmap strings.

Local Open Scope Z_scope.

(** ** Exceptions *)

Inductive exn :=
  | KeyError (key : string)
  | ValueError
  | TypeError
  | AttributeError
  | OverflowError.

Inductive result (A : Type) :=
  | Ok (a : A)
  | Raise (e : exn).
Arguments Ok {A} a.
Arguments Raise {A} e.

Definition bind {A B} (r : result A) (k : A -> result B) : result B :=
  match r with
  | Ok a => k a
  | Raise e => Raise e
  end.

Notation "'do' x <- r ; k" := (bind r (fun x => k))
  (at level 10, x name, r at level 100, k at level 200).
Notation "'do' ' p <- r ; k" := (bind r (fun x => match x with p => k end))
  (at level 10, p pattern, r at level 100, k at level 200).

(** ** Python strings: [str.split], code points and [int(str)]

    A [str] is a sequence of code points.  It is kept here as the bytes of
    its UTF-8 form (a lone surrogate as three bytes, the way the error
    handler [surrogatepass] writes it), so that every [str] is a [string];
    the literals of the program are ASCII and stand for themselves. *)

Module PyStr.

(** The quotation mark, for HTML attributes. *)
Definition dquote : string := String (ascii_of_nat 34) EmptyString.

(** [s.split(sep)] for a separator of one ASCII character.  No byte of a
    longer UTF-8 sequence is an ASCII character, so the parts are the same
    whether bytes or code points are split. *)
Fixpoint split (sep : ascii) (s : string) : list string :=
  match s with
  | EmptyString => [EmptyString]
  | String c rest =>
      if Ascii.eqb c sep then EmptyString :: split sep rest
      else match split sep rest with
           | p :: ps => String c p :: ps
           | [] => [String c EmptyString]
           end
  end.

(** *** Code points *)

Definition byte (c : ascii) : Z := Z.of_N (N_of_ascii c).

(** The decoder is idle between two characters, or inside a sequence of
    which [more] bytes still follow the next one; [least] is the smallest
    code point a sequence of that length may stand for. *)
Inductive decoding :=
  | Idle
  | Inside (more : nat) (least : Z) (bits : Z).

(** The first byte of a character *)
Definition first_byte (n : Z) : list Z * decoding :=
  if n <? 128 then ([n], Idle)
  else if (192 <=? n) && (n <? 224) then ([], Inside 0 128 (n - 192))
  else if (224 <=? n) && (n <? 240) then ([], Inside 1 2048 (n - 224))
  else if (240 <=? n) && (n <? 248) then ([], Inside 2 65536 (n - 240))
  else ([-1], Idle).

(** A byte that fits nowhere and a sequence that stands for no code point
    give -1, which is no character. *)
Definition code_point (least bits : Z) : Z :=
  if (least <=? bits) && (bits <=? 1114111) then bits else -1.

Definition decode_byte (st : decoding) (c : ascii) : list Z * decoding :=
  let n := byte c in
  match st with
  | Idle => first_byte n
  | Inside more least bits =>
      if (128 <=? n) && (n <? 192) then
        let bits := bits * 64 + (n - 128) in
        match more with
        | O => ([code_point least bits], Idle)
        | S more => ([], Inside more least bits)
        end
      else
        let '(out, st) := first_byte n in (-1 :: out, st)
  end.

Fixpoint decode (st : decoding) (s : string) : list Z :=
  match s with
  | EmptyString =>
      match st with
      | Idle => []
      | Inside _ _ _ => [-1]
      end
  | String c rest =>
      let '(out, st) := decode_byte st c in out ++ decode st rest
  end.

(** The code points of a text *)
Definition points (s : string) : list Z := decode Idle s.

(** *** [int(s)]

    CPython 3.11, [PyLong_FromUnicodeObject]: every code point above 127
    that is white space becomes a space and every decimal digit of Unicode
    its ASCII digit; then [PyLong_FromString] skips the white space of C
    ([Py_ISSPACE]) on both sides, reads a sign, and the digits, between
    which single underscores may stand.  More than 4300 digits are refused
    (the default of [sys.int_max_str_digits]).  Every failure is a
    [ValueError]. *)

(** The white space [int] skips: tab to carriage return and the space,
    and above 127 the characters [str.isspace] holds of.  The separators 28
    to 31 are white space for [str.isspace] but not here. *)
Definition white_space : list Z :=
  [9; 10; 11; 12; 13; 32; 133; 160; 5760; 8192; 8193; 8194; 8195;
   8196; 8197; 8198; 8199; 8200; 8201; 8202; 8232; 8233; 8239; 8287; 12288].

Definition is_space (c : Z) : bool := existsb (Z.eqb c) white_space.

(** The digit zero of every script with decimal digits (general category
    Nd of Unicode 14.0, the database of CPython 3.11); the digits one to
    nine follow each of them. *)
Definition decimal_zeros : list Z :=
  [48; 1632; 1776; 1984; 2406; 2534; 2662; 2790; 2918; 3046; 3174; 3302;
   3430; 3558; 3664; 3792; 3872; 4160; 4240; 6112; 6160; 6470; 6608; 6784;
   6800; 6992; 7088; 7232; 7248; 42528; 43216; 43264; 43472; 43504; 43600;
   44016; 65296; 66720; 68912; 69734; 69872; 69942; 70096; 70384; 70736;
   70864; 71248; 71360; 71472; 71904; 72016; 72784; 73040; 73120; 92768;
   92864; 93008; 120782; 120792; 120802; 120812; 120822; 123200; 123632;
   125264; 130032].

Definition digit_val (c : Z) : option Z :=
  match find (fun zero => (zero <=? c) && (c <? zero + 10)) decimal_zeros with
  | Some zero => Some (c - zero)
  | None => None
  end.

Definition plus : Z := 43.
Definition minus : Z := 45.
Definition underscore : Z := 95.

Fixpoint lstrip (s : list Z) : list Z :=
  match s with
  | c :: rest => if is_space c then lstrip rest else s
  | [] => []
  end.

Fixpoint rstrip (s : list Z) : list Z :=
  match s with
  | [] => []
  | c :: rest =>
      match rstrip rest with
      | [] => if is_space c then [] else [c]
      | r => c :: r
      end
  end.

(** Decimal digits, where one underscore may stand between two digits.
    [prev] tells whether the character before was a digit; the result is
    the number and how many digits were read. *)
Fixpoint digits (acc count : Z) (prev : bool) (s : list Z) : option (Z * Z) :=
  match s with
  | [] => if prev then Some (acc, count) else None
  | c :: rest =>
      match digit_val c with
      | Some d => digits (10 * acc + d) (count + 1) true rest
      | None =>
          if (c =? underscore) && prev then digits acc count false rest
          else None
      end
  end.

Definition max_str_digits : Z := 4300.

(** [int(s)] in base ten *)
Definition int (s : string) : result Z :=
  let body := rstrip (lstrip (points s)) in
  let signed :=
    match body with
    | c :: rest =>
        if c =? minus then
          match digits 0 0 false rest with
          | Some (n, count) => Some (- n, count)
          | None => None
          end
        else if c =? plus then digits 0 0 false rest
        else digits 0 0 false body
    | [] => None
    end in
  match signed with
  | Some (n, count) =>
      if count <=? max_str_digits then Ok n else Raise ValueError
  | None => Raise ValueError
  end.

(** [str(n).zfill(2)] for [0 <= n < 100], as [strftime] prints [%H] and
    [%M]. *)
Definition digit_char (n : Z) : ascii := ascii_of_nat (48 + Z.to_nat (n mod 10)).
Definition two_digits (n : Z) : string :=
  String (digit_char (n / 10)) (String (digit_char n) EmptyString).

(** The UTF-8 bytes of one code point, to write examples with *)
Definition utf8 (c : Z) : string :=
  let b (n : Z) := ascii_of_N (Z.to_N n) in
  if c <? 128 then String (b c) EmptyString
  else if c <? 2048 then
    String (b (192 + c / 64)) (String (b (128 + c mod 64)) EmptyString)
  else if c <? 65536 then
    String (b (224 + c / 4096))
      (String (b (128 + c / 64 mod 64)) (String (b (128 + c mod 64)) EmptyString))
  else
    String (b (240 + c / 262144))
      (String (b (128 + c / 4096 mod 64))
         (String (b (128 + c / 64 mod 64)) (String (b (128 + c mod 64)) EmptyString))).

End PyStr.

(** ** Python floats: IEEE 754 binary64 *)

Module PyFloat.

Definition prec : Z := 53.
Definition emax : Z := 1024.

(** [float(n)] of an integer: the nearest double, ties to even; an integer
    beyond the finite doubles raises [OverflowError]. *)
Definition of_int (n : Z) : result spec_float :=
  match binary_normalize prec emax n 0 false with
  | S754_infinity _ => Raise OverflowError
  | f => Ok f
  end.

Definition mul (x y : spec_float) : spec_float := SFmul prec emax x y.

(** A decimal literal [num/den] of the source text is read as the double
    nearest to that quotient. *)
Definition literal (num den : Z) : spec_float :=
  SFdiv prec emax (binary_normalize prec emax num 0 false)
                  (binary_normalize prec emax den 0 false).

(** [int(x)] of a float: truncation toward zero. *)
Definition to_int (x : spec_float) : result Z :=
  match x with
  | S754_zero _ => Ok 0
  | S754_finite s m e =>
      let a := match e with
               | Zneg p => Z.shiftr (Zpos m) (Zpos p)
               | _ => Z.shiftl (Zpos m) e
               end in
      Ok (if s then - a else a)
  | S754_infinity _ => Raise OverflowError
  | S754_nan => Raise ValueError
  end.

(** [n * x] for an integer [n] and a float [x]. *)
Definition int_mul (n : Z) (x : spec_float) : result spec_float :=
  do f <- of_int n; Ok (mul f x).

End PyFloat.

(** ** [datetime] and [timedelta] *)

Module Datetime.

(** A naive [datetime].  The date is kept as its proleptic Gregorian
    ordinal ([toordinal()], day 1 is 0001-01-01), the form in which
    [datetime.__add__] computes with it. *)
Record datetime := {
  ordinal : Z;
  hour : Z;
  minute : Z;
  second : Z;
  microsecond : Z
}.

Definition MAXORDINAL : Z := 3652059.

Definition valid (t : datetime) : Prop :=
  1 <= ordinal t <= MAXORDINAL /\ 0 <= hour t < 24 /\ 0 <= minute t < 60 /\
  0 <= second t < 60 /\ 0 <= microsecond t < 1000000.

Record timedelta := { days : Z; seconds : Z; microseconds : Z }.

(** The normal form of a [timedelta]: microseconds carry into seconds,
    seconds into days; a magnitude beyond 999999999 days raises. *)
Definition normalize (d s us : Z) : result timedelta :=
  let s := s + us / 1000000 in
  let us := us mod 1000000 in
  let d := d + s / 86400 in
  let s := s mod 86400 in
  if Z.abs d <=? 999999999
  then Ok {| days := d; seconds := s; microseconds := us |}
  else Raise OverflowError.

(** [timedelta(hours=h)] *)
Definition of_hours (h : Z) : result timedelta := normalize 0 (h * 3600) 0.

(** [t + delta] *)
Definition add (t : datetime) (delta : timedelta) : result datetime :=
  do sum <- normalize (ordinal t + days delta)
              (hour t * 3600 + minute t * 60 + second t + seconds delta)
              (microsecond t + microseconds delta);
  let h := seconds sum / 3600 in
  let rem := seconds sum mod 3600 in
  if (0 <? days sum) && (days sum <=? MAXORDINAL)
  then Ok {| ordinal := days sum; hour := h; minute := rem / 60;
             second := rem mod 60; microsecond := microseconds sum |}
  else Raise OverflowError.

(** [t.strftime("%H")] and [t.strftime("%M")] *)
Definition strftime_H (t : datetime) : string := PyStr.two_digits (hour t).
Definition strftime_M (t : datetime) : string := PyStr.two_digits (minute t).

End Datetime.

(** ** Values, dictionaries and the object store *)

(** [QColor], as far as the program uses it: the three channels that
    [name()] prints. *)
Record QColor := RGB { red : Z; green : Z; blue : Z }.

Module Color.

Definition hex_digit (n : Z) : ascii :=
  let d := Z.to_nat (n mod 16) in
  ascii_of_nat (if (d <? 10)%nat then 48 + d else 87 + d).

Definition hex2 (n : Z) : string :=
  String (hex_digit (n mod 256 / 16)) (String (hex_digit n) EmptyString).

(** [c.name()]: a number sign and six hexadecimal digits *)
Definition name (c : QColor) : string :=
  String "#"%char (hex2 (red c) +:+ hex2 (green c) +:+ hex2 (blue c)).

Definition black : QColor := RGB 0 0 0.
Definition named_red : QColor := RGB 255 0 0.

End Color.

(** The values the settings dictionary holds: a colour (what
    [QColorDialog.getColor] returns), a string (the current text of a combo
    box) or an integer (the value of the spin box).  The handlers of the
    form store nothing else and the model has no other value: a float, a
    boolean and [None] are outside of it. *)
Inductive pyval :=
  | VColor (c : QColor)
  | VStr (s : string)
  | VInt (n : Z).

(** [v == s] for a string literal [s] *)
Definition eq_str (v : pyval) (s : string) : bool :=
  match v with
  | VStr t => String.eqb t s
  | _ => false
  end.

(** A [dict] with string keys is a finite map, an object reference a
    location of the store. *)
Abbreviation dict := (gmap string pyval).
Abbreviation loc := positive.
Abbreviation heap := (gmap loc dict).

Definition deref (h : heap) (l : loc) : dict := default ∅ (h !! l).

(** [d[key] = v] on the dictionary at [l], in place *)
Definition setitem (l : loc) (key : string) (v : pyval) (h : heap) : heap :=
  alter (<[key := v]>) l h.

(** A new object *)
Definition alloc (d : dict) (h : heap) : heap * loc :=
  let l := fresh (dom h) in (<[l := d]> h, l).

(** [d[key]] *)
Definition getitem (d : dict) (key : string) : result pyval :=
  match d !! key with
  | Some v => Ok v
  | None => Raise (KeyError key)
  end.

(** [d.get(key, default)] *)
Definition get (d : dict) (key : string) (default : pyval) : pyval :=
  match d !! key with
  | Some v => v
  | None => default
  end.

(** The argument of [timedelta(hours=v)], on the values of the model: an
    integer is taken as it is, a string and a colour raise [TypeError].
    ([timedelta] also takes a float or a boolean, which are no values of
    the model.) *)
Definition as_int (v : pyval) : result Z :=
  match v with
  | VInt n => Ok n
  | _ => Raise TypeError
  end.

(** An argument that must be a [str], as in [QFont(v)] *)
Definition as_str (v : pyval) : result string :=
  match v with
  | VStr s => Ok s
  | _ => Raise TypeError
  end.

(** The receiver of [v.split(...)]: only a [str] has the method *)
Definition str_receiver (v : pyval) : result string :=
  match v with
  | VStr s => Ok s
  | _ => Raise AttributeError
  end.

(** [v.name()]: only a [QColor] has the method *)
Definition color_name (v : pyval) : result string :=
  match v with
  | VColor q => Ok (Color.name q)
  | _ => Raise AttributeError
  end.

(** An argument that must be a [QColor] *)
Definition as_color (v : pyval) : result QColor :=
  match v with
  | VColor c => Ok c
  | _ => Raise TypeError
  end.

(** ** Signals

    A signal carries its argument as the type of its declaration says:
    [pyqtSignal(dict)] declares a [QVariantMap] argument, so [emit] turns the
    dictionary into a map of the toolkit and every slot receives a dictionary
    built anew from that map; a signal declared with [object] hands over the
    reference itself. *)
Inductive SignalArg :=
  | ArgDict
  | ArgObject.

Definition deliver (a : SignalArg) (h : heap) (l : loc) : heap * loc :=
  match a with
  | ArgDict => alloc (deref h l) h
  | ArgObject => (h, l)
  end.

(** ** Fonts *)

Record QFont := { family : string; pixelSize : Z }.

(** [QFont(family)]: no pixel size yet *)
Definition QFont_of_family (fam : string) : QFont :=
  {| family := fam; pixelSize := -1 |}.

(** [font.setPixelSize(n)]: a size that is not positive is refused with a
    warning and the font is left as it was; a size that does not fit a C
    [int] cannot be passed. *)
Definition setPixelSize (n : Z) (f : QFont) : result QFont :=
  if (n <? - 2 ^ 31) || (2 ^ 31 <=? n) then Raise OverflowError
  else if n <=? 0 then Ok f
  else Ok {| family := family f; pixelSize := n |}.

(** ** The clock screen *)

Inductive Key :=
  | Key_Escape
  | Key_Other (code : Z).

Module DigitalClockWidget.

Record state := {
  settings : loc;                 (* self.settings *)
  timer_active : bool;            (* self.timer *)
  timer_interval : Z;
  colon_visible : bool;           (* self.colon_visible *)
  window_color : option QColor;   (* palette, role Window; None: the default *)
  text_color : option QColor;     (* palette of time_label, role WindowText *)
  label_font : option QFont;      (* font of time_label; None: the default *)
  label_text : string;            (* text of time_label *)
  focus : bool
}.

Inductive signal := return_to_settings.

(** The assignments and toolkit calls the methods are made of *)

Definition set_settings (l : loc) (c : state) : state :=
  {| settings := l;
     timer_active := timer_active c; timer_interval := timer_interval c;
     colon_visible := colon_visible c;
     window_color := window_color c; text_color := text_color c;
     label_font := label_font c; label_text := label_text c; focus := focus c |}.

Definition set_window_color (q : QColor) (c : state) : state :=
  {| settings := settings c;
     timer_active := timer_active c; timer_interval := timer_interval c;
     colon_visible := colon_visible c;
     window_color := Some q; text_color := text_color c;
     label_font := label_font c; label_text := label_text c; focus := focus c |}.

Definition set_text_color (q : QColor) (c : state) : state :=
  {| settings := settings c;
     timer_active := timer_active c; timer_interval := timer_interval c;
     colon_visible := colon_visible c;
     window_color := window_color c; text_color := Some q;
     label_font := label_font c; label_text := label_text c; focus := focus c |}.

(** [self.timer.start(ms)] and [self.timer.stop()] *)
Definition timer_start (ms : Z) (c : state) : state :=
  {| settings := settings c;
     timer_active := true; timer_interval := ms;
     colon_visible := colon_visible c;
     window_color := window_color c; text_color := text_color c;
     label_font := label_font c; label_text := label_text c; focus := focus c |}.

Definition timer_stop (c : state) : state :=
  {| settings := settings c;
     timer_active := false; timer_interval := timer_interval c;
     colon_visible := colon_visible c;
     window_color := window_color c; text_color := text_color c;
     label_font := label_font c; label_text := label_text c; focus := focus c |}.

Definition setFocus (c : state) : state :=
  {| settings := settings c;
     timer_active := timer_active c; timer_interval := timer_interval c;
     colon_visible := colon_visible c;
     window_color := window_color c; text_color := text_color c;
     label_font := label_font c; label_text := label_text c; focus := true |}.

Definition setFont (f : QFont) (c : state) : state :=
  {| settings := settings c;
     timer_active := timer_active c; timer_interval := timer_interval c;
     colon_visible := colon_visible c;
     window_color := window_color c; text_color := text_color c;
     label_font := Some f; label_text := label_text c; focus := focus c |}.

Definition setText (text : string) (c : state) : state :=
  {| settings := settings c;
     timer_active := timer_active c; timer_interval := timer_interval c;
     colon_visible := colon_visible c;
     window_color := window_color c; text_color := text_color c;
     label_font := label_font c; label_text := text; focus := focus c |}.

Definition set_colon_visible (b : bool) (c : state) : state :=
  {| settings := settings c;
     timer_active := timer_active c; timer_interval := timer_interval c;
     colon_visible := b;
     window_color := window_color c; text_color := text_color c;
     label_font := label_font c; label_text := label_text c; focus := focus c |}.

(** [__init__] and [init_ui] *)
Definition init (h : heap) : heap * state :=
  let '(h, l) := alloc ∅ h in
  (h, {| settings := l; timer_active := false; timer_interval := 0;
         colon_visible := true; window_color := None; text_color := None;
         label_font := None; label_text := EmptyString; focus := false |}).

Definition start_clock (new_settings : loc) (h : heap) (c : state)
  : result (heap * state) :=
  let c := set_settings new_settings c in
  let d := deref h (settings c) in
  do bg <- getitem d "bg_color";
  do bg <- as_color bg;
  let c := set_window_color bg c in
  do fg <- getitem d "text_color";
  do fg <- as_color fg;
  let c := set_text_color fg c in
  let c := timer_start 500 c in
  Ok (h, setFocus c).

Definition stop_clock (h : heap) (c : state) : heap * state :=
  (h, timer_stop c).

Definition percentage (size_mode : pyval) : spec_float :=
  if eq_str size_mode "Small" then PyFloat.literal 30 100
  else if eq_str size_mode "Medium" then PyFloat.literal 50 100
  else PyFloat.literal 55 100.

(** [pixel_size = int(target_height * percentage)] *)
Definition pixel_size (target_height : Z) (size_mode : pyval) : result Z :=
  do product <- PyFloat.int_mul target_height (percentage size_mode);
  PyFloat.to_int product.

Definition update_font_size (target_height target_width : Z) (size_mode : pyval)
    (h : heap) (c : state) : result (heap * state) :=
  do pixel_size <- pixel_size target_height size_mode;
  let font_family := get (deref h (settings c)) "font_family" (VStr "Monospace") in
  do font_family <- as_str font_family;
  do font <- setPixelSize pixel_size (QFont_of_family font_family);
  Ok (h, setFont font c).

Definition colon_html (visible : bool) (color_name : string) : string :=
  if visible
  then "<span style=" +:+ PyStr.dquote +:+ "color:" +:+ color_name +:+ ";"
         +:+ PyStr.dquote +:+ ">:</span>"
  else "<span style=" +:+ PyStr.dquote +:+ "color:transparent;"
         +:+ PyStr.dquote +:+ ">:</span>".

(** One tick of the timer; [utc_now] is what [datetime.utcnow()] returns. *)
Definition update_time (utc_now : Datetime.datetime) (h : heap) (c : state)
  : result (heap * state) :=
  let d := deref h (settings c) in
  if bool_decide (size d = 0%nat) then Ok (h, c)
  else
    let offset := get d "gmt_offset" (VInt 0) in
    do offset <- as_int offset;
    do delta <- Datetime.of_hours offset;
    do current_time <- Datetime.add utc_now delta;
    let hours := Datetime.strftime_H current_time in
    let minutes := Datetime.strftime_M current_time in
    do text_color <- color_name (get d "text_color" (VColor Color.named_red));
    let time_html :=
      hours +:+ colon_html (colon_visible c) text_color +:+ minutes in
    let c := setText time_html c in
    Ok (h, set_colon_visible (negb (colon_visible c)) c).

(** The key handler: the escape key emits [return_to_settings]; any other
    key goes to [QWidget.keyPressEvent], which ignores it. *)
Definition keyPressEvent (key : Key) (h : heap) (c : state)
  : heap * state * list signal :=
  match key with
  | Key_Escape => (h, c, [return_to_settings])
  | Key_Other _ => (h, c, [])
  end.

End DigitalClockWidget.

(** ** The settings screen *)

Module SettingsWidget.

Record state := {
  settings : loc;        (* self.settings *)
  bg_btn : QColor;       (* the colour the background button shows *)
  text_btn : QColor      (* the colour the text button shows *)
}.

Inductive signal := start_clock_signal (arg : loc).

(** The declaration [start_clock_signal = pyqtSignal(dict)] *)
Definition start_clock_signal_arg : SignalArg := ArgDict.

Definition defaults : dict :=
  <["bg_color" := VColor Color.black]>
  (<["text_color" := VColor Color.named_red]>
  (<["size" := VStr "Full Screen"]>
  (<["gmt_offset" := VInt (-3)]>
  (<["font_family" := VStr "Monospace"]>
  (<["resolution" := VStr "1920x1080"]> ∅))))).

(** The items of the three drop-down lists and the range of the spin box *)
Definition sizes : list string := ["Small"; "Medium"; "Full Screen"].

Definition fonts : list string :=
  ["Monospace"; "Liberation Mono"; "DejaVu Sans Mono"; "Courier New";
   "FreeMono"; "Ubuntu Mono"].

Definition resolutions : list string :=
  ["1920x1080"; "1680x1050"; "1600x900"; "1440x900"; "1366x768"; "1360x768";
   "1280x1024"; "1280x960"; "1280x800"; "1280x720"; "1280x600"].

Definition gmt_min : Z := -12.
Definition gmt_max : Z := 14.

Definition init (h : heap) : heap * state :=
  let '(h, l) := alloc defaults h in
  (h, {| settings := l; bg_btn := Color.black; text_btn := Color.named_red |}).

(** [picked] is the colour the dialog returns; [None] stands for the
    invalid colour of a cancelled dialog. *)
Definition choose_bg_color (picked : option QColor) (h : heap) (w : state)
  : heap * state :=
  match picked with
  | Some color =>
      (setitem (settings w) "bg_color" (VColor color) h,
       {| settings := settings w; bg_btn := color; text_btn := text_btn w |})
  | None => (h, w)
  end.

Definition choose_text_color (picked : option QColor) (h : heap) (w : state)
  : heap * state :=
  match picked with
  | Some color =>
      (setitem (settings w) "text_color" (VColor color) h,
       {| settings := settings w; bg_btn := bg_btn w; text_btn := color |})
  | None => (h, w)
  end.

Definition set_size (text : string) (h : heap) (w : state) : heap * state :=
  (setitem (settings w) "size" (VStr text) h, w).

Definition set_gmt (value : Z) (h : heap) (w : state) : heap * state :=
  (setitem (settings w) "gmt_offset" (VInt value) h, w).

Definition set_font (text : string) (h : heap) (w : state) : heap * state :=
  (setitem (settings w) "font_family" (VStr text) h, w).

Definition set_resolution (text : string) (h : heap) (w : state) : heap * state :=
  (setitem (settings w) "resolution" (VStr text) h, w).

Definition on_start (h : heap) (w : state) : heap * state * list signal :=
  (h, w, [start_clock_signal (settings w)]).

End SettingsWidget.

(** ** The application shell *)

Module MainApp.

Inductive page := settings_page | clock_page.

Inductive window_mode := Hidden | Normal | FullScreen.

Record state := {
  objects : heap;
  settings_widget : SettingsWidget.state;
  clock_widget : DigitalClockWidget.state;
  current_widget : page;       (* the page the stacked widget shows *)
  mode : window_mode;
  geometry : Z * Z             (* width and height of the window *)
}.

(** The toolkit calls the two methods are made of *)

Definition stop_clock (s : state) : state :=
  let '(h, c) := DigitalClockWidget.stop_clock (objects s) (clock_widget s) in
  {| objects := h; settings_widget := settings_widget s; clock_widget := c;
     current_widget := current_widget s; mode := mode s; geometry := geometry s |}.

Definition show_as (m : window_mode) (s : state) : state :=
  {| objects := objects s; settings_widget := settings_widget s;
     clock_widget := clock_widget s; current_widget := current_widget s;
     mode := m; geometry := geometry s |}.

Definition showNormal : state -> state := show_as Normal.
Definition showFullScreen : state -> state := show_as FullScreen.

Definition resize (width height : Z) (s : state) : state :=
  {| objects := objects s; settings_widget := settings_widget s;
     clock_widget := clock_widget s; current_widget := current_widget s;
     mode := mode s; geometry := (width, height) |}.

Definition setCurrentWidget (p : page) (s : state) : state :=
  {| objects := objects s; settings_widget := settings_widget s;
     clock_widget := clock_widget s; current_widget := p;
     mode := mode s; geometry := geometry s |}.

Definition with_clock (hc : heap * DigitalClockWidget.state) (s : state) : state :=
  {| objects := hc.1; settings_widget := settings_widget s;
     clock_widget := hc.2; current_widget := current_widget s;
     mode := mode s; geometry := geometry s |}.

(** The statements of [show_settings], in the order of the source *)
Definition show_settings_steps : list (state -> state) :=
  [stop_clock; showNormal; resize 400 500; setCurrentWidget settings_page].

Definition run (steps : list (state -> state)) (s : state) : state :=
  fold_left (fun s step => step s) steps s.

(** The states after each statement *)
Fixpoint trace (steps : list (state -> state)) (s : state) : list state :=
  match steps with
  | [] => []
  | step :: rest => step s :: trace rest (step s)
  end.

Definition show_settings (s : state) : state := run show_settings_steps s.

(** Lines 264 to 267: the text of the resolution is split on the letter x
    and both parts are converted. *)
Definition parse_resolution (resolution : string) : result (Z * Z) :=
  match PyStr.split "x" resolution with
  | [width_str; height_str] =>
      do screen_width <- PyStr.int width_str;
      do screen_height <- PyStr.int height_str;
      Ok (screen_width, screen_height)
  | _ => Raise ValueError
  end.

(** Lines 269 to 277 *)
Definition select_window (size_mode : pyval) (s : state) : state :=
  if eq_str size_mode "Full Screen" then showFullScreen s
  else
    let s := showNormal s in
    if eq_str size_mode "Small" then resize 400 200 s
    else if eq_str size_mode "Medium" then resize 800 400 s
    else s.

(** [show_clock] up to line 277: the clock page becomes the current one,
    the resolution is parsed, the window is selected.  The result is the
    state in which line 280 is reached, with the size of the screen. *)
Definition show_clock_window (settings : loc) (s : state) : result (state * (Z * Z)) :=
  let s := setCurrentWidget clock_page s in
  let d := deref (objects s) settings in
  let resolution := get d "resolution" (VStr "1920x1080") in
  do resolution <- str_receiver resolution;
  do ' (screen_width, screen_height) <- parse_resolution resolution;
  do size_mode <- getitem d "size";
  Ok (select_window size_mode s, (screen_width, screen_height)).

(** [show_clock] from line 284 on: the clock is started and the font
    sized; [settings['size']] is read again for the second call. *)
Definition show_clock_start (settings : loc) (screen : Z * Z) (s : state)
  : result state :=
  let '(screen_width, screen_height) := screen in
  do started <- DigitalClockWidget.start_clock settings (objects s) (clock_widget s);
  do size_mode <- getitem (deref started.1 settings) "size";
  do sized <- DigitalClockWidget.update_font_size screen_height screen_width
                size_mode started.1 started.2;
  Ok (with_clock (sized.1, DigitalClockWidget.setFocus sized.2) s).

(** [show_clock].  Between the two parts, at line 280,
    [QApplication.processEvents()] runs the handlers of the events that are
    pending at that moment, a key press or a timeout for instance:
    [processEvents] is what these handlers do to the state.  An exception
    that leaves one of them ends the process. *)
Definition show_clock (processEvents : state -> result state) (settings : loc)
    (s : state) : result state :=
  do ' (s, screen) <- show_clock_window settings s;
  do s <- processEvents s;
  show_clock_start settings screen s.

(** [__init__]: both screens are built, the settings screen is the first
    page of the stack, and [show_settings] is called. *)
Definition init : state :=
  let '(h, w) := SettingsWidget.init ∅ in
  let '(h, c) := DigitalClockWidget.init h in
  show_settings
    {| objects := h; settings_widget := w; clock_widget := c;
       current_widget := settings_page; mode := Hidden; geometry := (640, 480) |}.

(** *** The event loop *)

(** What the toolkit delivers.  A click on the start button comes with the
    events that are pending when its handler reaches
    [QApplication.processEvents()], in the order in which they are dispatched
    there; [ClickStart []] is a click with nothing pending. *)
#[local] Unset Elimination Schemes.
Inductive event :=
  | ChooseBgColor (picked : option QColor)
  | ChooseTextColor (picked : option QColor)
  | SetSize (text : string)
  | SetGmt (value : Z)
  | SetFont (text : string)
  | SetResolution (text : string)
  | ClickStart (pending : list event)
  | Timeout (utc_now : Datetime.datetime)
  | PressKey (key : Key).
#[local] Set Elimination Schemes.

Definition with_settings (hw : heap * SettingsWidget.state) (s : state) : state :=
  {| objects := hw.1; settings_widget := hw.2;
     clock_widget := clock_widget s; current_widget := current_widget s;
     mode := mode s; geometry := geometry s |}.

(** [show_clock] as the slot of a signal whose argument travels as [a] *)
Definition start_slot (a : SignalArg) (processEvents : state -> result state)
    (sig : SettingsWidget.signal) (s : state) : result state :=
  match sig with
  | SettingsWidget.start_clock_signal l =>
      let '(h, arg) := deliver a (objects s) l in
      show_clock processEvents arg (with_settings (h, settings_widget s) s)
  end.

(** The slot connected to [start_clock_signal] *)
Definition on_start_clock_signal (processEvents : state -> result state)
  : SettingsWidget.signal -> state -> result state :=
  start_slot SettingsWidget.start_clock_signal_arg processEvents.

(** The slot connected to [return_to_settings] *)
Definition on_return_to_settings (sig : DigitalClockWidget.signal) (s : state)
  : state :=
  match sig with
  | DigitalClockWidget.return_to_settings => show_settings s
  end.

Fixpoint emit_all {S} (slot : S -> state -> result state) (sigs : list S)
    (s : state) : result state :=
  match sigs with
  | [] => Ok s
  | sig :: rest => do s <- slot sig s; emit_all slot rest s
  end.

(** The handlers of a list of events, one after the other *)
Definition dispatch (handle : event -> state -> result state)
  : list event -> state -> result state :=
  fix dispatch (es : list event) (s : state) : result state :=
    match es with
    | [] => Ok s
    | e :: es => do s <- handle e s; dispatch es s
    end.

Fixpoint handle (e : event) (s : state) {struct e} : result state :=
  let h := objects s in
  let w := settings_widget s in
  match e with
  | ChooseBgColor picked =>
      Ok (with_settings (SettingsWidget.choose_bg_color picked h w) s)
  | ChooseTextColor picked =>
      Ok (with_settings (SettingsWidget.choose_text_color picked h w) s)
  | SetSize text => Ok (with_settings (SettingsWidget.set_size text h w) s)
  | SetGmt value => Ok (with_settings (SettingsWidget.set_gmt value h w) s)
  | SetFont text => Ok (with_settings (SettingsWidget.set_font text h w) s)
  | SetResolution text =>
      Ok (with_settings (SettingsWidget.set_resolution text h w) s)
  | ClickStart pending =>
      let '(h, w, sigs) := SettingsWidget.on_start h w in
      emit_all (on_start_clock_signal (dispatch handle pending)) sigs
               (with_settings (h, w) s)
  | Timeout utc_now =>
      do ticked <- DigitalClockWidget.update_time utc_now h (clock_widget s);
      Ok (with_clock ticked s)
  | PressKey key =>
      let '(h, c, sigs) := DigitalClockWidget.keyPressEvent key h (clock_widget s) in
      emit_all (fun sig s => Ok (on_return_to_settings sig s)) sigs
               (with_clock (h, c) s)
  end.

(** The state in which the handler of a click on the start button reaches
    line 280 *)
Definition at_processEvents (s : state) : result state :=
  let '(h, arg) :=
    deliver SettingsWidget.start_clock_signal_arg (objects s)
      (SettingsWidget.settings (settings_widget s)) in
  do ' (s, _) <- show_clock_window arg (with_settings (h, settings_widget s) s);
  Ok s.

(** Every event of a list can be delivered in the state in which it is
    dispatched; after a handler that raises nothing more is dispatched. *)
Definition enabled_all (enabled : event -> state -> Prop)
  : list event -> state -> Prop :=
  fix enabled_all (es : list event) (s : state) : Prop :=
    match es with
    | [] => True
    | e :: es =>
        enabled e s /\
        match handle e s with
        | Ok s => enabled_all es s
        | Raise _ => True
        end
    end.

(** What the toolkit can deliver: a drop-down list one of its items, the
    spin box a value of its range, the timer a timeout only while it is
    active; and with a click on the start button, pending events that can be
    delivered when they are dispatched. *)
Fixpoint enabled (e : event) (s : state) {struct e} : Prop :=
  match e with
  | SetSize text => text ∈ SettingsWidget.sizes
  | SetGmt value => SettingsWidget.gmt_min <= value <= SettingsWidget.gmt_max
  | SetFont text => text ∈ SettingsWidget.fonts
  | SetResolution text => text ∈ SettingsWidget.resolutions
  | Timeout _ => DigitalClockWidget.timer_active (clock_widget s) = true
  | ClickStart pending =>
      match at_processEvents s with
      | Ok s => enabled_all enabled pending s
      | Raise _ => True
      end
  | _ => True
  end.

(** An exception that leaves a slot ends the process: a step is a handler
    that returns. *)
Definition step (s : state) (e : event) (s' : state) : Prop :=
  enabled e s /\ handle e s = Ok s'.

Inductive reachable : state -> Prop :=
  | reachable_init : reachable init
  | reachable_step s e s' : reachable s -> step s e s' -> reachable s'.

End MainApp.

(** ** Notions the statements use *)

Module Spec.

(** The text a rich-text label shows: what stands between angle brackets
    is markup, the rest is text. *)
Fixpoint html_text (in_tag : bool) (s : string) : string :=
  match s with
  | EmptyString => EmptyString
  | String c rest =>
      if in_tag then html_text (negb (Ascii.eqb c ">"%char)) rest
      else if Ascii.eqb c "<"%char then html_text true rest
      else String c (html_text false rest)
  end.

(** The percentage of a size mode, in hundredths: 0.30 for Small, 0.50
    for Medium, 0.55 for Full Screen. *)
Definition percent (size_mode : pyval) : Z :=
  if eq_str size_mode "Small" then 30
  else if eq_str size_mode "Medium" then 50
  else 55.

(** floor(height x percentage) *)
Definition font_pixel_size (height : Z) (size_mode : pyval) : Z :=
  height * percent size_mode / 100.

(** [P lo], [P (lo+1)], ... for [n] integers *)
Fixpoint forall_from (n : nat) (lo : Z) (P : Z -> bool) : bool :=
  match n with
  | O => true
  | S k => P lo && forall_from k (lo + 1) P
  end.

(** [int(height * lit)] is the floor of [height * pct / 100] *)
Definition floor_check (lit : spec_float) (pct : Z) (height : Z) : bool :=
  match (do product <- PyFloat.int_mul height lit; PyFloat.to_int product) with
  | Ok px => px =? height * pct / 100
  | Raise _ => false
  end.

(** No character of [s] is the separator *)
Fixpoint free (sep : ascii) (s : string) : Prop :=
  match s with
  | EmptyString => True
  | String c rest => c <> sep /\ free sep rest
  end.

(** Two decimal digits: the text is the digit of the tens of [n] and the
    digit of its units. *)
Definition two_decimal_digits (s : string) (n : Z) : Prop :=
  exists tens units,
    0 <= tens <= 9 /\ 0 <= units <= 9 /\ n = 10 * tens + units /\
    s = String (ascii_of_nat (48 + Z.to_nat tens))
          (String (ascii_of_nat (48 + Z.to_nat units)) EmptyString).

(** The number a sequence of decimal digits stands for *)
Definition value (ds : list Z) : Z :=
  fold_left (fun n c => 10 * n + default 0 (PyStr.digit_val c)) ds 0.

(** Groups of characters with one underscore between two groups *)
Definition underscored (groups : list (list Z)) : list Z :=
  match groups with
  | [] => []
  | g :: gs => g ++ concat (map (cons PyStr.underscore) gs)
  end.

(** A group of decimal digits, one at least *)
Definition digit_group (g : list Z) : Prop :=
  g <> [] /\ Forall (fun c => is_Some (PyStr.digit_val c)) g.

(** No sign, a plus sign or a minus sign *)
Inductive sign_of : list Z -> Z -> Prop :=
  | no_sign : sign_of [] 1
  | plus_sign : sign_of [43] 1
  | minus_sign : sign_of [45] (-1).

(** An integer written in base ten, as the language reference describes
    the argument of [int]: white space, a sign or none, groups of decimal
    digits with single underscores between them, white space; at most 4300
    digits.  [n] is the integer written. *)
Definition integer_text (s : string) (n : Z) : Prop :=
  exists lead sign factor groups trail,
    PyStr.points s = lead ++ sign ++ underscored groups ++ trail /\
    Forall (fun c => PyStr.is_space c = true) lead /\
    Forall (fun c => PyStr.is_space c = true) trail /\
    sign_of sign factor /\
    groups <> [] /\ Forall digit_group groups /\
    Z.of_nat (length (concat groups)) <= 4300 /\
    n = factor * value (concat groups).

(** A text of the form WIDTHxHEIGHT: two integers in base ten around one
    letter x. *)
Definition width_x_height (r : string) : Prop :=
  exists ws hs w h,
    r = ws +:+ "x" +:+ hs /\ integer_text ws w /\ integer_text hs h.

(** The handlers of the controls of the settings screen *)
Definition is_mutation (e : MainApp.event) : bool :=
  match e with
  | MainApp.ChooseBgColor _ | MainApp.ChooseTextColor _ | MainApp.SetSize _
  | MainApp.SetGmt _ | MainApp.SetFont _ | MainApp.SetResolution _ => true
  | _ => false
  end.

Fixpoint run_events (es : list MainApp.event) (s : MainApp.state)
  : result MainApp.state :=
  match es with
  | [] => Ok s
  | e :: rest => do s <- MainApp.handle e s; run_events rest s
  end.

Definition is_tick (e : MainApp.event) : bool :=
  match e with
  | MainApp.Timeout _ => true
  | _ => false
  end.

(** The clock screen of a run, or the exception that ended it *)
Definition clock_of (r : result MainApp.state) : result DigitalClockWidget.state :=
  match r with
  | Ok s => Ok (MainApp.clock_widget s)
  | Raise e => Raise e
  end.

(** The store is what it was, when the method returns *)
Definition keeps_store {A} (h : heap) (r : result (heap * A)) : Prop :=
  match r with
  | Ok (h', _) => h' = h
  | Raise _ => True
  end.

(** The six entries of the settings, each of its type *)
Definition typed (d : dict) : Prop :=
  (exists q, d !! "bg_color" = Some (VColor q)) /\
  (exists q, d !! "text_color" = Some (VColor q)) /\
  (exists m, d !! "size" = Some (VStr m)) /\
  (exists n, d !! "gmt_offset" = Some (VInt n)) /\
  (exists f, d !! "font_family" = Some (VStr f)) /\
  (exists r, d !! "resolution" = Some (VStr r)).

(** [processEvents], called by [show_clock] for the dictionary at [l] in
    state [s], returns and leaves that dictionary as it is. *)
Definition undisturbed (processEvents : MainApp.state -> result MainApp.state)
    (l : loc) (s : MainApp.state) : Prop :=
  forall s1 screen,
    MainApp.show_clock_window l s = Ok (s1, screen) ->
    exists s2,
      processEvents s1 = Ok s2 /\
      deref (MainApp.objects s2) l = deref (MainApp.objects s1) l.

(** A click on the start button *)
Definition is_start (e : MainApp.event) : bool :=
  match e with
  | MainApp.ClickStart _ => true
  | _ => false
  end.

(** What no handler undoes: the form keeps its dictionary object, no object
    disappears, and no dictionary but the form's is written to. *)
Definition framed (s s' : MainApp.state) : Prop :=
  SettingsWidget.settings (MainApp.settings_widget s')
  = SettingsWidget.settings (MainApp.settings_widget s) /\
  dom (MainApp.objects s) ⊆ dom (MainApp.objects s') /\
  forall l,
    l ∈ dom (MainApp.objects s) ->
    l <> SettingsWidget.settings (MainApp.settings_widget s) ->
    deref (MainApp.objects s') l = deref (MainApp.objects s) l.

(** While the clock screen is shown the timer runs. *)
Definition clock_runs (s : MainApp.state) : Prop :=
  MainApp.current_widget s = MainApp.clock_page ->
  DigitalClockWidget.timer_active (MainApp.clock_widget s) = true.

(** While the settings screen is shown the timer is stopped. *)
Definition timer_inv (s : MainApp.state) : Prop :=
  MainApp.current_widget s = MainApp.settings_page ->
  DigitalClockWidget.timer_active (MainApp.clock_widget s) = false.

(** A click on the start button with no event pending at line 280 *)
Definition nothing_pending (e : MainApp.event) : Prop :=
  match e with
  | MainApp.ClickStart pending => pending = []
  | _ => True
  end.

(** The states of the runs in which no event is ever pending when
    [show_clock] calls [processEvents] *)
Inductive reachable_one_by_one : MainApp.state -> Prop :=
  | one_by_one_init : reachable_one_by_one MainApp.init
  | one_by_one_step s e s' :
      reachable_one_by_one s -> nothing_pending e -> MainApp.step s e s' ->
      reachable_one_by_one s'.

(** Two states show the same clock: same widget, same dictionary behind it. *)
Definition same_clock (s t : MainApp.state) : Prop :=
  MainApp.clock_widget s = MainApp.clock_widget t /\
  deref (MainApp.objects s) (DigitalClockWidget.settings (MainApp.clock_widget s))
  = deref (MainApp.objects t) (DigitalClockWidget.settings (MainApp.clock_widget t)).

(** The clock reads another dictionary than the one the form writes. *)
Definition separate (s : MainApp.state) : Prop :=
  DigitalClockWidget.settings (MainApp.clock_widget s)
  <> SettingsWidget.settings (MainApp.settings_widget s).

End Spec.

(** Induction on an event and the events pending with it *)
Section event_induction.

Variable P : MainApp.event -> Prop.
Hypothesis other : forall e, Spec.is_start e = false -> P e.
Hypothesis start : forall pending, Forall P pending -> P (MainApp.ClickStart pending).

Fixpoint event_ind (e : MainApp.event) : P e :=
  match e with
  | MainApp.ClickStart pending =>
      start pending
        ((fix all (es : list MainApp.event) : Forall P es :=
            match es with
            | [] => @List.Forall_nil _ P
            | e :: es => @List.Forall_cons _ P e es (event_ind e) (all es)
            end) pending)
  | e => other e eq_refl
  end.

End event_induction.

(** ** A run used as an example: the application is started with the
    default settings and the clock is shown; the instant is 24 April 2024,
    14:00:05 UTC. *)

Module Example.

Definition after (es : list MainApp.event) : MainApp.state :=
  match Spec.run_events es MainApp.init with
  | Ok s => s
  | Raise _ => MainApp.init
  end.

Definition started : MainApp.state := after [MainApp.ClickStart []].

(** The escape key is pressed right after the click on the start button,
    and is pending when [show_clock] calls [processEvents]. *)
Definition escape_pending : MainApp.event :=
  MainApp.ClickStart [MainApp.PressKey Key_Escape].

Definition raced : MainApp.state := after [escape_pending].

(** The dictionary of the settings form *)
Definition form : loc := SettingsWidget.settings (MainApp.settings_widget MainApp.init).

(** Medium and 1366x768 are selected in the form. *)
Definition medium_1366 : MainApp.state :=
  after [MainApp.SetResolution "1366x768"; MainApp.SetSize "Medium"].

(** The dictionary holds a resolution that is no item of the list. *)
Definition free_text : MainApp.state :=
  after [MainApp.SetResolution "1366 by 768"].

Definition store : heap := MainApp.objects started.
Definition clock : DigitalClockWidget.state := MainApp.clock_widget started.

Definition utc_14_00 : Datetime.datetime :=
  {| Datetime.ordinal := 739000; Datetime.hour := 14; Datetime.minute := 0;
     Datetime.second := 5; Datetime.microsecond := 7 |}.

Definition utc_23_59 : Datetime.datetime :=
  {| Datetime.ordinal := 739000; Datetime.hour := 23; Datetime.minute := 59;
     Datetime.second := 59; Datetime.microsecond := 999999 |}.

End Example.

(** ** The settings as the form keeps them *)

Module Form.

(** The dictionary of the settings with its six entries *)
Definition settings_of (bg fg : QColor) (size : string) (gmt : Z)
    (font resolution : string) : dict :=
  <["bg_color" := VColor bg]>
  (<["text_color" := VColor fg]>
  (<["size" := VStr size]>
  (<["gmt_offset" := VInt gmt]>
  (<["font_family" := VStr font]>
  (<["resolution" := VStr resolution]> ∅))))).

(** The six entries, each a value its control can deliver *)
Definition ok (d : dict) : Prop :=
  exists bg fg size gmt font resolution,
    d = settings_of bg fg size gmt font resolution /\
    size ∈ SettingsWidget.sizes /\
    SettingsWidget.gmt_min <= gmt <= SettingsWidget.gmt_max /\
    font ∈ SettingsWidget.fonts /\
    resolution ∈ SettingsWidget.resolutions.

(** What a handler of the form writes: the key and the value *)
Definition written (e : MainApp.event) : option (string * pyval) :=
  match e with
  | MainApp.ChooseBgColor (Some q) => Some ("bg_color", VColor q)
  | MainApp.ChooseTextColor (Some q) => Some ("text_color", VColor q)
  | MainApp.SetSize text => Some ("size", VStr text)
  | MainApp.SetGmt value => Some ("gmt_offset", VInt value)
  | MainApp.SetFont text => Some ("font_family", VStr text)
  | MainApp.SetResolution text => Some ("resolution", VStr text)
  | _ => None
  end.

(** An instant [datetime.utcnow()] can return and a shift of less than a
    day keeps in range *)
Definition representable (t : Datetime.datetime) : Prop :=
  Datetime.valid t /\ 1 < Datetime.ordinal t < Datetime.MAXORDINAL.

(** The instants of the timeouts of an event, pending ones included, are
    representable. *)
Fixpoint instants_representable (e : MainApp.event) : Prop :=
  match e with
  | MainApp.Timeout utc_now => representable utc_now
  | MainApp.ClickStart pending =>
      fold_right (fun e rest => instants_representable e /\ rest) True pending
  | _ => True
  end.

(** An event the toolkit can deliver in state [s] *)
Definition deliverable (e : MainApp.event) (s : MainApp.state) : Prop :=
  MainApp.enabled e s /\ instants_representable e.

(** What holds whenever a handler runs, also of those [processEvents]
    runs inside [show_clock] *)
Definition inv (s : MainApp.state) : Prop :=
  let form := SettingsWidget.settings (MainApp.settings_widget s) in
  let c := MainApp.clock_widget s in
  form ∈ dom (MainApp.objects s) /\
  ok (deref (MainApp.objects s) form) /\
  DigitalClockWidget.settings c <> form /\
  DigitalClockWidget.settings c ∈ dom (MainApp.objects s) /\
  (deref (MainApp.objects s) (DigitalClockWidget.settings c) = ∅ \/
   ok (deref (MainApp.objects s) (DigitalClockWidget.settings c))) /\
  (DigitalClockWidget.timer_active c = true ->
   DigitalClockWidget.timer_interval c = 500 /\
   ok (deref (MainApp.objects s) (DigitalClockWidget.settings c))).

End Form.

(** ** Texts: decimal digits, joining, white space *)

Module Text.

(** The decimal digits of [n >= 0], most significant first, as [str(n)]
    writes them *)
Fixpoint decimal_aux (fuel : nat) (n : Z) (rest : string) : string :=
  match fuel with
  | O => rest
  | S fuel' =>
      let rest' := String (PyStr.digit_char n) rest in
      if n <? 10 then rest' else decimal_aux fuel' (n / 10) rest'
  end.

Definition decimal (n : Z) : string :=
  decimal_aux (S (Z.to_nat (Z.log2 n))) n EmptyString.

(** The occurrences of a character *)
Fixpoint count (c : ascii) (s : string) : nat :=
  match s with
  | EmptyString => O
  | String a rest => (if Ascii.eqb a c then 1 else 0) + count c rest
  end.

(** [sep.join(parts)] *)
Fixpoint join (sep : ascii) (parts : list string) : string :=
  match parts with
  | [] => EmptyString
  | [p] => p
  | p :: ps => p +:+ String sep (join sep ps)
  end.

(** Every character of [s] is white space *)
Definition all_space (s : string) : bool :=
  forallb PyStr.is_space (PyStr.points s).

End Text.


(** * Properties *)

Import DigitalClockWidget.

(** ** The exception monad *)

Lemma bind_Ok {A B} (r : result A) (k : A -> result B) (b : B) :
  bind r k = Ok b -> exists a, r = Ok a /\ k a = Ok b.
Proof. destruct r as [a|e]; cbn; [eauto | discriminate]. Qed.

Tactic Notation "bind_inv" hyp(H) "as" simple_intropattern(a) ident(Ha) :=
  apply bind_Ok in H as (a & Ha & H).

(** ** The store *)

Lemma deref_alloc (d : dict) (h : heap) :
  deref (alloc d h).1 (alloc d h).2 = d.
Proof. unfold deref, alloc. cbn. by rewrite lookup_insert_eq. Qed.

Lemma alloc_fresh (d : dict) (h : heap) : (alloc d h).2 ∉ dom h.
Proof. apply is_fresh. Qed.

Lemma deref_alloc_old (d : dict) (h : heap) (l : loc) :
  l ∈ dom h -> deref (alloc d h).1 l = deref h l.
Proof.
  intros Hl. unfold deref, alloc. cbn.
  rewrite lookup_insert_ne; [done|].
  intros Heq. apply (is_fresh (dom h)). by rewrite Heq.
Qed.

Lemma deref_setitem_ne (l l' : loc) key v (h : heap) :
  l <> l' -> deref (setitem l key v h) l' = deref h l'.
Proof. intros Hne. unfold deref, setitem. by rewrite lookup_alter_ne. Qed.

Lemma deref_setitem_eq (l : loc) key v (h : heap) :
  l ∈ dom h -> deref (setitem l key v h) l = <[key := v]> (deref h l).
Proof.
  intros [d Hd]%elem_of_dom. unfold deref, setitem.
  rewrite lookup_alter_eq, Hd. done.
Qed.

Lemma dom_setitem (l : loc) key v (h : heap) : dom (setitem l key v h) = dom h.
Proof. unfold setitem. apply dom_alter_L. Qed.

(** ** The clock screen alone *)

(** C8. Stopping the clock is idempotent: on a clock whose timer is already
    stopped [stop_clock] changes nothing, and stopping twice leaves the
    state a single [stop_clock] leaves. *)
Theorem stop_clock_idempotent (h : heap) (c : state) :
  (timer_active c = false -> stop_clock h c = (h, c)) /\
  stop_clock (stop_clock h c).1 (stop_clock h c).2 = stop_clock h c.
Proof.
  split; [|reflexivity].
  intros Hoff. destruct c; cbn in *. by subst.
Qed.

Lemma stop_clock_idempotent_witness :
  stop_clock (MainApp.objects MainApp.init) (MainApp.clock_widget MainApp.init)
  = (MainApp.objects MainApp.init, MainApp.clock_widget MainApp.init).
Proof.
  apply (proj1 (stop_clock_idempotent (MainApp.objects MainApp.init)
                  (MainApp.clock_widget MainApp.init))).
  reflexivity.
Defined.

(** C7. The key handler of the clock screen answers the escape key by
    emitting [return_to_settings], once, and by nothing else: the timer and
    every other field of the clock screen, and the store, are as before. *)
Theorem keyPressEvent_escape (h : heap) (c : state) :
  keyPressEvent Key_Escape h c = (h, c, [return_to_settings]) /\
  timer_active (keyPressEvent Key_Escape h c).1.2 = timer_active c.
Proof. split; reflexivity. Qed.

(** C6. No method of the clock screen writes to the store of dictionaries:
    when [start_clock], [update_time] or [update_font_size] returns, and
    after [stop_clock] and [keyPressEvent], every dictionary, the settings
    the clock received among them, holds what it held. *)
Theorem clock_screen_never_mutates_settings (h : heap) (c : state) :
  (forall l, Spec.keeps_store h (start_clock l h c)) /\
  (forall utc_now, Spec.keeps_store h (update_time utc_now h c)) /\
  (forall target_height target_width size_mode,
     Spec.keeps_store h (update_font_size target_height target_width size_mode h c)) /\
  (stop_clock h c).1 = h /\
  (forall key, (keyPressEvent key h c).1.1 = h).
Proof.
  repeat split.
  - intros l. unfold start_clock.
    repeat (match goal with
            | |- Spec.keeps_store _ (bind ?r _) => destruct r; cbn [bind]
            end); cbn; done.
  - intros utc_now. unfold update_time.
    case_bool_decide; [done|].
    repeat (match goal with
            | |- Spec.keeps_store _ (bind ?r _) => destruct r; cbn [bind]
            end); cbn; done.
  - intros th tw m. unfold update_font_size.
    repeat (match goal with
            | |- Spec.keeps_store _ (bind ?r _) => destruct r; cbn [bind]
            end); cbn; done.
  - intros []; reflexivity.
Qed.

(** ** Bounded checks *)

Lemma forall_from_spec (n : nat) (P : Z -> bool) :
  forall lo, Spec.forall_from n lo P = true ->
  forall x, lo <= x < lo + Z.of_nat n -> P x = true.
Proof.
  induction n as [|n IH]; intros lo H x Hx; [lia|].
  cbn [Spec.forall_from] in H. apply andb_prop in H as [Hlo Hrest].
  destruct (Z.eq_dec x lo) as [->|Hne]; [exact Hlo|].
  apply (IH (lo + 1) Hrest). lia.
Qed.

(** ** Dates and times *)

Section DatetimeFacts.
Import Datetime.

Lemma of_hours_ok (off : Z) :
  -12 <= off <= 14 ->
  of_hours off = Ok {| days := off * 3600 / 86400; seconds := off * 3600 mod 86400; microseconds := 0 |}.
Proof.
  intros Hoff. unfold of_hours, normalize.
  change (0 / 1000000) with 0. change (0 mod 1000000) with 0.
  rewrite Z.add_0_r, Z.add_0_l.
  destruct (Z.leb_spec (Z.abs (off * 3600 / 86400)) 999999999) as [_|Hbig]; [reflexivity|].
  exfalso. revert Hbig. apply Z.le_ngt.
  assert (-1 <= off * 3600 / 86400 <= 0) by (Z.div_mod_to_equations; lia). lia.
Qed.

Lemma add_hours (t : datetime) (off : Z) :
  valid t -> 1 < ordinal t < MAXORDINAL -> -12 <= off <= 14 ->
  exists delta t', of_hours off = Ok delta /\ add t delta = Ok t' /\
    hour t' = (hour t + off) mod 24 /\ minute t' = minute t.
Proof.
  intros (Hord & Hh & Hm & Hs & Hus) Hin Hoff.
  eexists. rewrite (of_hours_ok off Hoff).
  cut (forall delta, delta = {| days := off * 3600 / 86400;
                                seconds := off * 3600 mod 86400;
                                microseconds := 0 |} ->
         exists t', add t delta = Ok t' /\
           hour t' = (hour t + off) mod 24 /\ minute t' = minute t).
  { intros Hcut. destruct (Hcut _ eq_refl) as (t' & Ht'). eauto. }
  intros delta ->.
  unfold add, normalize. cbn [days seconds microseconds].
  rewrite Z.add_0_r.
  replace (microsecond t / 1000000) with 0 by (Z.div_mod_to_equations; lia).
  rewrite Z.add_0_r.
  set (S := hour t * 3600 + minute t * 60 + second t + off * 3600 mod 86400).
  set (D := ordinal t + off * 3600 / 86400 + S / 86400).
  assert (HD : 1 <= D <= MAXORDINAL).
  { unfold D, S, MAXORDINAL in *. Z.div_mod_to_equations. lia. }
  destruct (Z.leb_spec (Z.abs D) 999999999) as [_|Hbig];
    [|unfold MAXORDINAL in *; lia].
  cbn [bind days seconds microseconds].
  destruct (Z.ltb_spec 0 D) as [_|]; [|lia].
  destruct (Z.leb_spec D MAXORDINAL) as [_|]; [|lia].
  cbn [andb]. eexists. split; [reflexivity|].
  cbn [hour minute]. unfold S. split; Z.div_mod_to_equations; lia.
Qed.

End DatetimeFacts.

(** ** The rendered text *)

Lemma digit_char_not_lt n : Ascii.eqb (PyStr.digit_char n) "<" = false.
Proof.
  unfold PyStr.digit_char.
  assert (H : 0 <= n mod 10 < 0 + Z.of_nat 10) by (apply Z.mod_pos_bound; lia).
  apply negb_true_iff.
  revert H. generalize (n mod 10). 
  apply (forall_from_spec 10
           (fun k => negb (Ascii.eqb (ascii_of_nat (48 + Z.to_nat k)) "<")) 0).
  vm_compute. reflexivity.
Qed.

Lemma hex_digit_not_gt n : Ascii.eqb (Color.hex_digit n) ">" = false.
Proof.
  unfold Color.hex_digit.
  assert (H : 0 <= n mod 16 < 0 + Z.of_nat 16) by (apply Z.mod_pos_bound; lia).
  apply negb_true_iff.
  revert H. generalize (n mod 16).
  apply (forall_from_spec 16
           (fun k => negb (Ascii.eqb
              (ascii_of_nat (let d := Z.to_nat k in if (d <? 10)%nat then 48 + d else 87 + d)) ">")) 0).
  vm_compute. reflexivity.
Qed.

Lemma two_digits_reads_back n :
  0 <= n < 100 ->
  String.length (PyStr.two_digits n) = 2%nat /\ PyStr.int (PyStr.two_digits n) = Ok n.
Proof.
  intros H. split; [reflexivity|].
  assert (Hb : (match PyStr.int (PyStr.two_digits n) with Ok m => m =? n | Raise _ => false end) = true).
  { revert H. change 100 with (0 + Z.of_nat 100). revert n.
    apply (forall_from_spec 100
             (fun n => match PyStr.int (PyStr.two_digits n) with
                       | Ok m => m =? n | Raise _ => false end) 0).
    vm_compute. reflexivity. }
  destruct (PyStr.int (PyStr.two_digits n)); [|discriminate].
  apply Z.eqb_eq in Hb. by subst.
Qed.

Lemma html_text_time (a b : Z) (v : bool) (q : QColor) :
  Spec.html_text false
    (PyStr.two_digits a +:+ colon_html v (Color.name q) +:+ PyStr.two_digits b)
  = PyStr.two_digits a +:+ ":" +:+ PyStr.two_digits b.
Proof.
  unfold PyStr.two_digits, colon_html, Color.name, Color.hex2, PyStr.dquote.
  destruct v; cbv [String.append];
    repeat (cbn [Spec.html_text Ascii.eqb Bool.eqb andb negb ascii_of_nat ascii_of_pos ascii_of_N];
            rewrite ?digit_char_not_lt, ?hex_digit_not_gt);
    reflexivity.
Qed.

Lemma colon_html_differ q : colon_html true (Color.name q) <> colon_html false (Color.name q).
Proof. unfold colon_html, Color.name. cbv [String.append PyStr.dquote]. discriminate. Qed.

(** ** One tick *)

Lemma get_Some (d : dict) key v default : d !! key = Some v -> get d key default = v.
Proof. unfold get. by intros ->. Qed.

Lemma update_time_ok utc_now (h : heap) (c : state) (offset : Z) (color : QColor) :
  deref h (settings c) <> ∅ ->
  get (deref h (settings c)) "gmt_offset" (VInt 0) = VInt offset ->
  get (deref h (settings c)) "text_color" (VColor Color.named_red) = VColor color ->
  -12 <= offset <= 14 ->
  Datetime.valid utc_now ->
  1 < Datetime.ordinal utc_now < Datetime.MAXORDINAL ->
  update_time utc_now h c =
    Ok (h, set_colon_visible (negb (colon_visible c))
             (setText (PyStr.two_digits ((Datetime.hour utc_now + offset) mod 24)
                       +:+ colon_html (colon_visible c) (Color.name color)
                       +:+ PyStr.two_digits (Datetime.minute utc_now)) c)).
Proof.
  intros Hne Hoff Hcol Hrange Hvalid Hord. unfold update_time.
  case_bool_decide as Hsize.
  { by apply map_size_empty_iff in Hsize. }
  rewrite Hoff, Hcol. cbn [bind as_int color_name].
  destruct (add_hours utc_now offset Hvalid Hord Hrange)
    as (delta & t' & Hdelta & Hadd & Hhour & Hminute).
  rewrite Hdelta. cbn [bind]. rewrite Hadd. cbn [bind]. unfold Datetime.strftime_H, Datetime.strftime_M.
  rewrite Hhour, Hminute. reflexivity.
Qed.

Lemma two_digits_padded n :
  0 <= n < 100 -> Spec.two_decimal_digits (PyStr.two_digits n) n.
Proof.
  intros H. exists (n / 10), (n mod 10).
  split; [Z.div_mod_to_equations; lia|].
  split; [Z.div_mod_to_equations; lia|].
  split; [Z.div_mod_to_equations; lia|].
  unfold PyStr.two_digits, PyStr.digit_char.
  by rewrite (Z.mod_small (n / 10) 10) by (Z.div_mod_to_equations; lia).
Qed.

(** C1. For a GMT offset between -12 and 14 read from the settings (which
    are not empty and hold a text colour, or none and then red) and an
    instant [utc_now] of the clock (a valid [datetime], not on the first or
    the last day [datetime] can hold), one tick sets the label to HH, the
    colon span and MM, where HH is the hour [(UTC hour + offset) mod 24] and
    MM the minute of [utc_now], each written with two decimal digits, the
    digit of the tens, which is 0 below ten, and the digit of the units:
    two characters, which [int] reads back as these numbers.  The text
    shown is [HH:MM].  Nothing but the fixed shift enters the hour. *)
Theorem update_time_shows_shifted_hour
    utc_now (h : heap) (c : state) (offset : Z) (color : QColor) :
  deref h (settings c) <> ∅ ->
  get (deref h (settings c)) "gmt_offset" (VInt 0) = VInt offset ->
  get (deref h (settings c)) "text_color" (VColor Color.named_red) = VColor color ->
  -12 <= offset <= 14 ->
  Datetime.valid utc_now ->
  1 < Datetime.ordinal utc_now < Datetime.MAXORDINAL ->
  exists c' HH MM,
    update_time utc_now h c = Ok (h, c') /\
    label_text c' = HH +:+ colon_html (colon_visible c) (Color.name color) +:+ MM /\
    Spec.html_text false (label_text c') = HH +:+ ":" +:+ MM /\
    Spec.two_decimal_digits HH ((Datetime.hour utc_now + offset) mod 24) /\
    Spec.two_decimal_digits MM (Datetime.minute utc_now) /\
    String.length HH = 2%nat /\
    PyStr.int HH = Ok ((Datetime.hour utc_now + offset) mod 24) /\
    String.length MM = 2%nat /\
    PyStr.int MM = Ok (Datetime.minute utc_now).
Proof.
  intros Hne Hoff Hcol Hrange Hvalid Hord.
  eexists _, _, _. split; [by apply update_time_ok|].
  cbn [label_text set_colon_visible setText].
  assert (Hh : 0 <= (Datetime.hour utc_now + offset) mod 24 < 100)
    by (Z.div_mod_to_equations; lia).
  assert (Hm : 0 <= Datetime.minute utc_now < 100)
    by (destruct Hvalid as (_ & _ & ? & _); lia).
  destruct (two_digits_reads_back _ Hh) as [? ?].
  destruct (two_digits_reads_back _ Hm) as [? ?].
  split; [reflexivity|]. split; [apply html_text_time|].
  split; [by apply two_digits_padded|]. split; [by apply two_digits_padded|].
  done.
Qed.

Ltac valid_instant := unfold Datetime.valid, Datetime.MAXORDINAL; cbn; lia.

(** The example of the specification: offset -3 at 14:00 UTC shows 11:00. *)
Example tick_at_14_00_shows_11_00 :
  exists c',
    update_time Example.utc_14_00 Example.store Example.clock
      = Ok (Example.store, c') /\
    Spec.html_text false (label_text c') = "11:00".
Proof. eexists. split; vm_compute; reflexivity. Qed.

Lemma update_time_shows_shifted_hour_witness :
  exists c' HH MM,
    update_time Example.utc_14_00 Example.store Example.clock
      = Ok (Example.store, c') /\
    label_text c' = HH +:+ colon_html (colon_visible Example.clock)
                             (Color.name Color.named_red) +:+ MM /\
    Spec.html_text false (label_text c') = HH +:+ ":" +:+ MM /\
    Spec.two_decimal_digits HH ((Datetime.hour Example.utc_14_00 + -3) mod 24) /\
    Spec.two_decimal_digits MM (Datetime.minute Example.utc_14_00) /\
    String.length HH = 2%nat /\
    PyStr.int HH = Ok ((Datetime.hour Example.utc_14_00 + -3) mod 24) /\
    String.length MM = 2%nat /\
    PyStr.int MM = Ok (Datetime.minute Example.utc_14_00).
Proof.
  apply (update_time_shows_shifted_hour Example.utc_14_00 Example.store
           Example.clock (-3) Color.named_red).
  - vm_compute. discriminate.
  - vm_compute. reflexivity.
  - vm_compute. reflexivity.
  - lia.
  - valid_instant.
  - valid_instant.
Defined.

(** C3. A new clock screen has [colon_visible] true.  On settings that are
    not empty, with an integer offset and a text colour where they hold
    these entries, a tick returns and negates the flag, so two
    consecutive ticks bring it back: of the two labels one has the colon
    span in the text colour and the other has it transparent (the two spans
    differ), and the text shown by both is [HH:MM], colon included. *)
Theorem colon_toggles_once_per_tick
    utc1 utc2 (h : heap) (c : state) (offset : Z) (color : QColor) :
  deref h (settings c) <> ∅ ->
  get (deref h (settings c)) "gmt_offset" (VInt 0) = VInt offset ->
  get (deref h (settings c)) "text_color" (VColor Color.named_red) = VColor color ->
  -12 <= offset <= 14 ->
  Datetime.valid utc1 -> 1 < Datetime.ordinal utc1 < Datetime.MAXORDINAL ->
  Datetime.valid utc2 -> 1 < Datetime.ordinal utc2 < Datetime.MAXORDINAL ->
  (forall h0, colon_visible (init h0).2 = true) /\
  exists c1 c2 H1 M1 H2 M2,
    update_time utc1 h c = Ok (h, c1) /\
    update_time utc2 h c1 = Ok (h, c2) /\
    colon_visible c1 = negb (colon_visible c) /\
    colon_visible c2 = colon_visible c /\
    label_text c1 = H1 +:+ colon_html (colon_visible c) (Color.name color) +:+ M1 /\
    label_text c2 = H2 +:+ colon_html (negb (colon_visible c)) (Color.name color) +:+ M2 /\
    colon_html true (Color.name color) <> colon_html false (Color.name color) /\
    Spec.html_text false (label_text c1) = H1 +:+ ":" +:+ M1 /\
    Spec.html_text false (label_text c2) = H2 +:+ ":" +:+ M2.
Proof.
  intros Hne Hoff Hcol Hrange Hv1 Ho1 Hv2 Ho2. split; [reflexivity|].
  pose proof (update_time_ok utc1 h c offset color Hne Hoff Hcol Hrange Hv1 Ho1) as T1.
  set (c1 := set_colon_visible _ _) in T1.
  pose proof (update_time_ok utc2 h c1 offset color Hne Hoff Hcol Hrange Hv2 Ho2) as T2.
  set (c2 := set_colon_visible _ _) in T2.
  exists c1, c2. eexists _, _, _, _.
  split; [exact T1|]. split; [exact T2|].
  split; [reflexivity|]. split; [apply negb_involutive|].
  split; [reflexivity|]. split; [reflexivity|].
  split; [apply colon_html_differ|].
  split; apply html_text_time.
Qed.

Lemma colon_toggles_once_per_tick_witness :
  exists c1 c2,
    update_time Example.utc_14_00 Example.store Example.clock
      = Ok (Example.store, c1) /\
    update_time Example.utc_23_59 Example.store c1 = Ok (Example.store, c2) /\
    colon_visible c1 = false /\ colon_visible c2 = true.
Proof.
  destruct (colon_toggles_once_per_tick Example.utc_14_00 Example.utc_23_59
              Example.store Example.clock (-3) Color.named_red)
    as (_ & c1 & c2 & _ & _ & _ & _ & T1 & T2 & V1 & V2 & _).
  - vm_compute. discriminate.
  - vm_compute. reflexivity.
  - vm_compute. reflexivity.
  - lia.
  - valid_instant.
  - valid_instant.
  - valid_instant.
  - valid_instant.
  - exists c1, c2. repeat split; assumption.
Defined.

(** ** The font size: binary64 arithmetic on the heights a window can have *)

Lemma literal_30 : PyFloat.literal 30 100 = S754_finite false 5404319552844595 (-54).
Proof. vm_compute. reflexivity. Qed.
Lemma literal_50 : PyFloat.literal 50 100 = S754_finite false 4503599627370496 (-53).
Proof. vm_compute. reflexivity. Qed.
Lemma literal_55 : PyFloat.literal 55 100 = S754_finite false 4953959590107546 (-53).
Proof. vm_compute. reflexivity. Qed.

Lemma floor_check_30 : Spec.forall_from (Pos.to_nat 65536) 0 (Spec.floor_check (S754_finite false 5404319552844595 (-54)) 30) = true.
Proof. vm_compute. reflexivity. Qed.
Lemma floor_check_50 : Spec.forall_from (Pos.to_nat 65536) 0 (Spec.floor_check (S754_finite false 4503599627370496 (-53)) 50) = true.
Proof. vm_compute. reflexivity. Qed.
Lemma floor_check_55 : Spec.forall_from (Pos.to_nat 65536) 0 (Spec.floor_check (S754_finite false 4953959590107546 (-53)) 55) = true.
Proof. vm_compute. reflexivity. Qed.

Lemma pixel_size_floor (height : Z) (size_mode : pyval) :
  0 <= height <= 65535 ->
  pixel_size height size_mode = Ok (Spec.font_pixel_size height size_mode).
Proof.
  intros Hh.
  assert (Hchk : Spec.floor_check (percentage size_mode) (Spec.percent size_mode) height = true).
  { unfold percentage, Spec.percent.
    destruct (eq_str size_mode "Small"); [|destruct (eq_str size_mode "Medium")].
    - rewrite literal_30. apply (forall_from_spec _ _ _ floor_check_30);
        rewrite positive_nat_Z; lia.
    - rewrite literal_50. apply (forall_from_spec _ _ _ floor_check_50);
        rewrite positive_nat_Z; lia.
    - rewrite literal_55. apply (forall_from_spec _ _ _ floor_check_55);
        rewrite positive_nat_Z; lia. }
  unfold Spec.floor_check in Hchk. unfold pixel_size, Spec.font_pixel_size.
  destruct (do product <- _; _) as [px|]; [|discriminate].
  apply Z.eqb_eq in Hchk. by subst.
Qed.

(** ** Showing the clock *)

Lemma getitem_Ok (d : dict) key v : getitem d key = Ok v -> d !! key = Some v.
Proof. unfold getitem. destruct (d !! key); intros; simplify_eq; done. Qed.

Lemma as_color_Ok v q : as_color v = Ok q -> v = VColor q.
Proof. destruct v; cbn; intros; simplify_eq; done. Qed.

Lemma start_clock_ok (l : loc) (h : heap) (c : state) (bg fg : QColor) :
  deref h l !! "bg_color" = Some (VColor bg) ->
  deref h l !! "text_color" = Some (VColor fg) ->
  start_clock l h c =
    Ok (h, setFocus (timer_start 500
             (set_text_color fg (set_window_color bg (set_settings l c))))).
Proof.
  intros Hbg Hfg. unfold start_clock, getitem.
  cbn [settings set_settings]. rewrite Hbg, Hfg. reflexivity.
Qed.

Lemma start_clock_inv (l : loc) (h : heap) (c : state) r :
  start_clock l h c = Ok r ->
  exists bg fg,
    deref h l !! "bg_color" = Some (VColor bg) /\
    deref h l !! "text_color" = Some (VColor fg) /\
    r = (h, setFocus (timer_start 500
              (set_text_color fg (set_window_color bg (set_settings l c))))).
Proof.
  unfold start_clock. cbn [settings set_settings]. intros H.
  bind_inv H as vbg Hbg. apply getitem_Ok in Hbg.
  bind_inv H as bg Hbg'. apply as_color_Ok in Hbg'. subst vbg.
  bind_inv H as vfg Hfg. apply getitem_Ok in Hfg.
  bind_inv H as fg Hfg'. apply as_color_Ok in Hfg'. subst vfg.
  injection H as <-. eauto.
Qed.

Lemma setPixelSize_ok (px : Z) (f : QFont) :
  0 <= px < 2 ^ 31 ->
  setPixelSize px f =
    Ok (if px <=? 0 then f else {| family := family f; pixelSize := px |}).
Proof.
  intros Hpx. unfold setPixelSize.
  destruct (Z.ltb_spec px (- 2 ^ 31)); [lia|].
  destruct (Z.leb_spec (2 ^ 31) px); [lia|].
  cbn [orb]. by destruct (px <=? 0).
Qed.

Lemma font_pixel_size_bounds (height : Z) (m : pyval) :
  0 <= height <= 65535 -> 0 <= Spec.font_pixel_size height m < 2 ^ 31.
Proof.
  intros H. unfold Spec.font_pixel_size, Spec.percent.
  destruct (eq_str m "Small"); [|destruct (eq_str m "Medium")];
    Z.div_mod_to_equations; lia.
Qed.

Lemma select_window_objects (m : pyval) (s : MainApp.state) :
  MainApp.objects (MainApp.select_window m s) = MainApp.objects s.
Proof. unfold MainApp.select_window. repeat (case_match; try reflexivity). Qed.

Lemma select_window_clock (m : pyval) (s : MainApp.state) :
  MainApp.clock_widget (MainApp.select_window m s) = MainApp.clock_widget s.
Proof. unfold MainApp.select_window. repeat (case_match; try reflexivity). Qed.

Lemma select_window_settings (m : pyval) (s : MainApp.state) :
  MainApp.settings_widget (MainApp.select_window m s) = MainApp.settings_widget s.
Proof. unfold MainApp.select_window. repeat (case_match; try reflexivity). Qed.

Lemma select_window_page (m : pyval) (s : MainApp.state) :
  MainApp.current_widget (MainApp.select_window m s) = MainApp.current_widget s.
Proof. unfold MainApp.select_window. repeat (case_match; try reflexivity). Qed.

(** The first part of [show_clock] *)

Lemma show_clock_window_inv (l : loc) (s s1 : MainApp.state) (screen : Z * Z) :
  MainApp.show_clock_window l s = Ok (s1, screen) ->
  exists r m,
    str_receiver (get (deref (MainApp.objects s) l) "resolution" (VStr "1920x1080"))
      = Ok r /\
    MainApp.parse_resolution r = Ok screen /\
    deref (MainApp.objects s) l !! "size" = Some m /\
    s1 = MainApp.select_window m (MainApp.setCurrentWidget MainApp.clock_page s).
Proof.
  unfold MainApp.show_clock_window. intros H.
  cbn [MainApp.objects MainApp.setCurrentWidget] in H.
  bind_inv H as r Hr. bind_inv H as [w ht] Hparse.
  bind_inv H as m Hm. apply getitem_Ok in Hm.
  injection H as <- <-. eauto 10.
Qed.

Lemma show_clock_window_ok (l : loc) (s : MainApp.state) (r : string)
    (screen : Z * Z) (m : pyval) :
  get (deref (MainApp.objects s) l) "resolution" (VStr "1920x1080") = VStr r ->
  MainApp.parse_resolution r = Ok screen ->
  deref (MainApp.objects s) l !! "size" = Some m ->
  MainApp.show_clock_window l s =
    Ok (MainApp.select_window m (MainApp.setCurrentWidget MainApp.clock_page s),
        screen).
Proof.
  intros Hr Hparse Hm. unfold MainApp.show_clock_window.
  cbn [MainApp.objects MainApp.setCurrentWidget].
  rewrite Hr. cbn [bind str_receiver]. rewrite Hparse. destruct screen. cbn [bind].
  unfold getitem. by rewrite Hm.
Qed.

Lemma show_clock_window_frame (l : loc) (s s1 : MainApp.state) (screen : Z * Z) :
  MainApp.show_clock_window l s = Ok (s1, screen) ->
  MainApp.objects s1 = MainApp.objects s /\
  MainApp.settings_widget s1 = MainApp.settings_widget s /\
  MainApp.clock_widget s1 = MainApp.clock_widget s /\
  MainApp.current_widget s1 = MainApp.clock_page.
Proof.
  intros H. apply show_clock_window_inv in H as (r & m & _ & _ & _ & ->).
  by rewrite select_window_objects, select_window_settings, select_window_clock,
    select_window_page.
Qed.

(** The second part of [show_clock] *)

Lemma show_clock_start_inv (l : loc) (screen : Z * Z) (s s' : MainApp.state) :
  MainApp.show_clock_start l screen s = Ok s' ->
  exists bg fg m px fam font,
    deref (MainApp.objects s) l !! "bg_color" = Some (VColor bg) /\
    deref (MainApp.objects s) l !! "text_color" = Some (VColor fg) /\
    deref (MainApp.objects s) l !! "size" = Some m /\
    pixel_size screen.2 m = Ok px /\
    get (deref (MainApp.objects s) l) "font_family" (VStr "Monospace") = VStr fam /\
    setPixelSize px (QFont_of_family fam) = Ok font /\
    s' = MainApp.with_clock
           (MainApp.objects s,
            setFocus (setFont font (setFocus (timer_start 500
              (set_text_color fg (set_window_color bg
                 (set_settings l (MainApp.clock_widget s))))))))
           s.
Proof.
  unfold MainApp.show_clock_start. destruct screen as [w ht]. intros H.
  bind_inv H as started Hstart.
  destruct (start_clock_inv _ _ _ _ Hstart) as (bg & fg & Hbg & Hfg & ->).
  cbn [fst snd] in H.
  bind_inv H as m Hm. apply getitem_Ok in Hm.
  bind_inv H as sized Hsized.
  unfold update_font_size in Hsized.
  bind_inv Hsized as px Hpx. bind_inv Hsized as fam Hfam.
  bind_inv Hsized as font Hfont. injection Hsized as <-.
  injection H as <-. cbn [fst snd].
  exists bg, fg, m, px, fam, font. repeat (split; [done|]).
  split; [|split; [exact Hfont|reflexivity]].
  cbn [settings setFocus timer_start set_text_color set_window_color set_settings]
    in Hfam.
  destruct (get _ _ _); cbn in Hfam; by simplify_eq.
Qed.

Lemma show_clock_start_ok (l : loc) (s : MainApp.state) (w ht : Z) (m : pyval)
    (bg fg : QColor) (fam : string) :
  deref (MainApp.objects s) l !! "bg_color" = Some (VColor bg) ->
  deref (MainApp.objects s) l !! "text_color" = Some (VColor fg) ->
  deref (MainApp.objects s) l !! "size" = Some m ->
  get (deref (MainApp.objects s) l) "font_family" (VStr "Monospace") = VStr fam ->
  0 <= ht <= 65535 ->
  MainApp.show_clock_start l (w, ht) s =
    Ok (MainApp.with_clock
          (MainApp.objects s,
           setFocus (setFont
             (let px := Spec.font_pixel_size ht m in
              if px <=? 0 then QFont_of_family fam
              else {| family := fam; pixelSize := px |})
             (setFocus (timer_start 500
                (set_text_color fg (set_window_color bg
                   (set_settings l (MainApp.clock_widget s))))))))
          s).
Proof.
  intros Hbg Hfg Hm Hfam Hht. unfold MainApp.show_clock_start.
  rewrite (start_clock_ok l _ _ bg fg Hbg Hfg). cbn [bind fst snd].
  unfold getitem. rewrite Hm. cbn [bind].
  unfold update_font_size. rewrite (pixel_size_floor ht m Hht). cbn [bind].
  cbn [settings setFocus timer_start set_text_color set_window_color set_settings].
  rewrite Hfam. cbn [bind as_str].
  rewrite (setPixelSize_ok _ _ (font_pixel_size_bounds ht m Hht)).
  cbn [bind fst snd family QFont_of_family]. reflexivity.
Qed.

Lemma show_clock_start_frame (l : loc) (screen : Z * Z) (s s' : MainApp.state) :
  MainApp.show_clock_start l screen s = Ok s' ->
  MainApp.objects s' = MainApp.objects s /\
  MainApp.settings_widget s' = MainApp.settings_widget s /\
  MainApp.current_widget s' = MainApp.current_widget s /\
  MainApp.mode s' = MainApp.mode s /\
  MainApp.geometry s' = MainApp.geometry s /\
  settings (MainApp.clock_widget s') = l /\
  timer_active (MainApp.clock_widget s') = true /\
  timer_interval (MainApp.clock_widget s') = 500 /\
  colon_visible (MainApp.clock_widget s') = colon_visible (MainApp.clock_widget s) /\
  label_text (MainApp.clock_widget s') = label_text (MainApp.clock_widget s).
Proof.
  intros H. apply show_clock_start_inv in H
    as (bg & fg & m & px & fam & font & _ & _ & _ & _ & _ & _ & ->).
  done.
Qed.

(** [show_clock] as a whole *)

Lemma show_clock_parts (pe : MainApp.state -> result MainApp.state) (l : loc)
    (s s' : MainApp.state) :
  MainApp.show_clock pe l s = Ok s' <->
  exists s1 screen s2,
    MainApp.show_clock_window l s = Ok (s1, screen) /\
    pe s1 = Ok s2 /\
    MainApp.show_clock_start l screen s2 = Ok s'.
Proof.
  unfold MainApp.show_clock. split.
  - intros H. bind_inv H as [s1 screen] H1. bind_inv H as s2 H2. eauto 10.
  - intros (s1 & screen & s2 & -> & H2 & H3). cbn [bind]. by rewrite H2.
Qed.

(** When nothing is pending *)

Lemma show_clock_ok (l : loc) (s : MainApp.state) (r : string) (w ht : Z) (m : pyval) :
  Spec.typed (deref (MainApp.objects s) l) ->
  deref (MainApp.objects s) l !! "resolution" = Some (VStr r) ->
  MainApp.parse_resolution r = Ok (w, ht) ->
  0 <= ht <= 65535 ->
  deref (MainApp.objects s) l !! "size" = Some m ->
  exists c1 fam,
    start_clock l (MainApp.objects s) (MainApp.clock_widget s)
      = Ok (MainApp.objects s, c1) /\
    deref (MainApp.objects s) l !! "font_family" = Some (VStr fam) /\
    MainApp.show_clock Ok l s =
      Ok (MainApp.with_clock
            (MainApp.objects s,
             setFocus (setFont
               (let px := Spec.font_pixel_size ht m in
                if px <=? 0 then QFont_of_family fam
                else {| family := fam; pixelSize := px |}) c1))
            (MainApp.select_window m
               (MainApp.setCurrentWidget MainApp.clock_page s))).
Proof.
  intros ((bg & Hbg) & (fg & Hfg) & _ & _ & (fam & Hfam) & _) Hr Hparse Hht Hm.
  pose proof (start_clock_ok l (MainApp.objects s) (MainApp.clock_widget s)
                bg fg Hbg Hfg) as Hstart.
  eexists _, fam. split; [exact Hstart|]. split; [exact Hfam|].
  unfold MainApp.show_clock.
  rewrite (show_clock_window_ok l s r (w, ht) m (get_Some _ _ _ _ Hr) Hparse Hm).
  cbn [bind].
  rewrite (show_clock_start_ok l _ w ht m bg fg fam);
    rewrite ?select_window_objects, ?select_window_clock;
    cbn [MainApp.objects MainApp.clock_widget MainApp.setCurrentWidget];
    try done.
  by apply get_Some.
Qed.

Lemma presets_parse (r : string) :
  r ∈ SettingsWidget.resolutions ->
  exists w ht, MainApp.parse_resolution r = Ok (w, ht) /\ 600 <= ht <= 1080.
Proof.
  unfold SettingsWidget.resolutions. intros Hr.
  repeat (apply elem_of_cons in Hr as [->|Hr];
          [eexists _, _; split; [vm_compute; reflexivity | lia]|]).
  by apply elem_of_nil in Hr.
Qed.

(** ** Splitting and converting *)

Lemma append_cons c (a b : string) : String c a +:+ b = String c (a +:+ b).
Proof. reflexivity. Qed.

Lemma append_nil (b : string) : "" +:+ b = b.
Proof. reflexivity. Qed.

Lemma split_not_nil sep s : PyStr.split sep s <> [].
Proof.
  destruct s as [|c rest]; cbn; [done|].
  destruct (Ascii.eqb c sep); [done|]. by destruct (PyStr.split sep rest).
Qed.

Lemma split_one sep s b : PyStr.split sep s = [b] -> s = b /\ Spec.free sep s.
Proof.
  revert b. induction s as [|c rest IH]; intros b; cbn.
  - intros [= <-]. done.
  - destruct (Ascii.eqb_spec c sep) as [->|Hne].
    + intros [= <- Hnil]. by apply split_not_nil in Hnil.
    + destruct (PyStr.split sep rest) as [|p ps] eqn:Hsplit.
      { by apply split_not_nil in Hsplit. }
      intros [= <- ->]. destruct (IH p eq_refl) as [-> Hfree]. done.
Qed.

Lemma split_two sep s a b :
  PyStr.split sep s = [a; b] -> s = a +:+ String sep b /\ Spec.free sep a /\ Spec.free sep b.
Proof.
  revert a. induction s as [|c rest IH]; intros a; cbn.
  - discriminate.
  - destruct (Ascii.eqb_spec c sep) as [->|Hne].
    + intros [= <- Hone]. apply split_one in Hone as [-> Hfree]. done.
    + destruct (PyStr.split sep rest) as [|p ps] eqn:Hsplit; [discriminate|].
      intros [= <- ->]. destruct (IH p eq_refl) as (-> & Hp & Hb).
      rewrite append_cons. done.
Qed.

Lemma split_free sep s : Spec.free sep s -> PyStr.split sep s = [s].
Proof.
  induction s as [|c rest IH]; cbn; [done|].
  intros [Hne Hfree]. destruct (Ascii.eqb_spec c sep); [done|].
  by rewrite (IH Hfree).
Qed.

Lemma split_app sep a b :
  Spec.free sep a -> PyStr.split sep (a +:+ String sep b) = a :: PyStr.split sep b.
Proof.
  induction a as [|c rest IH].
  - intros _. rewrite append_nil. cbn. by rewrite Ascii.eqb_refl.
  - intros [Hne Hfree]. rewrite append_cons. cbn.
    destruct (Ascii.eqb_spec c sep); [done|]. by rewrite (IH Hfree).
Qed.

(** ** Code points *)

Lemma decode_byte_x (st : PyStr.decoding) : In 120 (PyStr.decode_byte st "x").1.
Proof. destruct st as [|more least bits]; vm_compute; auto. Qed.

Lemma decode_free (s : string) :
  forall st, ~ In 120 (PyStr.decode st s) -> Spec.free "x" s.
Proof.
  induction s as [|c rest IH]; intros st Hnot; cbn; [done|].
  cbn [PyStr.decode] in Hnot.
  destruct (PyStr.decode_byte st c) as [out st'] eqn:Hstep.
  split.
  - intros ->. apply Hnot, in_or_app. left.
    pose proof (decode_byte_x st) as Hx. by rewrite Hstep in Hx.
  - apply (IH st'). intros Hin. apply Hnot, in_or_app. by right.
Qed.

(** ** The characters [int] knows *)

Lemma space_not_digit (c : Z) : PyStr.is_space c = true -> PyStr.digit_val c = None.
Proof.
  unfold PyStr.is_space. intros (x & Hx & Heq)%existsb_exists.
  apply Z.eqb_eq in Heq. subst x.
  assert (Hall : forallb (fun x => match PyStr.digit_val x with
                                   | None => true
                                   | Some _ => false
                                   end) PyStr.white_space = true)
    by (vm_compute; reflexivity).
  rewrite forallb_forall in Hall. specialize (Hall c Hx).
  by destruct (PyStr.digit_val c).
Qed.

Lemma digit_not_space (c : Z) :
  is_Some (PyStr.digit_val c) -> PyStr.is_space c = false.
Proof.
  intros [d Hd]. destruct (PyStr.is_space c) eqn:Hsp; [|done].
  apply space_not_digit in Hsp. congruence.
Qed.

(** ** Stripping *)

Lemma lstrip_app_space (lead s : list Z) :
  Forall (fun c => PyStr.is_space c = true) lead ->
  PyStr.lstrip (lead ++ s) = PyStr.lstrip s.
Proof.
  induction 1 as [|c lead Hc _ IH]; [done|].
  cbn [app PyStr.lstrip]. by rewrite Hc.
Qed.

Lemma lstrip_no_space (s : list Z) :
  Forall (fun c => PyStr.is_space c = false) s -> PyStr.lstrip s = s.
Proof. destruct 1 as [|c s Hc _]; [done|]. cbn [PyStr.lstrip]. by rewrite Hc. Qed.

Lemma lstrip_decomp (s : list Z) :
  exists lead, s = lead ++ PyStr.lstrip s /\
               Forall (fun c => PyStr.is_space c = true) lead.
Proof.
  induction s as [|c rest (lead & Heq & Hlead)]; [by exists []|].
  cbn [PyStr.lstrip]. destruct (PyStr.is_space c) eqn:Hc.
  - exists (c :: lead). split; [cbn [app]; congruence|by constructor].
  - by exists [].
Qed.

Lemma rstrip_all_space (s : list Z) :
  Forall (fun c => PyStr.is_space c = true) s -> PyStr.rstrip s = [].
Proof.
  induction 1 as [|c s Hc _ IH]; [done|].
  cbn [PyStr.rstrip]. by rewrite IH, Hc.
Qed.

Lemma rstrip_app_space (s trail : list Z) :
  Forall (fun c => PyStr.is_space c = true) trail ->
  PyStr.rstrip (s ++ trail) = PyStr.rstrip s.
Proof.
  intros Htrail. induction s as [|c rest IH]; cbn [app PyStr.rstrip].
  - by apply rstrip_all_space.
  - by rewrite IH.
Qed.

Lemma rstrip_no_space (s : list Z) :
  Forall (fun c => PyStr.is_space c = false) s -> PyStr.rstrip s = s.
Proof.
  induction 1 as [|c s Hc _ IH]; [done|].
  cbn [PyStr.rstrip]. rewrite IH, Hc. by destruct s.
Qed.

Lemma rstrip_decomp (s : list Z) :
  exists trail, s = PyStr.rstrip s ++ trail /\
                Forall (fun c => PyStr.is_space c = true) trail.
Proof.
  induction s as [|c rest (trail & Heq & Htrail)]; [by exists []|].
  cbn [PyStr.rstrip]. destruct (PyStr.rstrip rest) as [|c' r] eqn:Hr.
  - destruct (PyStr.is_space c) eqn:Hc.
    + exists (c :: trail). cbn [app] in *. split; [congruence|by constructor].
    + exists trail. cbn [app] in *. split; [congruence|done].
  - exists trail. split; [|done]. cbn [app] in *. congruence.
Qed.

(** ** Digits and groups *)

Lemma digits_run (g : list Z) :
  Forall (fun c => is_Some (PyStr.digit_val c)) g ->
  forall acc count prev rest,
    PyStr.digits acc count prev (g ++ rest)
    = PyStr.digits
        (fold_left (fun n c => 10 * n + default 0 (PyStr.digit_val c)) g acc)
        (count + Z.of_nat (length g))
        (match g with [] => prev | _ => true end) rest.
Proof.
  induction 1 as [|c g [d Hd] _ IH]; intros acc count prev rest.
  - cbn. by rewrite Z.add_0_r.
  - cbn [app PyStr.digits fold_left length]. rewrite Hd. cbn [default].
    rewrite IH. f_equal; [lia|]. by destruct g.
Qed.

Lemma digits_groups (gs : list (list Z)) :
  Forall Spec.digit_group gs ->
  forall acc count,
    PyStr.digits acc count true (concat (map (cons PyStr.underscore) gs))
    = Some (fold_left (fun n c => 10 * n + default 0 (PyStr.digit_val c))
              (concat gs) acc,
            count + Z.of_nat (length (concat gs))).
Proof.
  induction 1 as [|g gs [Hne Hg] _ IH]; intros acc count.
  - cbn. by rewrite Z.add_0_r.
  - cbn [map concat]. rewrite <- app_comm_cons.
    cbn [PyStr.digits]. change (PyStr.digit_val PyStr.underscore) with (@None Z).
    cbn [andb Z.eqb PyStr.underscore Pos.eqb].
    rewrite (digits_run g Hg). destruct g as [|c g]; [done|].
    rewrite IH, fold_left_app, length_app. f_equal. f_equal. lia.
Qed.

Lemma digits_complete (g : list Z) (gs : list (list Z)) (acc count : Z) :
  Spec.digit_group g -> Forall Spec.digit_group gs ->
  PyStr.digits acc count false (Spec.underscored (g :: gs))
  = Some (fold_left (fun n c => 10 * n + default 0 (PyStr.digit_val c))
            (concat (g :: gs)) acc,
          count + Z.of_nat (length (concat (g :: gs)))).
Proof.
  intros [Hne Hg] Hgs. cbn [Spec.underscored concat].
  rewrite (digits_run g Hg). destruct g as [|c g]; [done|].
  rewrite (digits_groups gs Hgs), fold_left_app, length_app. f_equal. f_equal. lia.
Qed.

Lemma digits_sound (s : list Z) :
  forall acc count prev n total,
    PyStr.digits acc count prev s = Some (n, total) ->
    exists g gs,
      s = g ++ concat (map (cons PyStr.underscore) gs) /\
      Forall (fun c => is_Some (PyStr.digit_val c)) g /\
      (prev = false -> g <> []) /\
      Forall Spec.digit_group gs /\
      n = fold_left (fun n c => 10 * n + default 0 (PyStr.digit_val c))
            (g ++ concat gs) acc /\
      total = count + Z.of_nat (length (g ++ concat gs)).
Proof.
  induction s as [|c rest IH]; intros acc count prev n total H.
  - cbn in H. destruct prev; [|discriminate]. injection H as <- <-.
    exists [], []. cbn. repeat split; try done. lia.
  - cbn [PyStr.digits] in H. destruct (PyStr.digit_val c) as [d|] eqn:Hd.
    + apply IH in H as (g & gs & -> & Hg & _ & Hgs & -> & ->).
      exists (c :: g), gs. split; [done|]. split; [constructor; eauto|].
      split; [done|]. split; [done|]. cbn [app fold_left length]. rewrite Hd.
      split; [done|]. lia.
    + destruct (Z.eqb_spec c PyStr.underscore) as [->|]; [|discriminate].
      destruct prev; [|discriminate]. cbn [andb] in H.
      apply IH in H as (g & gs & -> & Hg & Hne & Hgs & -> & ->).
      exists [], (g :: gs). cbn [app map concat].
      split; [reflexivity|]. split; [constructor|].
      split; [done|]. split; [constructor; [split; auto|done]|]. done.
Qed.

Lemma underscored_chars (g : list Z) (gs : list (list Z)) :
  Spec.digit_group g -> Forall Spec.digit_group gs ->
  Forall (fun c => PyStr.is_space c = false) (Spec.underscored (g :: gs)) /\
  exists c rest, Spec.underscored (g :: gs) = c :: rest /\
                 is_Some (PyStr.digit_val c).
Proof.
  intros [Hne Hg] Hgs. split.
  - cbn [Spec.underscored]. apply Forall_app. split.
    + eapply Forall_impl; [exact Hg|]. intros c. apply digit_not_space.
    + induction Hgs as [|g' gs [_ Hg'] _ IH]; [constructor|].
      cbn [map concat]. rewrite <- app_comm_cons. constructor; [reflexivity|].
      apply Forall_app. split; [|exact IH].
      eapply Forall_impl; [exact Hg'|]. intros c. apply digit_not_space.
  - destruct g as [|c g]; [done|]. cbn. eexists _, _. split; [reflexivity|].
    by inversion Hg.
Qed.

(** ** [int] and the integers written in base ten *)

Lemma int_sound (s : string) (n : Z) : PyStr.int s = Ok n -> Spec.integer_text s n.
Proof.
  unfold PyStr.int. intros H.
  destruct (lstrip_decomp (PyStr.points s)) as (lead & Hlead & Hsp1).
  destruct (rstrip_decomp (PyStr.lstrip (PyStr.points s))) as (trail & Htrail & Hsp2).
  destruct (PyStr.rstrip (PyStr.lstrip (PyStr.points s))) as [|c body] eqn:Hbody;
    [discriminate|].
  assert (Hgen : forall sign factor text m total,
            c :: body = sign ++ text -> Spec.sign_of sign factor ->
            PyStr.digits 0 0 false text = Some (m, total) ->
            total <= PyStr.max_str_digits -> n = factor * m ->
            Spec.integer_text s n).
  { intros sign factor text m total Hsplit Hsign Hd Hmax ->.
    apply digits_sound in Hd as (g & gs & -> & Hg & Hne & Hgs & -> & ->).
    exists lead, sign, factor, (g :: gs), trail.
    split; [|split; [done|split; [done|split; [done|split; [done|]]]]].
    - rewrite Hlead, Htrail, Hsplit. cbn [Spec.underscored].
      by rewrite <- !app_assoc.
    - split; [constructor; [split; auto|done]|].
      cbn [concat]. unfold PyStr.max_str_digits in Hmax. split; [lia|done]. }
  destruct (Z.eqb_spec c PyStr.minus) as [->|Hminus].
  { destruct (PyStr.digits 0 0 false body) as [[m total]|] eqn:Hd; [|discriminate].
    destruct (Z.leb_spec total PyStr.max_str_digits); [|discriminate].
    injection H as <-.
    apply (Hgen [45] (-1) body m total); [done|constructor|done|done|lia]. }
  destruct (Z.eqb_spec c PyStr.plus) as [->|Hplus].
  { destruct (PyStr.digits 0 0 false body) as [[m total]|] eqn:Hd; [|discriminate].
    destruct (Z.leb_spec total PyStr.max_str_digits); [|discriminate].
    injection H as <-.
    apply (Hgen [43] 1 body m total); [done|constructor|done|done|lia]. }
  destruct (PyStr.digits 0 0 false (c :: body)) as [[m total]|] eqn:Hd; [|discriminate].
  destruct (Z.leb_spec total PyStr.max_str_digits); [|discriminate].
  injection H as <-.
  apply (Hgen [] 1 (c :: body) m total); [done|constructor|done|done|lia].
Qed.

Lemma lstrip_head (c : Z) (s : list Z) :
  PyStr.is_space c = false -> PyStr.lstrip (c :: s) = c :: s.
Proof. intros Hc. cbn [PyStr.lstrip]. by rewrite Hc. Qed.

Lemma int_complete (s : string) (n : Z) : Spec.integer_text s n -> PyStr.int s = Ok n.
Proof.
  intros (lead & sign & factor & groups & trail & Hpoints & Hlead & Htrail & Hsign
          & Hne & Hgroups & Hmax & ->).
  destruct groups as [|g gs]; [done|]. inversion Hgroups as [|? ? Hg Hgs]; subst.
  destruct (underscored_chars g gs Hg Hgs) as (Hchars & c & rest & Hc & Hdigit).
  assert (Hbody : PyStr.rstrip (PyStr.lstrip (PyStr.points s))
                  = sign ++ Spec.underscored (g :: gs)).
  { assert (Hns : Forall (fun c => PyStr.is_space c = false)
                    (sign ++ Spec.underscored (g :: gs))).
    { apply Forall_app. split; [|done].
      destruct Hsign; repeat constructor. }
    rewrite Hpoints, lstrip_app_space by done.
    rewrite app_assoc.
    destruct (sign ++ Spec.underscored (g :: gs)) as [|c0 r0] eqn:Hb.
    { destruct sign; [by rewrite Hc in Hb|done]. }
    rewrite <- app_comm_cons, lstrip_head by (by inversion Hns).
    rewrite app_comm_cons. by rewrite rstrip_app_space, rstrip_no_space. }
  unfold PyStr.int. rewrite Hbody.
  pose proof (digits_complete g gs 0 0 Hg Hgs) as Hd.
  rewrite Z.add_0_l in Hd.
  assert (Hle : (Z.of_nat (length (concat (g :: gs))) <=? PyStr.max_str_digits) = true)
    by (apply Z.leb_le; exact Hmax).
  destruct Hsign; cbn [app].
  - rewrite Hc. rewrite <- Hc.
    destruct Hdigit as [d Hd'].
    assert (c <> PyStr.minus /\ c <> PyStr.plus) as [Hm Hp].
    { split; intros ->; vm_compute in Hd'; discriminate. }
    rewrite Hc in Hd |- *.
    destruct (Z.eqb_spec c PyStr.minus); [done|].
    destruct (Z.eqb_spec c PyStr.plus); [done|].
    rewrite Hd, Hle. f_equal; unfold Spec.value; lia.
  - change (43 =? PyStr.minus) with false. change (43 =? PyStr.plus) with true.
    cbn iota. rewrite Hd, Hle. f_equal; unfold Spec.value; lia.
  - change (45 =? PyStr.minus) with true.
    cbn iota. rewrite Hd, Hle. f_equal; unfold Spec.value; lia.
Qed.

Lemma int_integer_text (s : string) (n : Z) :
  PyStr.int s = Ok n <-> Spec.integer_text s n.
Proof. split; [apply int_sound|apply int_complete]. Qed.

Lemma underscored_elem (g : list Z) (gs : list (list Z)) (c : Z) :
  Spec.digit_group g -> Forall Spec.digit_group gs ->
  In c (Spec.underscored (g :: gs)) ->
  c = PyStr.underscore \/ is_Some (PyStr.digit_val c).
Proof.
  intros [_ Hg] Hgs. cbn [Spec.underscored]. rewrite in_app_iff.
  intros [Hin|Hin].
  - right. rewrite List.Forall_forall in Hg. by apply Hg.
  - induction Hgs as [|g' gs' [_ Hg'] _ IH]; [done|].
    cbn [map concat] in Hin. rewrite <- app_comm_cons in Hin.
    destruct Hin as [Hin|Hin]; [by left|].
    apply in_app_iff in Hin as [Hin|Hin]; [|by apply IH].
    right. rewrite List.Forall_forall in Hg'. by apply Hg'.
Qed.

Lemma int_free s n : PyStr.int s = Ok n -> Spec.free "x" s.
Proof.
  intros (lead & sign & factor & groups & trail & Hpoints & Hlead & Htrail & Hsign
          & Hne & Hgroups & _)%int_sound.
  apply (decode_free s PyStr.Idle). fold (PyStr.points s). rewrite Hpoints.
  destruct groups as [|g gs]; [done|]. inversion Hgroups as [|? ? Hg Hgs]; subst.
  assert (Hx : PyStr.is_space 120 = false /\ PyStr.digit_val 120 = None)
    by (split; vm_compute; reflexivity).
  destruct Hx as [Hx1 Hx2].
  rewrite !in_app_iff. intros [Hin|[Hin|[Hin|Hin]]].
  - rewrite List.Forall_forall in Hlead. apply Hlead in Hin. congruence.
  - destruct Hsign; cbn in Hin; lia.
  - apply (underscored_elem g gs 120 Hg Hgs) in Hin as [Hin|[d Hd]];
      [discriminate|congruence].
  - rewrite List.Forall_forall in Htrail. apply Htrail in Hin. congruence.
Qed.

Lemma int_raises s e : PyStr.int s = Raise e -> e = ValueError.
Proof. unfold PyStr.int. repeat case_match; intros; simplify_eq; done. Qed.

(** What [int] takes and what it refuses: a no-break space (U+00A0) before
    and an em space (U+2003) after the digits, the Arabic-Indic digits one
    and zero (U+0661, U+0660), one underscore between digits, a sign; not
    two underscores, an underscore at either end, a space inside, the empty
    text, the separator U+001C, the minus sign U+2212, a decimal point. *)
Lemma int_examples :
  PyStr.int (PyStr.utf8 160 +:+ "1080") = Ok 1080 /\
  PyStr.int ("1080" +:+ PyStr.utf8 8195) = Ok 1080 /\
  PyStr.int (PyStr.utf8 1633 +:+ PyStr.utf8 1632 +:+ "80") = Ok 1080 /\
  PyStr.int "1_080" = Ok 1080 /\
  PyStr.int "+1080" = Ok 1080 /\
  PyStr.int "-1080" = Ok (-1080) /\
  PyStr.int "1__080" = Raise ValueError /\
  PyStr.int "_1080" = Raise ValueError /\
  PyStr.int "1080_" = Raise ValueError /\
  PyStr.int "10 80" = Raise ValueError /\
  PyStr.int "" = Raise ValueError /\
  PyStr.int (String (ascii_of_nat 28) "1080") = Raise ValueError /\
  PyStr.int (PyStr.utf8 8722 +:+ "1080") = Raise ValueError /\
  PyStr.int "1080.0" = Raise ValueError.
Proof. repeat split; vm_compute; reflexivity. Qed.

(** ** The text of the resolution *)

Lemma parse_resolution_inv (r : string) (w ht : Z) :
  MainApp.parse_resolution r = Ok (w, ht) ->
  exists ws hs,
    r = ws +:+ "x" +:+ hs /\ PyStr.int ws = Ok w /\ PyStr.int hs = Ok ht.
Proof.
  unfold MainApp.parse_resolution. intros H.
  destruct (PyStr.split "x" r) as [|ws [|hs [|? ?]]] eqn:Hsplit; try discriminate.
  bind_inv H as w' Hw. bind_inv H as h' Hh. injection H as -> ->.
  apply split_two in Hsplit as (-> & _ & _). eauto.
Qed.

Lemma parse_resolution_form (ws hs : string) (w ht : Z) :
  PyStr.int ws = Ok w -> PyStr.int hs = Ok ht ->
  MainApp.parse_resolution (ws +:+ "x" +:+ hs) = Ok (w, ht).
Proof.
  intros Hw Hh. unfold MainApp.parse_resolution.
  change ("x" +:+ hs) with (String "x" hs).
  rewrite (split_app "x" ws hs (int_free ws w Hw)).
  rewrite (split_free "x" hs (int_free hs ht Hh)).
  rewrite Hw, Hh. reflexivity.
Qed.

Lemma parse_resolution_raises (r : string) (e : exn) :
  MainApp.parse_resolution r = Raise e -> e = ValueError.
Proof.
  unfold MainApp.parse_resolution.
  destruct (PyStr.split "x" r) as [|ws [|hs [|? ?]]]; try (by intros [= <-]).
  destruct (PyStr.int ws) eqn:Hw; cbn [bind].
  - destruct (PyStr.int hs) eqn:Hh; cbn [bind]; [discriminate|].
    intros [= <-]. by eapply int_raises.
  - intros [= <-]. by eapply int_raises.
Qed.

Lemma parse_resolution_width_x_height (r : string) :
  (exists screen, MainApp.parse_resolution r = Ok screen) <-> Spec.width_x_height r.
Proof.
  split.
  - intros [[w ht] (ws & hs & -> & Hw & Hh)%parse_resolution_inv].
    exists ws, hs, w, ht. split; [done|]. split; by apply int_sound.
  - intros (ws & hs & w & ht & -> & Hw & Hh). exists (w, ht).
    apply parse_resolution_form; by apply int_complete.
Qed.

Lemma parse_resolution_fault (r : string) :
  ~ Spec.width_x_height r -> MainApp.parse_resolution r = Raise ValueError.
Proof.
  intros Hform. destruct (MainApp.parse_resolution r) as [screen|e] eqn:Hparse.
  - exfalso. apply Hform, parse_resolution_width_x_height. eauto.
  - by rewrite (parse_resolution_raises r e Hparse).
Qed.

(** ** The settings form *)

Ltac map_insert_eq :=
  unfold Form.settings_of; apply map_eq; intros ?;
  rewrite !lookup_insert; repeat case_decide; simplify_eq; done.

Lemma update_font_size_ok (th tw : Z) (m : pyval) (h : heap) (c : state) (fam : string) :
  0 <= th <= 65535 ->
  get (deref h (settings c)) "font_family" (VStr "Monospace") = VStr fam ->
  update_font_size th tw m h c =
    Ok (h, setFont (let px := Spec.font_pixel_size th m in
                    if px <=? 0 then QFont_of_family fam
                    else {| family := fam; pixelSize := px |}) c).
Proof.
  intros Hth Hfam. unfold update_font_size.
  rewrite (pixel_size_floor th m Hth). cbn [bind]. rewrite Hfam. cbn [bind as_str].
  rewrite (setPixelSize_ok _ _ (font_pixel_size_bounds th m Hth)).
  reflexivity.
Qed.

Lemma settings_of_not_empty bg fg size gmt font res :
  Form.settings_of bg fg size gmt font res <> ∅.
Proof.
  intros H. assert (Hl := f_equal (fun d : dict => d !! "bg_color") H).
  cbn beta in Hl. by rewrite lookup_empty in Hl.
Qed.

Lemma ok_insert (d : dict) (e : MainApp.event) key v :
  Form.ok d -> Form.written e = Some (key, v) ->
  (forall s, MainApp.enabled e s) ->
  Form.ok (<[key := v]> d).
Proof.
  intros (bg & fg & size & gmt & font & res & -> & Hs & Hg & Hf & Hr) Hw Hen.
  pose proof (Hen MainApp.init) as He.
  destruct e as [[q|]|[q|]|t|n|t|t|pending| | ]; simplify_eq/=.
  - exists q, fg, size, gmt, font, res. split; [map_insert_eq|done].
  - exists bg, q, size, gmt, font, res. split; [map_insert_eq|done].
  - exists bg, fg, t, gmt, font, res. split; [map_insert_eq|done].
  - exists bg, fg, size, n, font, res. split; [map_insert_eq|done].
  - exists bg, fg, size, gmt, t, res. split; [map_insert_eq|done].
  - exists bg, fg, size, gmt, font, t. split; [map_insert_eq|done].
Qed.

Lemma mutation_effect (e : MainApp.event) (s : MainApp.state) :
  Spec.is_mutation e = true ->
  exists s',
    MainApp.handle e s = Ok s' /\
    MainApp.objects s' =
      match Form.written e with
      | Some (key, v) =>
          setitem (SettingsWidget.settings (MainApp.settings_widget s)) key v
            (MainApp.objects s)
      | None => MainApp.objects s
      end /\
    SettingsWidget.settings (MainApp.settings_widget s')
    = SettingsWidget.settings (MainApp.settings_widget s) /\
    MainApp.clock_widget s' = MainApp.clock_widget s /\
    MainApp.current_widget s' = MainApp.current_widget s /\
    MainApp.mode s' = MainApp.mode s /\
    MainApp.geometry s' = MainApp.geometry s.
Proof.
  destruct e as [[q|]|[q|]|t|n|t|t|pending|utc|key]; try discriminate; intros _;
    (eexists; split; [reflexivity|]); cbn; done.
Qed.

Lemma update_time_keeps utc_now (h h' : heap) (c c' : state) :
  update_time utc_now h c = Ok (h', c') ->
  h' = h /\ settings c' = settings c /\
  timer_active c' = timer_active c /\ timer_interval c' = timer_interval c /\
  window_color c' = window_color c /\ text_color c' = text_color c /\
  label_font c' = label_font c /\ focus c' = focus c.
Proof.
  unfold update_time. case_bool_decide as Hsize; [by intros [= <- <-]|].
  intros H. bind_inv H as off Hoff. bind_inv H as delta Hdelta.
  bind_inv H as t Ht. bind_inv H as q Hq. by injection H as <- <-.
Qed.

(** ** Events inside events *)

Lemma handle_ClickStart (pending : list MainApp.event) (s : MainApp.state) :
  MainApp.handle (MainApp.ClickStart pending) s =
  MainApp.show_clock (MainApp.dispatch MainApp.handle pending)
    (alloc (deref (MainApp.objects s)
              (SettingsWidget.settings (MainApp.settings_widget s)))
           (MainApp.objects s)).2
    (MainApp.with_settings
       ((alloc (deref (MainApp.objects s)
                  (SettingsWidget.settings (MainApp.settings_widget s)))
               (MainApp.objects s)).1, MainApp.settings_widget s) s).
Proof.
  cbn -[alloc MainApp.show_clock MainApp.dispatch].
  destruct (alloc _ _) as [h' arg]. cbn [fst snd].
  change (MainApp.with_settings (h', MainApp.settings_widget s)
            (MainApp.with_settings _ s))
    with (MainApp.with_settings (h', MainApp.settings_widget s) s).
  by destruct (MainApp.show_clock _ _ _).
Qed.

Lemma enabled_ClickStart (pending : list MainApp.event) (s s1 : MainApp.state)
    (screen : Z * Z) :
  MainApp.show_clock_window
    (alloc (deref (MainApp.objects s)
              (SettingsWidget.settings (MainApp.settings_widget s)))
           (MainApp.objects s)).2
    (MainApp.with_settings
       ((alloc (deref (MainApp.objects s)
                  (SettingsWidget.settings (MainApp.settings_widget s)))
               (MainApp.objects s)).1, MainApp.settings_widget s) s)
  = Ok (s1, screen) ->
  MainApp.enabled (MainApp.ClickStart pending) s ->
  MainApp.enabled_all MainApp.enabled pending s1.
Proof.
  intros Hwindow. cbn [MainApp.enabled]. unfold MainApp.at_processEvents.
  cbn [deliver SettingsWidget.start_clock_signal_arg].
  destruct (alloc _ _) as [h' arg]. cbn [fst snd] in Hwindow.
  by rewrite Hwindow.
Qed.

(** *** What no handler undoes *)

Lemma framed_refl (s : MainApp.state) : Spec.framed s s.
Proof. done. Qed.

Lemma framed_trans (s1 s2 s3 : MainApp.state) :
  Spec.framed s1 s2 -> Spec.framed s2 s3 -> Spec.framed s1 s3.
Proof.
  intros (Hw1 & Hdom1 & Hd1) (Hw2 & Hdom2 & Hd2).
  split; [congruence|]. split; [set_solver|].
  intros l Hl Hne. rewrite Hd2; [by apply Hd1|set_solver|congruence].
Qed.

Lemma framed_same (s s' : MainApp.state) :
  MainApp.objects s' = MainApp.objects s ->
  MainApp.settings_widget s' = MainApp.settings_widget s ->
  Spec.framed s s'.
Proof. intros Hobj Hw. unfold Spec.framed. by rewrite Hobj, Hw. Qed.

Lemma show_settings_frame (s : MainApp.state) :
  MainApp.objects (MainApp.show_settings s) = MainApp.objects s /\
  MainApp.settings_widget (MainApp.show_settings s) = MainApp.settings_widget s /\
  MainApp.current_widget (MainApp.show_settings s) = MainApp.settings_page /\
  MainApp.clock_widget (MainApp.show_settings s) = timer_stop (MainApp.clock_widget s) /\
  MainApp.mode (MainApp.show_settings s) = MainApp.Normal /\
  MainApp.geometry (MainApp.show_settings s) = (400, 500).
Proof. done. Qed.

Lemma dom_alloc (d : dict) (h : heap) : dom h ⊆ dom (alloc d h).1.
Proof. unfold alloc. cbn. rewrite dom_insert_L. set_solver. Qed.

Lemma alloc_in_dom (d : dict) (h : heap) : (alloc d h).2 ∈ dom (alloc d h).1.
Proof. unfold alloc. cbn. rewrite dom_insert_L. set_solver. Qed.

Lemma other_event_framed (e : MainApp.event) (s s' : MainApp.state) :
  Spec.is_start e = false -> MainApp.handle e s = Ok s' -> Spec.framed s s'.
Proof.
  intros Hother Hh. destruct (Spec.is_mutation e) eqn:Hmut.
  - destruct (mutation_effect e s Hmut) as (t & Ht & Hobj & Hw & _).
    rewrite Ht in Hh. injection Hh as <-.
    split; [exact Hw|]. rewrite Hobj.
    destruct (Form.written e) as [[key v]|]; [|done].
    rewrite dom_setitem. split; [done|].
    intros l _ Hl. by apply deref_setitem_ne.
  - destruct e as [| | | | | |pending|utc|key]; try discriminate.
    + cbn in Hh. bind_inv Hh as [h1 c1] Hr. injection Hh as <-.
      apply update_time_keeps in Hr as (-> & _). by apply framed_same.
    + destruct key; injection Hh as <-; by apply framed_same.
Qed.

Lemma dispatch_framed (pending : list MainApp.event) :
  Forall (fun e => forall s s', MainApp.handle e s = Ok s' -> Spec.framed s s')
         pending ->
  forall s s', MainApp.dispatch MainApp.handle pending s = Ok s' -> Spec.framed s s'.
Proof.
  induction 1 as [|e es He _ IH]; intros s s' H.
  - injection H as <-. apply framed_refl.
  - cbn [MainApp.dispatch] in H. bind_inv H as s1 H1.
    eapply framed_trans; [by apply He|by apply IH].
Qed.

Lemma handle_framed (e : MainApp.event) :
  forall s s', MainApp.handle e s = Ok s' -> Spec.framed s s'.
Proof.
  induction e as [e Hother|pending IH] using event_ind; intros s s' Hh.
  - by eapply other_event_framed.
  - rewrite handle_ClickStart in Hh.
    apply show_clock_parts in Hh as (s1 & screen & s2 & H1 & H2 & H3).
    apply show_clock_window_frame in H1 as (Hobj1 & Hw1 & _).
    apply (dispatch_framed pending IH) in H2.
    apply show_clock_start_frame in H3 as (Hobj3 & Hw3 & _).
    eapply framed_trans; [|eapply framed_trans; [exact H2|by apply framed_same]].
    split; [by rewrite Hw1|]. rewrite Hobj1.
    cbn [MainApp.with_settings MainApp.objects fst snd].
    split; [apply dom_alloc|]. intros l Hl _. by apply deref_alloc_old.
Qed.
Lemma run_framed (pending : list MainApp.event) (s s' : MainApp.state) :
  MainApp.dispatch MainApp.handle pending s = Ok s' -> Spec.framed s s'.
Proof.
  apply dispatch_framed, List.Forall_forall. intros e _. apply handle_framed.
Qed.

(** *** What holds whenever a handler runs *)

Lemma inv_init : Form.inv MainApp.init.
Proof.
  unfold Form.inv. split; [vm_compute; done|]. split.
  { exists Color.black, Color.named_red, "Full Screen", (-3), "Monospace", "1920x1080".
    split; [vm_compute; reflexivity|].
    unfold SettingsWidget.sizes, SettingsWidget.fonts, SettingsWidget.resolutions,
      SettingsWidget.gmt_min, SettingsWidget.gmt_max.
    repeat split; try lia; set_solver. }
  split; [vm_compute; discriminate|]. split; [vm_compute; done|].
  split; [left; vm_compute; reflexivity|]. discriminate.
Qed.

Lemma inv_same (s s' : MainApp.state) :
  MainApp.objects s' = MainApp.objects s ->
  MainApp.settings_widget s' = MainApp.settings_widget s ->
  MainApp.clock_widget s' = MainApp.clock_widget s ->
  Form.inv s -> Form.inv s'.
Proof. unfold Form.inv. by intros -> -> ->. Qed.

Lemma other_event_inv (e : MainApp.event) (s s' : MainApp.state) :
  Spec.is_start e = false ->
  Form.inv s -> MainApp.enabled e s -> MainApp.handle e s = Ok s' -> Form.inv s'.
Proof.
  intros Hother (Hdom & Hok & Hsep & Hcdom & Hclock & Hact) Hen Hh.
  destruct (Spec.is_mutation e) eqn:Hmut.
  - destruct (mutation_effect e s Hmut)
      as (t & Ht & Hobj & Hw & Hc & _).
    rewrite Ht in Hh. injection Hh as <-.
    unfold Form.inv. rewrite Hw, Hc.
    destruct (Form.written e) as [[key v]|] eqn:Hwr; rewrite Hobj; [|done].
    rewrite dom_setitem, (deref_setitem_eq _ _ _ _ Hdom),
      (deref_setitem_ne _ _ _ _ _ (not_eq_sym Hsep)).
    split; [done|]. split; [|done].
    apply (ok_insert _ e key v Hok Hwr).
    intros s0. by destruct e.
  - destruct e as [| | | | | |pending|utc|key]; try discriminate.
    + cbn in Hh. bind_inv Hh as [h1 c1] Hr. injection Hh as <-.
      apply update_time_keeps in Hr as (-> & Hset & Hactive & Hint & _).
      unfold Form.inv. cbn. rewrite Hset, Hactive, Hint. done.
    + destruct key; injection Hh as <-; [|done].
      unfold Form.inv. cbn. repeat (split; [done|]). discriminate.
Qed.

Lemma dispatch_inv (pending : list MainApp.event) :
  Forall (fun e => forall s s',
            Form.inv s -> MainApp.enabled e s -> MainApp.handle e s = Ok s' ->
            Form.inv s') pending ->
  forall s s',
    Form.inv s -> MainApp.enabled_all MainApp.enabled pending s ->
    MainApp.dispatch MainApp.handle pending s = Ok s' -> Form.inv s'.
Proof.
  induction 1 as [|e es He _ IH]; intros s s' Hinv Hen H.
  - by injection H as <-.
  - cbn [MainApp.dispatch] in H. bind_inv H as s1 H1.
    cbn [MainApp.enabled_all] in Hen. destruct Hen as [Hen Hrest].
    rewrite H1 in Hrest. apply (IH s1); [by eapply He|done|done].
Qed.

(** The state in which [show_clock] starts: the form, and its copy *)
Lemma inv_delivered (s : MainApp.state) :
  Form.inv s ->
  let d := deref (MainApp.objects s)
             (SettingsWidget.settings (MainApp.settings_widget s)) in
  let s0 := MainApp.with_settings
              ((alloc d (MainApp.objects s)).1, MainApp.settings_widget s) s in
  let arg := (alloc d (MainApp.objects s)).2 in
  Form.inv s0 /\
  arg ∈ dom (MainApp.objects s0) /\
  arg <> SettingsWidget.settings (MainApp.settings_widget s0) /\
  deref (MainApp.objects s0) arg = d /\
  Form.ok d.
Proof.
  intros (Hdom & Hok & Hsep & Hcdom & Hclock & Hact) d s0 arg.
  assert (Harg : arg <> SettingsWidget.settings (MainApp.settings_widget s)).
  { intros Heq. apply (alloc_fresh d (MainApp.objects s)). fold arg. by rewrite Heq. }
  split; [|split; [apply alloc_in_dom|split; [exact Harg|split; [apply deref_alloc|done]]]].
  unfold Form.inv, s0.
  cbn [MainApp.with_settings MainApp.objects MainApp.settings_widget
       MainApp.clock_widget fst snd].
  rewrite !deref_alloc_old by done.
  split; [by apply dom_alloc|]. split; [done|]. split; [done|].
  split; [by apply dom_alloc|]. done.
Qed.

(** The state in which [show_clock] ends *)
Lemma inv_started (l : loc) (screen : Z * Z) (s s' : MainApp.state) :
  Form.inv s ->
  l ∈ dom (MainApp.objects s) ->
  l <> SettingsWidget.settings (MainApp.settings_widget s) ->
  Form.ok (deref (MainApp.objects s) l) ->
  MainApp.show_clock_start l screen s = Ok s' ->
  Form.inv s'.
Proof.
  intros (Hdom & Hok & Hsep & Hcdom & Hclock & Hact) Hl Hne Hokl H.
  apply show_clock_start_frame in H
    as (Hobj & Hw & _ & _ & _ & Hset & Hon & Hint & _).
  unfold Form.inv. rewrite Hobj, Hw, Hset, Hint. auto 10.
Qed.

Lemma handle_inv (e : MainApp.event) :
  forall s s',
    Form.inv s -> MainApp.enabled e s -> MainApp.handle e s = Ok s' -> Form.inv s'.
Proof.
  induction e as [e Hother|pending IH] using event_ind; intros s s' Hinv Hen Hh.
  - by eapply other_event_inv.
  - rewrite handle_ClickStart in Hh.
    apply show_clock_parts in Hh as (s1 & screen & s2 & H1 & H2 & H3).
    pose proof (enabled_ClickStart pending s s1 screen H1 Hen) as Hall.
    destruct (inv_delivered s Hinv) as (Hinv0 & Harg & Hne & Hd & Hok).
    apply show_clock_window_frame in H1 as (Hobj1 & Hw1 & Hc1 & _).
    assert (Hinv1 : Form.inv s1) by (by eapply inv_same).
    pose proof (dispatch_inv pending IH s1 s2 Hinv1 Hall H2) as Hinv2.
    destruct (run_framed pending s1 s2 H2) as (Hw2 & Hdom2 & Hd2).
    rewrite <- Hobj1 in Harg, Hd. rewrite <- Hw1 in Hne.
    eapply inv_started; [exact Hinv2| | | |exact H3].
    + by apply Hdom2.
    + congruence.
    + rewrite Hd2 by done. by rewrite Hd.
Qed.

Lemma handle_clock_runs (e : MainApp.event) (s s' : MainApp.state) :
  MainApp.handle e s = Ok s' -> Spec.clock_runs s -> Spec.clock_runs s'.
Proof.
  unfold Spec.clock_runs. intros Hh Hruns.
  destruct (Spec.is_mutation e) eqn:Hmut.
  { destruct (mutation_effect e s Hmut) as (t & Ht & _ & _ & Hc & Hp & _).
    rewrite Ht in Hh. injection Hh as <-. by rewrite Hc, Hp. }
  destruct e as [| | | | | |pending|utc|key]; try discriminate.
  - rewrite handle_ClickStart in Hh.
    apply show_clock_parts in Hh as (s1 & screen & s2 & _ & _ & H3).
    by apply show_clock_start_frame in H3 as (_ & _ & _ & _ & _ & _ & Hon & _).
  - cbn in Hh. bind_inv Hh as [h1 c1] Hr. injection Hh as <-.
    apply update_time_keeps in Hr as (_ & _ & Hactive & _). cbn. by rewrite Hactive.
  - destruct key; injection Hh as <-; [discriminate|exact Hruns].
Qed.

Lemma reachable_inv (s : MainApp.state) :
  MainApp.reachable s -> Form.inv s /\ Spec.clock_runs s.
Proof.
  induction 1 as [|s e s' _ [Hinv Hruns] [Hen Hh]].
  - split; [apply inv_init|discriminate].
  - split; [by eapply handle_inv|by eapply handle_clock_runs].
Qed.

(** *** Every handler returns *)

Lemma update_time_returns utc_now (h : heap) (c : state) :
  deref h (settings c) = ∅ \/ Form.ok (deref h (settings c)) ->
  Form.representable utc_now ->
  exists c', update_time utc_now h c = Ok (h, c').
Proof.
  intros [Hempty|(bg & fg & size & gmt & font & res & Hd & _ & Hgmt & _)] [Hvalid Hord].
  - exists c. unfold update_time. rewrite Hempty. by rewrite bool_decide_eq_true_2.
  - eexists. apply (update_time_ok utc_now h c gmt fg); try done.
    + rewrite Hd. apply settings_of_not_empty.
    + by rewrite Hd.
    + by rewrite Hd.
Qed.

Lemma other_event_returns (e : MainApp.event) (s : MainApp.state) :
  Spec.is_start e = false ->
  Form.inv s -> Form.instants_representable e ->
  exists s', MainApp.handle e s = Ok s'.
Proof.
  intros Hother (_ & _ & _ & _ & Hclock & _) Hrep.
  destruct (Spec.is_mutation e) eqn:Hmut.
  { destruct (mutation_effect e s Hmut) as (s' & Hs' & _). eauto. }
  destruct e as [| | | | | |pending|utc|key]; try discriminate.
  - destruct (update_time_returns utc _ _ Hclock Hrep) as [c' Hc'].
    cbn [MainApp.handle]. rewrite Hc'. cbn [bind]. eauto.
  - destruct key; cbn; eauto.
Qed.

Lemma dispatch_returns (pending : list MainApp.event) :
  Forall (fun e => forall s,
            Form.inv s -> MainApp.enabled e s -> Form.instants_representable e ->
            exists s', MainApp.handle e s = Ok s') pending ->
  forall s,
    Form.inv s -> MainApp.enabled_all MainApp.enabled pending s ->
    fold_right (fun e rest => Form.instants_representable e /\ rest) True pending ->
    exists s', MainApp.dispatch MainApp.handle pending s = Ok s'.
Proof.
  induction 1 as [|e es He _ IH]; intros s Hinv Hen Hrep.
  - by exists s.
  - cbn [MainApp.enabled_all] in Hen. destruct Hen as [Hen Hrest].
    cbn [fold_right] in Hrep. destruct Hrep as [Hrep Hreps].
    destruct (He s Hinv Hen Hrep) as [s1 H1]. rewrite H1 in Hrest.
    destruct (IH s1) as [s' H']; [by eapply handle_inv|done|done|].
    exists s'. cbn [MainApp.dispatch]. by rewrite H1.
Qed.

Lemma show_clock_window_returns (l : loc) (s : MainApp.state) :
  Form.ok (deref (MainApp.objects s) l) ->
  exists w ht,
    MainApp.show_clock_window l s =
      Ok (MainApp.select_window
            (default (VStr "") (deref (MainApp.objects s) l !! "size"))
            (MainApp.setCurrentWidget MainApp.clock_page s), (w, ht)) /\
    600 <= ht <= 1080.
Proof.
  intros (bg & fg & size & gmt & font & res & Hd & _ & _ & _ & Hres).
  destruct (presets_parse res Hres) as (w & ht & Hparse & Hht).
  exists w, ht. split; [|done].
  rewrite (show_clock_window_ok l s res (w, ht) (VStr size)); rewrite ?Hd; done.
Qed.

Lemma show_clock_start_returns (l : loc) (s : MainApp.state) (w ht : Z)
    bg fg size gmt font res :
  deref (MainApp.objects s) l = Form.settings_of bg fg size gmt font res ->
  0 <= ht <= 65535 ->
  MainApp.show_clock_start l (w, ht) s =
    Ok (MainApp.with_clock
          (MainApp.objects s,
           setFocus (setFont
             (let px := Spec.font_pixel_size ht (VStr size) in
              if px <=? 0 then QFont_of_family font
              else {| family := font; pixelSize := px |})
             (setFocus (timer_start 500
                (set_text_color fg (set_window_color bg
                   (set_settings l (MainApp.clock_widget s))))))))
          s).
Proof.
  intros Hd Hht.
  apply show_clock_start_ok; rewrite ?Hd; done.
Qed.

Lemma handle_returns (e : MainApp.event) :
  forall s,
    Form.inv s -> MainApp.enabled e s -> Form.instants_representable e ->
    exists s', MainApp.handle e s = Ok s'.
Proof.
  induction e as [e Hother|pending IH] using event_ind; intros s Hinv Hen Hrep.
  - by apply other_event_returns.
  - destruct (inv_delivered s Hinv) as (Hinv0 & Harg & Hne & Hd & Hok).
    set (arg := (alloc _ _).2) in *. set (s0 := MainApp.with_settings _ s) in *.
    destruct (show_clock_window_returns arg s0) as (w & ht & H1 & Hht);
      [by rewrite Hd|].
    set (s1 := MainApp.select_window _ _) in H1.
    pose proof (enabled_ClickStart pending s s1 (w, ht) H1 Hen) as Hall.
    pose proof (show_clock_window_frame _ _ _ _ H1) as (Hobj1 & Hw1 & Hc1 & _).
    assert (Hinv1 : Form.inv s1) by (by eapply inv_same).
    destruct (dispatch_returns pending IH s1 Hinv1 Hall Hrep) as [s2 H2].
    destruct (run_framed pending s1 s2 H2) as (Hw2 & Hdom2 & Hd2).
    destruct Hok as (bg & fg & size & gmt & font & res & Hform & _).
    eexists. rewrite handle_ClickStart. fold arg s0. apply show_clock_parts.
    exists s1, (w, ht), s2. split; [exact H1|]. split; [exact H2|].
    apply (show_clock_start_returns arg s2 w ht bg fg size gmt font res); [|lia].
    rewrite Hd2; rewrite ?Hobj1, ?Hw1; [by rewrite Hd|done|done].
Qed.

(** *** One event at a time *)

Lemma one_by_one_reachable (s : MainApp.state) :
  Spec.reachable_one_by_one s -> MainApp.reachable s.
Proof.
  induction 1 as [|s e s' _ IH _ Hstep]; [constructor|].
  by apply (MainApp.reachable_step s e s').
Qed.

Lemma timer_inv_step (s s' : MainApp.state) (e : MainApp.event) :
  Spec.nothing_pending e ->
  Spec.timer_inv s -> MainApp.handle e s = Ok s' -> Spec.timer_inv s'.
Proof.
  intros Hquiet Hinv Hh. unfold Spec.timer_inv in *.
  destruct (Spec.is_mutation e) eqn:Hmut.
  { destruct (mutation_effect e s Hmut) as (t & Ht & _ & _ & Hc & Hp & _).
    rewrite Ht in Hh. injection Hh as <-. by rewrite Hc, Hp. }
  destruct e as [| | | | | |pending|utc|key]; try discriminate.
  - cbn in Hquiet. subst pending. rewrite handle_ClickStart in Hh.
    apply show_clock_parts in Hh as (s1 & screen & s2 & H1 & [= <-] & H3).
    apply show_clock_window_frame in H1 as (_ & _ & _ & Hp1).
    apply show_clock_start_frame in H3 as (_ & _ & Hp3 & _).
    rewrite Hp3, Hp1. discriminate.
  - cbn in Hh. bind_inv Hh as [h1 c1] Hr. injection Hh as <-.
    apply update_time_keeps in Hr as (_ & _ & Hactive & _). cbn. by rewrite Hactive.
  - destruct key; injection Hh as <-; [reflexivity|exact Hinv].
Qed.

Lemma one_by_one_inv (s : MainApp.state) :
  Spec.reachable_one_by_one s -> Spec.timer_inv s.
Proof.
  induction 1 as [|s e s' _ IH Hquiet [_ Hh]]; [intros _; reflexivity|].
  by eapply timer_inv_step.
Qed.

(** ** The font size and the window *)

(** Below zero [int] and the floor part: [int] truncates toward zero. *)
Lemma pixel_size_truncates_toward_zero :
  pixel_size (-1) (VStr "Small") = Ok 0 /\
  Spec.font_pixel_size (-1) (VStr "Small") = -1.
Proof. split; vm_compute; reflexivity. Qed.

Lemma undisturbed_Ok (l : loc) (s : MainApp.state) : Spec.undisturbed Ok l s.
Proof. intros s1 screen _. by exists s1. Qed.

Lemma show_clock_font (pe : MainApp.state -> result MainApp.state) (l : loc)
    (s : MainApp.state) (r : string) (w ht : Z) (m : pyval) :
  Spec.typed (deref (MainApp.objects s) l) ->
  deref (MainApp.objects s) l !! "resolution" = Some (VStr r) ->
  MainApp.parse_resolution r = Ok (w, ht) ->
  0 <= ht <= 65535 ->
  deref (MainApp.objects s) l !! "size" = Some m ->
  Spec.undisturbed pe l s ->
  exists s' fam,
    MainApp.show_clock pe l s = Ok s' /\
    label_font (MainApp.clock_widget s') =
      Some (let px := Spec.font_pixel_size ht m in
            if px <=? 0 then QFont_of_family fam
            else {| family := fam; pixelSize := px |}).
Proof.
  intros ((bg & Hbg) & (fg & Hfg) & _ & _ & (fam & Hfam) & _) Hr Hparse Hht Hm Hpe.
  pose proof (show_clock_window_ok l s r (w, ht) m (get_Some _ _ _ _ Hr) Hparse Hm)
    as H1.
  destruct (Hpe _ _ H1) as (s2 & H2 & Hd2).
  rewrite select_window_objects in Hd2.
  cbn [MainApp.objects MainApp.setCurrentWidget] in Hd2.
  eexists _, fam. split.
  - apply show_clock_parts. eexists _, _, s2. split; [exact H1|]. split; [exact H2|].
    apply (show_clock_start_ok l s2 w ht m bg fg fam); rewrite ?Hd2; try done.
    by apply get_Some.
  - reflexivity.
Qed.

(** C2. The pixel size [update_font_size] computes for a height of 0 to
    65535 pixels is floor(height x p), p being 0.30 for Small, 0.50 for
    Medium and 0.55 otherwise; the width does not enter; and [show_clock]
    passes the height parsed from the selected resolution, whatever the
    mode and the geometry of the window, and whatever [processEvents]
    dispatches in between, as long as it returns and leaves the dictionary
    alone: the font of the label has that pixel size (when it is positive,
    as [setPixelSize] wants), which is the case for every resolution of the
    list. *)
Theorem font_pixel_size_is_floor_of_selected_height :
  Spec.percent (VStr "Small") = 30 /\ Spec.percent (VStr "Medium") = 50 /\
  Spec.percent (VStr "Full Screen") = 55 /\
  (forall height size_mode,
     0 <= height <= 65535 ->
     pixel_size height size_mode = Ok (height * Spec.percent size_mode / 100)) /\
  (forall height width width' size_mode h c,
     update_font_size height width size_mode h c
     = update_font_size height width' size_mode h c) /\
  (forall pe l s r w ht m,
     Spec.typed (deref (MainApp.objects s) l) ->
     deref (MainApp.objects s) l !! "resolution" = Some (VStr r) ->
     MainApp.parse_resolution r = Ok (w, ht) ->
     0 <= ht <= 65535 ->
     deref (MainApp.objects s) l !! "size" = Some m ->
     Spec.undisturbed pe l s ->
     exists s' font,
       MainApp.show_clock pe l s = Ok s' /\
       label_font (MainApp.clock_widget s') = Some font /\
       (0 < ht * Spec.percent m / 100 ->
        pixelSize font = ht * Spec.percent m / 100)) /\
  (forall pe l s r m,
     Spec.typed (deref (MainApp.objects s) l) ->
     deref (MainApp.objects s) l !! "resolution" = Some (VStr r) ->
     r ∈ SettingsWidget.resolutions ->
     deref (MainApp.objects s) l !! "size" = Some m ->
     Spec.undisturbed pe l s ->
     exists w ht s' font,
       MainApp.parse_resolution r = Ok (w, ht) /\
       MainApp.show_clock pe l s = Ok s' /\
       label_font (MainApp.clock_widget s') = Some font /\
       pixelSize font = ht * Spec.percent m / 100).
Proof.
  do 3 (split; [reflexivity|]).
  split; [intros; by apply pixel_size_floor|].
  split; [reflexivity|].
  assert (Hgen : forall pe l s r w ht m,
     Spec.typed (deref (MainApp.objects s) l) ->
     deref (MainApp.objects s) l !! "resolution" = Some (VStr r) ->
     MainApp.parse_resolution r = Ok (w, ht) ->
     0 <= ht <= 65535 ->
     deref (MainApp.objects s) l !! "size" = Some m ->
     Spec.undisturbed pe l s ->
     exists s' font,
       MainApp.show_clock pe l s = Ok s' /\
       label_font (MainApp.clock_widget s') = Some font /\
       (0 < ht * Spec.percent m / 100 ->
        pixelSize font = ht * Spec.percent m / 100)).
  { intros pe l s r w ht m Htyped Hr Hparse Hht Hm Hpe.
    destruct (show_clock_font pe l s r w ht m Htyped Hr Hparse Hht Hm Hpe)
      as (s' & fam & Hs' & Hfont).
    eexists _, _. split; [exact Hs'|]. split; [exact Hfont|].
    unfold Spec.font_pixel_size. intros Hpos.
    destruct (Z.leb_spec (ht * Spec.percent m / 100) 0); [lia|reflexivity]. }
  split; [exact Hgen|].
  intros pe l s r m Htyped Hr Hin Hm Hpe.
  destruct (presets_parse r Hin) as (w & ht & Hparse & Hht).
  destruct (Hgen pe l s r w ht m Htyped Hr Hparse ltac:(lia) Hm Hpe)
    as (s' & font & Hs' & Hfont & Hpx).
  exists w, ht, s', font. repeat split; try done.
  apply Hpx. unfold Spec.percent.
  destruct (eq_str m "Small"); [|destruct (eq_str m "Medium")];
    Z.div_mod_to_equations; lia.
Qed.

Lemma font_pixel_size_is_floor_of_selected_height_witness :
  pixel_size 768 (VStr "Medium") = Ok 384 /\
  exists s' font,
    MainApp.show_clock Ok Example.form Example.medium_1366 = Ok s' /\
    label_font (MainApp.clock_widget s') = Some font /\
    pixelSize font = 768 * 50 / 100.
Proof.
  destruct font_pixel_size_is_floor_of_selected_height
    as (_ & _ & _ & Hfloor & _ & Hshow & _).
  split.
  - apply (Hfloor 768 (VStr "Medium")). lia.
  - destruct (Hshow Ok Example.form Example.medium_1366 "1366x768" 1366 768
                (VStr "Medium")) as (s' & font & Hs' & Hfont & Hpx).
    + unfold Spec.typed. repeat split; eexists; vm_compute; reflexivity.
    + vm_compute. reflexivity.
    + vm_compute. reflexivity.
    + lia.
    + vm_compute. reflexivity.
    + apply undisturbed_Ok.
    + exists s', font. repeat split; [exact Hs' | exact Hfont |].
      apply Hpx. reflexivity.
Defined.

(** C9. [show_clock] chooses the window from the size mode alone: on typed
    settings whose resolution is any item of the list it returns, with a
    full-screen window for Full Screen, a normal window of 400x200 for Small
    and a normal window of 800x400 for Medium; the resolution selected does
    not enter.  This is the window in which [processEvents] is called,
    whatever is pending then, and the statements of [show_clock] that
    follow leave the window as [processEvents] leaves it. *)
Theorem show_clock_window_from_size_mode
    (l : loc) (s : MainApp.state) (r size_mode : string) :
  Spec.typed (deref (MainApp.objects s) l) ->
  deref (MainApp.objects s) l !! "resolution" = Some (VStr r) ->
  r ∈ SettingsWidget.resolutions ->
  deref (MainApp.objects s) l !! "size" = Some (VStr size_mode) ->
  exists s',
    MainApp.show_clock Ok l s = Ok s' /\
    (size_mode = "Full Screen" -> MainApp.mode s' = MainApp.FullScreen) /\
    (size_mode = "Small" ->
     MainApp.mode s' = MainApp.Normal /\ MainApp.geometry s' = (400, 200)) /\
    (size_mode = "Medium" ->
     MainApp.mode s' = MainApp.Normal /\ MainApp.geometry s' = (800, 400)) /\
    (forall pe s'',
       MainApp.show_clock pe l s = Ok s'' ->
       exists s1 screen s2,
         MainApp.show_clock_window l s = Ok (s1, screen) /\
         MainApp.mode s1 = MainApp.mode s' /\
         MainApp.geometry s1 = MainApp.geometry s' /\
         pe s1 = Ok s2 /\
         MainApp.mode s'' = MainApp.mode s2 /\
         MainApp.geometry s'' = MainApp.geometry s2).
Proof.
  intros Htyped Hr Hin Hm.
  destruct (presets_parse r Hin) as (w & ht & Hparse & Hht).
  destruct (show_clock_ok l s r w ht (VStr size_mode) Htyped Hr Hparse
              ltac:(lia) Hm) as (c1 & fam & _ & _ & ->).
  eexists. split; [reflexivity|].
  split; [by intros ->|]. split; [by intros ->|]. split; [by intros ->|].
  intros pe s'' (s1 & screen & s2 & H1 & H2 & H3)%show_clock_parts.
  exists s1, screen, s2. split; [exact H1|].
  rewrite (show_clock_window_ok l s r (w, ht) (VStr size_mode)
             (get_Some _ _ _ _ Hr) Hparse Hm) in H1.
  injection H1 as <- <-.
  apply show_clock_start_frame in H3 as (_ & _ & _ & Hmode & Hgeo & _).
  done.
Qed.

Lemma show_clock_window_from_size_mode_witness :
  exists s',
    MainApp.show_clock Ok Example.form Example.medium_1366 = Ok s' /\
    MainApp.mode s' = MainApp.Normal /\ MainApp.geometry s' = (800, 400).
Proof.
  destruct (show_clock_window_from_size_mode Example.form Example.medium_1366
              "1366x768" "Medium") as (s' & Hs' & _ & _ & Hmedium & _).
  - unfold Spec.typed. repeat split; eexists; vm_compute; reflexivity.
  - vm_compute. reflexivity.
  - unfold SettingsWidget.resolutions. set_solver.
  - vm_compute. reflexivity.
  - exists s'. split; [exact Hs'|]. apply Hmedium. reflexivity.
Defined.

(** C10. Every item of the resolution list splits and converts, so from
    every reachable state, where the resolution is such an item, the
    handler of the start button reaches [processEvents] and, with events
    pending that can be delivered or with none, returns.  A text parses
    exactly when it has the form WIDTHxHEIGHT: one letter x between two
    integers written in base ten, each with white space around it or none,
    a sign or none, and digits in groups separated by single underscores,
    4300 digits at most; the numbers parsed are the two integers written.
    Any other text makes [parse_resolution], and with it [show_clock],
    raise [ValueError]. *)
Theorem resolution_parse_fault_only_off_list :
  (forall r, r ∈ SettingsWidget.resolutions ->
     exists w ht, MainApp.parse_resolution r = Ok (w, ht)) /\
  (forall s, MainApp.reachable s ->
     (exists s1, MainApp.at_processEvents s = Ok s1) /\
     (exists s', MainApp.handle (MainApp.ClickStart []) s = Ok s') /\
     (forall pending,
        Form.deliverable (MainApp.ClickStart pending) s ->
        exists s', MainApp.handle (MainApp.ClickStart pending) s = Ok s')) /\
  (forall r w ht,
     MainApp.parse_resolution r = Ok (w, ht) <->
     exists ws hs,
       r = ws +:+ "x" +:+ hs /\
       Spec.integer_text ws w /\ Spec.integer_text hs ht) /\
  (forall r, ~ Spec.width_x_height r ->
     MainApp.parse_resolution r = Raise ValueError) /\
  (forall pe l s r,
     deref (MainApp.objects s) l !! "resolution" = Some (VStr r) ->
     ~ Spec.width_x_height r ->
     MainApp.show_clock pe l s = Raise ValueError).
Proof.
  split; [|split; [|split; [|split]]].
  - intros r Hin. destruct (presets_parse r Hin) as (w & ht & Hparse & _). eauto.
  - intros s Hreach. destruct (reachable_inv s Hreach) as [Hinv _].
    assert (Hany : forall pending,
              Form.deliverable (MainApp.ClickStart pending) s ->
              exists s', MainApp.handle (MainApp.ClickStart pending) s = Ok s').
    { intros pending [Hen Hrep]. by apply handle_returns. }
    split; [|split; [|exact Hany]].
    + destruct (inv_delivered s Hinv) as (_ & _ & _ & Hd & Hok).
      unfold MainApp.at_processEvents.
      cbn [deliver SettingsWidget.start_clock_signal_arg].
      destruct (alloc _ _) as [h' arg] eqn:Halloc. cbn [fst snd] in Hd.
      destruct (show_clock_window_returns arg
                  (MainApp.with_settings (h', MainApp.settings_widget s) s))
        as (w & ht & -> & _); [by rewrite Hd|].
      cbn [bind]. eauto.
    + apply Hany. split; [|exact I]. cbn [MainApp.enabled].
      by destruct (MainApp.at_processEvents s).
  - intros r w ht. split.
    + intros (ws & hs & -> & Hw & Hh)%parse_resolution_inv.
      exists ws, hs. split; [done|]. split; by apply int_sound.
    + intros (ws & hs & -> & Hw & Hh).
      apply parse_resolution_form; by apply int_complete.
  - apply parse_resolution_fault.
  - intros pe l s r Hr Hform. unfold MainApp.show_clock, MainApp.show_clock_window.
    cbn [MainApp.objects MainApp.setCurrentWidget].
    rewrite (get_Some _ _ _ _ Hr). cbn [bind str_receiver].
    by rewrite (parse_resolution_fault r Hform).
Qed.

Lemma resolution_parse_fault_only_off_list_witness :
  (exists w ht, MainApp.parse_resolution "1366x768" = Ok (w, ht)) /\
  (exists s', MainApp.handle Example.escape_pending MainApp.init = Ok s') /\
  MainApp.show_clock Ok Example.form Example.free_text = Raise ValueError.
Proof.
  destruct resolution_parse_fault_only_off_list
    as (Hlist & Hstart & Hform & _ & Hfault).
  split; [|split].
  - apply (Hlist "1366x768"). unfold SettingsWidget.resolutions.
    repeat constructor.
  - apply (Hstart MainApp.init); [apply MainApp.reachable_init|].
    split; [vm_compute; done|vm_compute; done].
  - apply (Hfault Ok Example.form Example.free_text "1366 by 768").
    + vm_compute. reflexivity.
    + intros (ws & hs & w & ht & Heq & Hw & Hh).
      assert (Hparse : MainApp.parse_resolution "1366 by 768" = Ok (w, ht))
        by (apply Hform; eauto).
      vm_compute in Hparse. discriminate.
Defined.

(** ** The snapshot *)

Lemma update_time_ext utc (h h' : heap) (c : state) :
  deref h (settings c) = deref h' (settings c) ->
  match update_time utc h c, update_time utc h' c with
  | Ok r, Ok r' => r.2 = r'.2 /\ r.1 = h /\ r'.1 = h'
  | Raise e, Raise e' => e = e'
  | _, _ => False
  end.
Proof.
  intros Hd. unfold update_time. rewrite <- Hd.
  case_bool_decide; [done|].
  repeat (match goal with
          | |- context [bind ?r _] => destruct r; cbn [bind]
          end; try done).
Qed.

Lemma mutation_frame (e : MainApp.event) (s : MainApp.state) :
  Spec.is_mutation e = true ->
  exists s',
    MainApp.handle e s = Ok s' /\
    MainApp.clock_widget s' = MainApp.clock_widget s /\
    SettingsWidget.settings (MainApp.settings_widget s')
    = SettingsWidget.settings (MainApp.settings_widget s) /\
    forall l, l <> SettingsWidget.settings (MainApp.settings_widget s) ->
              deref (MainApp.objects s') l = deref (MainApp.objects s) l.
Proof.
  destruct e as [[q|]|[q|]|t|n|t|t|pending|utc|key]; try discriminate; intros _;
    (eexists; split; [reflexivity|]); cbn;
    (split; [reflexivity|]); (split; [reflexivity|]);
    intros l Hl; try reflexivity; by apply deref_setitem_ne.
Qed.

Lemma same_clock_run (es : list MainApp.event) :
  forall s t,
    forallb (fun e => Spec.is_mutation e || Spec.is_tick e) es = true ->
    Spec.same_clock s t -> Spec.separate s ->
    Spec.clock_of (Spec.run_events es s)
    = Spec.clock_of (Spec.run_events (filter (fun e => Spec.is_tick e = true) es) t).
Proof.
  induction es as [|e es IH]; intros s t Hes [Hc Hd] Hsep.
  - cbn. by rewrite Hc.
  - cbn [forallb] in Hes. apply andb_prop in Hes as [He Hes].
    cbn [Spec.run_events].
    destruct (Spec.is_mutation e) eqn:Hmut.
    + assert (Htick : Spec.is_tick e = false) by (by destruct e).
      rewrite filter_cons_False by (by rewrite Htick).
      destruct (mutation_frame e s Hmut) as (s' & -> & Hc' & Hw' & Hd').
      cbn [bind]. apply IH; [done| |].
      * split; [congruence|]. rewrite Hc', (Hd' _ Hsep). done.
      * unfold Spec.separate. by rewrite Hc', Hw'.
    + destruct e as [| | | | | |pending|utc|]; try discriminate.
      rewrite filter_cons_True by done.
      cbn [Spec.run_events MainApp.handle].
      rewrite <- Hc in Hd |- *.
      pose proof (update_time_ext utc (MainApp.objects s) (MainApp.objects t)
                    (MainApp.clock_widget s) Hd) as Hext.
      destruct (update_time utc (MainApp.objects s) (MainApp.clock_widget s))
        as [[h1 c1]|e1] eqn:Hs;
        destruct (update_time utc (MainApp.objects t) (MainApp.clock_widget s))
        as [[h2 c2]|e2] eqn:Ht; try done; cbn [bind].
      * cbn [fst snd] in Hext. destruct Hext as (-> & -> & ->).
        apply update_time_keeps in Hs as (_ & Hset & _).
        apply IH; [done| |].
        -- split; [reflexivity|]. cbn. by rewrite Hset.
        -- unfold Spec.separate. cbn. by rewrite Hset.
      * cbn. by subst.
Qed.

Lemma mutations_run (es : list MainApp.event) :
  forall s,
    forallb Spec.is_mutation es = true -> Spec.separate s ->
    exists s2, Spec.run_events es s = Ok s2 /\ Spec.same_clock s2 s.
Proof.
  induction es as [|e es IH]; intros s Hes Hsep.
  - exists s. done.
  - cbn [forallb] in Hes. apply andb_prop in Hes as [He Hes].
    destruct (mutation_frame e s He) as (s' & Hh & Hc' & Hw' & Hd').
    destruct (IH s' Hes) as (s2 & Hrun & Hc2 & Hd2).
    { unfold Spec.separate. by rewrite Hc', Hw'. }
    exists s2. cbn [Spec.run_events]. rewrite Hh. cbn [bind].
    split; [exact Hrun|]. split; [congruence|].
    rewrite Hd2, Hc'. by apply Hd'.
Qed.

Lemma ClickStart_snapshot (pending : list MainApp.event) (s s1 : MainApp.state) :
  SettingsWidget.settings (MainApp.settings_widget s) ∈ dom (MainApp.objects s) ->
  MainApp.handle (MainApp.ClickStart pending) s = Ok s1 ->
  deref (MainApp.objects s1) (settings (MainApp.clock_widget s1))
  = deref (MainApp.objects s) (SettingsWidget.settings (MainApp.settings_widget s)) /\
  Spec.separate s1.
Proof.
  intros Hdom Hstart. rewrite handle_ClickStart in Hstart.
  set (d := deref _ _) in *. set (arg := (alloc _ _).2) in *.
  apply show_clock_parts in Hstart as (s0 & screen & s2 & H1 & H2 & H3).
  apply show_clock_window_frame in H1 as (Hobj1 & Hw1 & _).
  destruct (run_framed pending s0 s2 H2) as (Hw2 & _ & Hd2).
  apply show_clock_start_frame in H3 as (Hobj3 & Hw3 & _ & _ & _ & Hset & _).
  cbn [MainApp.with_settings MainApp.objects MainApp.settings_widget fst snd]
    in Hobj1, Hw1.
  assert (Harg : arg <> SettingsWidget.settings (MainApp.settings_widget s)).
  { intros Heq. apply (alloc_fresh d (MainApp.objects s)). fold arg. by rewrite Heq. }
  unfold Spec.separate. rewrite Hobj3, Hw3, Hset, Hw2, Hw1. split; [|exact Harg].
  rewrite Hd2; rewrite ?Hobj1, ?Hw1; [apply deref_alloc|apply alloc_in_dom|exact Harg].
Qed.

(** C4. The clock started by the start button reads a dictionary of its
    own, which holds what the form held when the button was clicked,
    whatever [processEvents] has dispatched inside the start.  Whatever
    handlers of the form run afterwards, between the ticks or after them,
    the clock screen is the one the ticks alone produce: colours, font and
    label; and after handlers alone the clock screen and its dictionary are
    unchanged, so a later tick still uses the text colour of the start. *)
Theorem started_clock_keeps_its_snapshot
    (pending : list MainApp.event) (s s1 : MainApp.state)
    (es : list MainApp.event) :
  SettingsWidget.settings (MainApp.settings_widget s) ∈ dom (MainApp.objects s) ->
  MainApp.handle (MainApp.ClickStart pending) s = Ok s1 ->
  forallb (fun e => Spec.is_mutation e || Spec.is_tick e) es = true ->
  deref (MainApp.objects s1) (settings (MainApp.clock_widget s1))
  = deref (MainApp.objects s) (SettingsWidget.settings (MainApp.settings_widget s)) /\
  Spec.clock_of (Spec.run_events es s1)
  = Spec.clock_of (Spec.run_events (filter (fun e => Spec.is_tick e = true) es) s1) /\
  (forallb Spec.is_mutation es = true ->
   exists s2,
     Spec.run_events es s1 = Ok s2 /\
     MainApp.clock_widget s2 = MainApp.clock_widget s1 /\
     deref (MainApp.objects s2) (settings (MainApp.clock_widget s2))
     = deref (MainApp.objects s)
         (SettingsWidget.settings (MainApp.settings_widget s))).
Proof.
  intros Hdom Hstart Hes.
  destruct (ClickStart_snapshot pending s s1 Hdom Hstart) as [Hsnap Hsep].
  split; [exact Hsnap|]. split.
  - apply same_clock_run; [exact Hes|done|exact Hsep].
  - intros Hmut. destruct (mutations_run es s1 Hmut Hsep) as (s2 & Hrun & Hc & Hd).
    exists s2. split; [exact Hrun|]. split; [exact Hc|]. by rewrite Hd.
Qed.

Lemma started_clock_keeps_its_snapshot_witness :
  exists s2,
    Spec.run_events
      [MainApp.ChooseTextColor (Some (RGB 0 0 255)); MainApp.SetGmt 5;
       MainApp.SetFont "FreeMono"] Example.started = Ok s2 /\
    MainApp.clock_widget s2 = MainApp.clock_widget Example.started /\
    deref (MainApp.objects s2) (settings (MainApp.clock_widget s2))
    = deref (MainApp.objects MainApp.init) Example.form.
Proof.
  destruct (started_clock_keeps_its_snapshot [] MainApp.init Example.started
              [MainApp.ChooseTextColor (Some (RGB 0 0 255)); MainApp.SetGmt 5;
               MainApp.SetFont "FreeMono"]) as (_ & _ & Hmut).
  - vm_compute. done.
  - vm_compute. reflexivity.
  - reflexivity.
  - apply Hmut. reflexivity.
Defined.

(** Were the signal declared with [object], the form and the clock would
    share one dictionary, and a colour chosen later would show in the next
    tick. *)
Lemma by_reference_signal_would_alias :
  exists s1 s2 r1 r2,
    MainApp.start_slot ArgObject Ok (SettingsWidget.start_clock_signal Example.form)
      MainApp.init = Ok s1 /\
    MainApp.handle (MainApp.ChooseTextColor (Some (RGB 0 0 255))) s1 = Ok s2 /\
    update_time Example.utc_14_00 (MainApp.objects s1) (MainApp.clock_widget s1)
      = Ok r1 /\
    update_time Example.utc_14_00 (MainApp.objects s2) (MainApp.clock_widget s2)
      = Ok r2 /\
    label_text r1.2 <> label_text r2.2.
Proof.
  eexists _, _, _, _.
  split; [vm_compute; reflexivity|].
  split; [vm_compute; reflexivity|].
  split; [vm_compute; reflexivity|].
  split; [vm_compute; reflexivity|].
  vm_compute. discriminate.
Qed.

(** ** Back to the settings *)

(** C5. The escape key makes the shell run [show_settings], whose four
    statements run in this order: the timer is stopped after the first, the
    page is still the old one after the first three, and the last shows the
    settings screen in a normal window of 400x500.  Yet a tick can fire
    while the settings screen is visible.  When the escape key is pressed
    right after the click on the start button, it is pending when
    [show_clock] calls [processEvents] at line 280: [show_settings] runs
    there, inside [show_clock], which then goes on and starts the timer.
    The run ends on the settings page with the timer running, a timeout can
    be delivered, and the tick rewrites the label of the hidden clock. *)
Theorem escape_pending_at_start_leaves_timer_running :
  (forall s, MainApp.handle (MainApp.PressKey Key_Escape) s
             = Ok (MainApp.show_settings s)) /\
  (forall s, exists s1 s2 s3 s4,
     MainApp.trace MainApp.show_settings_steps s = [s1; s2; s3; s4] /\
     s4 = MainApp.show_settings s /\
     Forall (fun t => timer_active (MainApp.clock_widget t) = false)
            [s1; s2; s3; s4] /\
     Forall (fun t => MainApp.current_widget t = MainApp.current_widget s)
            [s1; s2; s3] /\
     MainApp.current_widget s4 = MainApp.settings_page /\
     MainApp.mode s4 = MainApp.Normal /\
     MainApp.geometry s4 = (400, 500)) /\
  MainApp.enabled Example.escape_pending MainApp.init /\
  MainApp.handle Example.escape_pending MainApp.init = Ok Example.raced /\
  MainApp.reachable Example.raced /\
  MainApp.current_widget Example.raced = MainApp.settings_page /\
  MainApp.mode Example.raced = MainApp.Normal /\
  MainApp.geometry Example.raced = (400, 500) /\
  timer_active (MainApp.clock_widget Example.raced) = true /\
  (forall utc_now, MainApp.enabled (MainApp.Timeout utc_now) Example.raced) /\
  exists ticked,
    MainApp.handle (MainApp.Timeout Example.utc_14_00) Example.raced = Ok ticked /\
    MainApp.current_widget ticked = MainApp.settings_page /\
    label_text (MainApp.clock_widget Example.raced) = EmptyString /\
    Spec.html_text false (label_text (MainApp.clock_widget ticked)) = "11:00".
Proof.
  split; [reflexivity|]. split.
  { intros s. eexists _, _, _, _. split; [reflexivity|].
    split; [reflexivity|]. repeat constructor. }
  assert (Hen : MainApp.enabled Example.escape_pending MainApp.init)
    by (vm_compute; done).
  assert (Hh : MainApp.handle Example.escape_pending MainApp.init = Ok Example.raced)
    by (vm_compute; reflexivity).
  split; [exact Hen|]. split; [exact Hh|]. split.
  { apply (MainApp.reachable_step MainApp.init Example.escape_pending);
      [apply MainApp.reachable_init|by split]. }
  do 4 (split; [vm_compute; reflexivity|]).
  split; [intros utc_now; vm_compute; reflexivity|].
  eexists. split; [vm_compute; reflexivity|].
  split; [reflexivity|]. split; vm_compute; reflexivity.
Qed.

(** * Beyond the claims: edges, invariants and round trips *)

(** ** The settings form and what every reachable state satisfies *)

(** X15.  A handler of the settings form writes its own entry and nothing
    else.  In a state whose form dictionary exists, each of the six handlers
    returns; the entry it writes has the new value and every other key of
    the form dictionary keeps its value (a cancelled colour dialog leaves
    the dictionary as it was); every other dictionary of the store, the set
    of objects, the clock screen and the page shown are unchanged. *)
Theorem form_handler_writes_its_entry_only
    (e : MainApp.event) (s : MainApp.state) :
  Spec.is_mutation e = true ->
  SettingsWidget.settings (MainApp.settings_widget s) ∈ dom (MainApp.objects s) ->
  exists s',
    MainApp.handle e s = Ok s' /\
    (let form := SettingsWidget.settings (MainApp.settings_widget s) in
     let d := deref (MainApp.objects s) form in
     let d' := deref (MainApp.objects s') form in
     match Form.written e with
     | Some (key, v) =>
         d' !! key = Some v /\ forall k, k <> key -> d' !! k = d !! k
     | None => d' = d
     end) /\
    (forall l, l <> SettingsWidget.settings (MainApp.settings_widget s) ->
       deref (MainApp.objects s') l = deref (MainApp.objects s) l) /\
    dom (MainApp.objects s') = dom (MainApp.objects s) /\
    MainApp.clock_widget s' = MainApp.clock_widget s /\
    MainApp.current_widget s' = MainApp.current_widget s.
Proof.
  intros Hmut Hdom.
  destruct (mutation_effect e s Hmut) as (s' & Hs' & Hobj & Hw & Hc & Hp & _).
  exists s'. split; [exact Hs'|]. cbn zeta. rewrite Hobj.
  destruct (Form.written e) as [[key v]|].
  - rewrite (deref_setitem_eq _ _ _ _ Hdom), dom_setitem.
    split; [|split; [|done]].
    + split; [apply lookup_insert_eq|].
      intros k Hk. by apply lookup_insert_ne.
    + intros l Hl. by apply deref_setitem_ne.
  - done.
Qed.

Lemma form_handler_writes_its_entry_only_witness :
  exists s',
    MainApp.handle (MainApp.SetGmt 5) Example.started = Ok s' /\
    deref (MainApp.objects s') Example.form !! "gmt_offset" = Some (VInt 5) /\
    MainApp.clock_widget s' = MainApp.clock_widget Example.started.
Proof.
  destruct (form_handler_writes_its_entry_only (MainApp.SetGmt 5) Example.started)
    as (s' & Hs' & [Hkey _] & _ & _ & Hc & _).
  - reflexivity.
  - vm_compute. done.
  - exists s'. split; [exact Hs'|]. split; [exact Hkey|exact Hc].
Defined.

(** X18.  In every reachable state the dictionary of the settings form has
    exactly the six keys it was created with, each of the type and range of
    its control: two colours, a size of the size list, an offset from -12 to
    14, a font of the font list and a resolution of the resolution list. *)
Theorem form_dictionary_stays_within_the_controls (s : MainApp.state) :
  MainApp.reachable s ->
  exists bg fg size gmt font resolution,
    deref (MainApp.objects s) (SettingsWidget.settings (MainApp.settings_widget s))
    = Form.settings_of bg fg size gmt font resolution /\
    size ∈ SettingsWidget.sizes /\
    -12 <= gmt <= 14 /\
    font ∈ SettingsWidget.fonts /\
    resolution ∈ SettingsWidget.resolutions.
Proof.
  intros Hreach. by destruct (reachable_inv s Hreach) as [(_ & Hok & _) _].
Qed.

Lemma reachable_raced : MainApp.reachable Example.raced.
Proof.
  apply (MainApp.reachable_step MainApp.init Example.escape_pending);
    [apply MainApp.reachable_init|].
  split; [vm_compute; done|vm_compute; reflexivity].
Defined.

Lemma form_dictionary_stays_within_the_controls_witness :
  exists bg fg size gmt font resolution,
    deref (MainApp.objects Example.raced)
      (SettingsWidget.settings (MainApp.settings_widget Example.raced))
    = Form.settings_of bg fg size gmt font resolution /\
    size ∈ SettingsWidget.sizes /\
    -12 <= gmt <= 14 /\
    font ∈ SettingsWidget.fonts /\
    resolution ∈ SettingsWidget.resolutions.
Proof.
  apply (form_dictionary_stays_within_the_controls Example.raced).
  apply reachable_raced.
Defined.

(** X19.  In every reachable state in which the clock page is shown the
    timer is active, and an active timer has the interval of 500
    milliseconds.  In the runs in which no event is ever pending when
    [show_clock] calls [processEvents], the timer is active exactly when
    the clock page is shown. *)
Theorem timer_runs_while_clock_is_shown (s : MainApp.state) :
  MainApp.reachable s ->
  (MainApp.current_widget s = MainApp.clock_page ->
   timer_active (MainApp.clock_widget s) = true) /\
  (timer_active (MainApp.clock_widget s) = true ->
   timer_interval (MainApp.clock_widget s) = 500) /\
  (Spec.reachable_one_by_one s ->
   (timer_active (MainApp.clock_widget s) = true <->
    MainApp.current_widget s = MainApp.clock_page)).
Proof.
  intros Hreach.
  destruct (reachable_inv s Hreach) as [(_ & _ & _ & _ & _ & Hact) Hruns].
  split; [exact Hruns|]. split; [intros Hon; by destruct (Hact Hon)|].
  intros Hone. pose proof (one_by_one_inv s Hone) as Hoff.
  unfold Spec.timer_inv in Hoff. split; [|exact Hruns].
  intros Hon. destruct (MainApp.current_widget s); [|done].
  rewrite Hoff in Hon by done. discriminate.
Qed.

Lemma reachable_started : MainApp.reachable Example.started.
Proof.
  apply (MainApp.reachable_step MainApp.init (MainApp.ClickStart []));
    [apply MainApp.reachable_init|].
  split; [vm_compute; done|vm_compute; reflexivity].
Defined.

Lemma one_by_one_started : Spec.reachable_one_by_one Example.started.
Proof.
  apply (Spec.one_by_one_step MainApp.init (MainApp.ClickStart []));
    [apply Spec.one_by_one_init|reflexivity|].
  split; [vm_compute; done|vm_compute; reflexivity].
Defined.

Lemma timer_runs_while_clock_is_shown_witness :
  (MainApp.current_widget Example.started = MainApp.clock_page ->
   timer_active (MainApp.clock_widget Example.started) = true) /\
  (timer_active (MainApp.clock_widget Example.started) = true ->
   timer_interval (MainApp.clock_widget Example.started) = 500) /\
  (timer_active (MainApp.clock_widget Example.started) = true <->
   MainApp.current_widget Example.started = MainApp.clock_page).
Proof.
  destruct (timer_runs_while_clock_is_shown Example.started reachable_started)
    as (Hruns & Hint & Hiff).
  split; [exact Hruns|]. split; [exact Hint|]. apply Hiff, one_by_one_started.
Defined.

(** X21.  In every reachable state the clock holds another dictionary
    than the one the form writes to, and a handler of the form changes
    neither the clock screen nor an entry of the dictionary the clock
    reads. *)
Theorem running_clock_never_sees_the_form_change
    (s s' : MainApp.state) (e : MainApp.event) :
  MainApp.reachable s ->
  Spec.is_mutation e = true ->
  MainApp.handle e s = Ok s' ->
  settings (MainApp.clock_widget s)
  <> SettingsWidget.settings (MainApp.settings_widget s) /\
  MainApp.clock_widget s' = MainApp.clock_widget s /\
  deref (MainApp.objects s') (settings (MainApp.clock_widget s'))
  = deref (MainApp.objects s) (settings (MainApp.clock_widget s)).
Proof.
  intros Hreach Hmut Hh.
  destruct (reachable_inv s Hreach) as [(_ & _ & Hsep & _) _].
  destruct (mutation_frame e s Hmut) as (t & Ht & Hc & _ & Hd).
  rewrite Ht in Hh. injection Hh as <-.
  split; [exact Hsep|]. split; [exact Hc|]. rewrite Hc. by apply Hd.
Qed.

Lemma running_clock_never_sees_the_form_change_witness :
  exists s',
    MainApp.handle (MainApp.ChooseTextColor (Some (RGB 0 0 255))) Example.started
      = Ok s' /\
    deref (MainApp.objects s') (settings (MainApp.clock_widget s'))
    = deref Example.store (settings Example.clock).
Proof.
  eexists. split; [vm_compute; reflexivity|].
  refine (proj2 (proj2 (running_clock_never_sees_the_form_change
            Example.started _ (MainApp.ChooseTextColor (Some (RGB 0 0 255)))
            reachable_started eq_refl _))).
  vm_compute. reflexivity.
Defined.

(** X20.  The page shown changes in two ways only: a handler that returns
    with another page shown is the start button, and when no event is
    pending at [processEvents] the page is then the clock, or the escape
    key, and the page is then the settings. *)
Theorem page_changes_only_by_start_and_escape
    (s s' : MainApp.state) (e : MainApp.event) :
  MainApp.handle e s = Ok s' ->
  MainApp.current_widget s' <> MainApp.current_widget s ->
  (exists pending,
     e = MainApp.ClickStart pending /\
     (pending = [] -> MainApp.current_widget s' = MainApp.clock_page)) \/
  (e = MainApp.PressKey Key_Escape /\
   MainApp.current_widget s' = MainApp.settings_page).
Proof.
  intros Hh Hne.
  destruct (Spec.is_mutation e) eqn:Hmut.
  { destruct (mutation_effect e s Hmut) as (t & Ht & _ & _ & _ & Hp & _).
    rewrite Ht in Hh. injection Hh as <-. by destruct Hne. }
  destruct e as [| | | | | |pending|utc|[|code]]; try discriminate.
  - left. exists pending. split; [reflexivity|]. intros ->.
    rewrite handle_ClickStart in Hh.
    apply show_clock_parts in Hh as (s1 & screen & s2 & H1 & [= <-] & H3).
    apply show_clock_window_frame in H1 as (_ & _ & _ & Hp1).
    apply show_clock_start_frame in H3 as (_ & _ & Hp3 & _). congruence.
  - cbn in Hh. bind_inv Hh as r Hr. injection Hh as <-. by destruct Hne.
  - right. injection Hh as <-. done.
  - injection Hh as <-. by destruct Hne.
Qed.

Lemma page_changes_only_by_start_and_escape_witness :
  (exists pending,
     MainApp.PressKey Key_Escape = MainApp.ClickStart pending /\
     (pending = [] ->
      MainApp.current_widget (MainApp.show_settings Example.started)
      = MainApp.clock_page)) \/
  (MainApp.PressKey Key_Escape = MainApp.PressKey Key_Escape /\
   MainApp.current_widget (MainApp.show_settings Example.started)
   = MainApp.settings_page).
Proof.
  apply (page_changes_only_by_start_and_escape Example.started
           (MainApp.show_settings Example.started) (MainApp.PressKey Key_Escape)).
  - vm_compute. reflexivity.
  - vm_compute. discriminate.
Defined.

(** X22.  No event the toolkit can deliver raises.  In a reachable state,
    every handler of a control with a value of its list or range, a key
    press, a timeout of the active timer at an instant not on the first or
    last representable day, and the start button, with pending events that
    can be delivered in their turn, returns, and the state it returns is
    reachable again. *)
Theorem no_deliverable_event_raises (s : MainApp.state) (e : MainApp.event) :
  MainApp.reachable s ->
  Form.deliverable e s ->
  exists s', MainApp.handle e s = Ok s' /\ MainApp.reachable s'.
Proof.
  intros Hreach [Hen Hrep].
  destruct (reachable_inv s Hreach) as [Hinv _].
  destruct (handle_returns e s Hinv Hen Hrep) as [s' Hs'].
  exists s'. split; [exact Hs'|].
  by apply (MainApp.reachable_step s e s').
Qed.

Lemma no_deliverable_event_raises_witness :
  exists s',
    MainApp.handle
      (MainApp.ClickStart [MainApp.Timeout Example.utc_23_59;
                           MainApp.PressKey Key_Escape]) Example.started = Ok s' /\
    MainApp.reachable s'.
Proof.
  apply (no_deliverable_event_raises Example.started _ reachable_started).
  split; [vm_compute; done|]. cbn. repeat split; valid_instant.
Defined.

(** X23.  The start button applies the form as it is when the button is
    clicked.  In every reachable state the handler of the start button
    returns, whatever events that can be delivered are pending at
    [processEvents]: the palette colours of the clock are the two colours
    of the form, the label font is the family of the form at height *
    percent / 100 pixels for the height of the resolution and the
    percentage of the size, the timer runs every 500 milliseconds, and the
    clock reads a dictionary that holds what the form held.  When nothing
    is pending the clock page is shown in the end, the settings screen is
    unchanged, and the text of the label and the colon flag are not
    touched. *)
Theorem start_applies_the_form (s : MainApp.state) (pending : list MainApp.event) :
  MainApp.reachable s ->
  Form.deliverable (MainApp.ClickStart pending) s ->
  exists s' bg fg size gmt font res w ht,
    MainApp.handle (MainApp.ClickStart pending) s = Ok s' /\
    deref (MainApp.objects s) (SettingsWidget.settings (MainApp.settings_widget s))
    = Form.settings_of bg fg size gmt font res /\
    MainApp.parse_resolution res = Ok (w, ht) /\
    window_color (MainApp.clock_widget s') = Some bg /\
    text_color (MainApp.clock_widget s') = Some fg /\
    label_font (MainApp.clock_widget s')
    = Some {| family := font; pixelSize := ht * Spec.percent (VStr size) / 100 |} /\
    timer_active (MainApp.clock_widget s') = true /\
    timer_interval (MainApp.clock_widget s') = 500 /\
    deref (MainApp.objects s') (settings (MainApp.clock_widget s'))
    = Form.settings_of bg fg size gmt font res /\
    (pending = [] ->
     MainApp.current_widget s' = MainApp.clock_page /\
     MainApp.settings_widget s' = MainApp.settings_widget s /\
     colon_visible (MainApp.clock_widget s') = colon_visible (MainApp.clock_widget s) /\
     label_text (MainApp.clock_widget s') = label_text (MainApp.clock_widget s)).
Proof.
  intros Hreach [Hen Hrep].
  destruct (reachable_inv s Hreach) as [Hinv _].
  destruct (handle_returns _ s Hinv Hen Hrep) as [s' Hs'].
  destruct (inv_delivered s Hinv) as (_ & Harg & Hne & Hd0 & Hok).
  destruct Hok as (bg & fg & size & gmt & font & res & Hd & _ & _ & _ & Hres).
  destruct (presets_parse res Hres) as (w & ht & Hparse & Hht).
  exists s', bg, fg, size, gmt, font, res, w, ht.
  split; [exact Hs'|]. split; [exact Hd|]. split; [exact Hparse|].
  rewrite handle_ClickStart in Hs'.
  set (arg := (alloc _ _).2) in *. set (s0 := MainApp.with_settings _ s) in *.
  rewrite Hd in Hd0.
  apply show_clock_parts in Hs' as (s1 & screen & s2 & H1 & H2 & H3).
  rewrite (show_clock_window_ok arg s0 res (w, ht) (VStr size)) in H1;
    rewrite ?Hd0; try done.
  injection H1 as <- <-.
  destruct (run_framed pending _ s2 H2) as (_ & _ & Hd2).
  rewrite select_window_objects, select_window_settings in Hd2.
  cbn [MainApp.objects MainApp.settings_widget MainApp.setCurrentWidget] in Hd2.
  specialize (Hd2 arg Harg Hne). rewrite Hd0 in Hd2.
  rewrite (show_clock_start_returns arg s2 w ht bg fg size gmt font res Hd2)
    in H3 by lia.
  injection H3 as <-.
  cbn [MainApp.with_clock MainApp.clock_widget MainApp.objects fst snd
       window_color text_color label_font timer_active timer_interval settings
       setFocus setFont timer_start set_text_color set_window_color set_settings].
  do 2 (split; [reflexivity|]). split.
  { unfold Spec.font_pixel_size.
    destruct (Z.leb_spec (ht * Spec.percent (VStr size) / 100) 0) as [Hle|]; [|done].
    exfalso. revert Hle. unfold Spec.percent.
    repeat case_match; intros; Z.div_mod_to_equations; lia. }
  do 2 (split; [reflexivity|]). split; [exact Hd2|].
  intros ->. injection H2 as <-.
  cbn [MainApp.with_clock MainApp.current_widget MainApp.settings_widget
       colon_visible label_text setFocus setFont timer_start set_text_color
       set_window_color set_settings].
  by rewrite select_window_page, select_window_settings, select_window_clock.
Qed.

Lemma start_applies_the_form_witness :
  exists s' bg fg size gmt font res w ht,
    MainApp.handle Example.escape_pending Example.medium_1366 = Ok s' /\
    deref (MainApp.objects Example.medium_1366)
      (SettingsWidget.settings (MainApp.settings_widget Example.medium_1366))
    = Form.settings_of bg fg size gmt font res /\
    MainApp.parse_resolution res = Ok (w, ht) /\
    window_color (MainApp.clock_widget s') = Some bg /\
    text_color (MainApp.clock_widget s') = Some fg /\
    label_font (MainApp.clock_widget s')
    = Some {| family := font; pixelSize := ht * Spec.percent (VStr size) / 100 |} /\
    timer_active (MainApp.clock_widget s') = true /\
    timer_interval (MainApp.clock_widget s') = 500 /\
    deref (MainApp.objects s') (settings (MainApp.clock_widget s'))
    = Form.settings_of bg fg size gmt font res /\
    ([MainApp.PressKey Key_Escape] = [] ->
     MainApp.current_widget s' = MainApp.clock_page /\
     MainApp.settings_widget s' = MainApp.settings_widget Example.medium_1366 /\
     colon_visible (MainApp.clock_widget s')
     = colon_visible (MainApp.clock_widget Example.medium_1366) /\
     label_text (MainApp.clock_widget s')
     = label_text (MainApp.clock_widget Example.medium_1366)).
Proof.
  apply (start_applies_the_form Example.medium_1366 [MainApp.PressKey Key_Escape]).
  - apply (MainApp.reachable_step
             (Example.after [MainApp.SetResolution "1366x768"])
             (MainApp.SetSize "Medium")).
    + apply (MainApp.reachable_step MainApp.init (MainApp.SetResolution "1366x768"));
        [apply MainApp.reachable_init|].
      split; [|vm_compute; reflexivity].
      cbn. unfold SettingsWidget.resolutions. repeat constructor.
    + split; [|vm_compute; reflexivity].
      cbn. unfold SettingsWidget.sizes. repeat constructor.
  - split; vm_compute; done.
Defined.

(** ** The clock screen: edges *)

(** X1.  A tick before the clock was ever started does nothing.  The
    dictionary a new clock screen holds is empty, and [update_time] on an
    empty dictionary returns at once: the store and the widget are what they
    were, so the label is not written and the colon is not toggled. *)
Theorem tick_before_start_changes_nothing (h0 : heap) utc_now :
  deref (init h0).1 (settings (init h0).2) = ∅ /\
  update_time utc_now (init h0).1 (init h0).2 = Ok (init h0) /\
  (forall (h : heap) (c : state),
     deref h (settings c) = ∅ -> update_time utc_now h c = Ok (h, c)).
Proof.
  assert (Hgen : forall (h : heap) (c : state),
            deref h (settings c) = ∅ -> update_time utc_now h c = Ok (h, c)).
  { intros h c Hd. unfold update_time. rewrite Hd.
    by rewrite bool_decide_eq_true_2. }
  assert (Hinit : deref (init h0).1 (settings (init h0).2) = ∅)
    by apply (deref_alloc ∅ h0).
  split; [exact Hinit|]. split; [|exact Hgen].
  rewrite (Hgen _ _ Hinit). by destruct (init h0).
Qed.

Lemma tick_before_start_changes_nothing_witness :
  update_time Example.utc_14_00 (MainApp.objects MainApp.init)
    (MainApp.clock_widget MainApp.init)
  = Ok (MainApp.objects MainApp.init, MainApp.clock_widget MainApp.init).
Proof.
  apply (proj2 (proj2 (tick_before_start_changes_nothing ∅ Example.utc_14_00))).
  vm_compute. reflexivity.
Defined.

(** X2.  [update_time] falls back on its defaults.  With a dictionary that
    is not empty but has neither 'gmt_offset' nor 'text_color', at an instant
    that is not on the first or last day [datetime] can represent, the tick
    succeeds, leaves the store alone and shows the hour and the minute of UTC
    itself, the visible colon in #ff0000, the name of QColor('red'). *)
Theorem tick_uses_defaults_for_missing_entries
    utc_now (h : heap) (c : state) :
  deref h (settings c) <> ∅ ->
  deref h (settings c) !! "gmt_offset" = None ->
  deref h (settings c) !! "text_color" = None ->
  Datetime.valid utc_now ->
  1 < Datetime.ordinal utc_now < Datetime.MAXORDINAL ->
  exists c',
    update_time utc_now h c = Ok (h, c') /\
    label_text c' =
      PyStr.two_digits (Datetime.hour utc_now)
      +:+ colon_html (colon_visible c) "#ff0000"
      +:+ PyStr.two_digits (Datetime.minute utc_now).
Proof.
  intros Hne Hoff Hcol Hvalid Hord.
  eexists. split.
  - apply (update_time_ok utc_now h c 0 Color.named_red);
      [exact Hne| | |lia|exact Hvalid|exact Hord].
    + unfold get. by rewrite Hoff.
    + unfold get. by rewrite Hcol.
  - cbn [label_text set_colon_visible setText].
    rewrite Z.add_0_r, Z.mod_small by (destruct Hvalid as (_ & ? & _); lia).
    reflexivity.
Qed.

Lemma tick_uses_defaults_for_missing_entries_witness :
  exists c',
    update_time Example.utc_14_00 {[ 1%positive := {[ "size" := VStr "Small" ]} ]}
      (set_settings 1%positive Example.clock)
    = Ok ({[ 1%positive := {[ "size" := VStr "Small" ]} ]}, c') /\
    label_text c' =
      PyStr.two_digits 14 +:+ colon_html true "#ff0000" +:+ PyStr.two_digits 0.
Proof.
  apply (tick_uses_defaults_for_missing_entries Example.utc_14_00
           {[ 1%positive := {[ "size" := VStr "Small" ]} ]}
           (set_settings 1%positive Example.clock)).
  - vm_compute. discriminate.
  - vm_compute. reflexivity.
  - vm_compute. reflexivity.
  - valid_instant.
  - valid_instant.
Defined.

(** X3.  [update_time] raises when an entry holds a value of the wrong
    kind, among the kinds of value the settings hold: [TypeError] when
    'gmt_offset' holds a string or a colour, which [timedelta(hours=...)]
    does not take, and [AttributeError] when 'text_color' holds a string or
    an integer, which have no method [name]; this with an offset that is an
    integer from -12 to 14 or absent, at an instant not on the first or
    last representable day. *)
Theorem tick_raises_on_ill_typed_entries utc_now (h : heap) (c : state) :
  (forall v,
     deref h (settings c) !! "gmt_offset" = Some v ->
     (exists t, v = VStr t) \/ (exists q, v = VColor q) ->
     update_time utc_now h c = Raise TypeError) /\
  (forall v,
     deref h (settings c) !! "text_color" = Some v ->
     (exists t, v = VStr t) \/ (exists n, v = VInt n) ->
     (exists n, get (deref h (settings c)) "gmt_offset" (VInt 0) = VInt n /\
                -12 <= n <= 14) ->
     Datetime.valid utc_now ->
     1 < Datetime.ordinal utc_now < Datetime.MAXORDINAL ->
     update_time utc_now h c = Raise AttributeError).
Proof.
  split.
  - intros v Hv Hkind. unfold update_time.
    case_bool_decide as Hsize.
    { apply map_size_empty_iff in Hsize. by rewrite Hsize in Hv. }
    rewrite (get_Some _ _ _ _ Hv).
    by destruct Hkind as [[t ->]|[q ->]].
  - intros v Hv Hkind (n & Hn & Hrange) Hvalid Hord. unfold update_time.
    case_bool_decide as Hsize.
    { apply map_size_empty_iff in Hsize. by rewrite Hsize in Hv. }
    rewrite Hn. cbn [bind as_int].
    destruct (add_hours utc_now n Hvalid Hord Hrange)
      as (delta & t' & Hdelta & Hadd & _).
    rewrite Hdelta. cbn [bind]. rewrite Hadd. cbn [bind].
    rewrite (get_Some _ _ _ _ Hv).
    by destruct Hkind as [[t ->]|[m ->]].
Qed.

Lemma tick_raises_on_ill_typed_entries_witness :
  update_time Example.utc_14_00 {[ 1%positive := {[ "gmt_offset" := VStr "3" ]} ]}
    (set_settings 1%positive Example.clock) = Raise TypeError /\
  update_time Example.utc_14_00 {[ 1%positive := {[ "text_color" := VStr "red" ]} ]}
    (set_settings 1%positive Example.clock) = Raise AttributeError.
Proof.
  split.
  - apply (proj1 (tick_raises_on_ill_typed_entries Example.utc_14_00
             {[ 1%positive := {[ "gmt_offset" := VStr "3" ]} ]}
             (set_settings 1%positive Example.clock)) (VStr "3")).
    + vm_compute. reflexivity.
    + left. by exists "3".
  - apply (proj2 (tick_raises_on_ill_typed_entries Example.utc_14_00
             {[ 1%positive := {[ "text_color" := VStr "red" ]} ]}
             (set_settings 1%positive Example.clock)) (VStr "red")).
    + vm_compute. reflexivity.
    + left. by exists "red".
    + exists 0. split; [vm_compute; reflexivity | lia].
    + valid_instant.
    + valid_instant.
Defined.

(** X5.  [start_clock] raises [KeyError] on a dictionary without a colour:
    KeyError('bg_color') when 'bg_color' is missing, and
    KeyError('text_color') when the background is a colour and 'text_color'
    is missing. *)
Theorem start_clock_missing_colour (l : loc) (h : heap) (c : state) :
  (deref h l !! "bg_color" = None ->
   start_clock l h c = Raise (KeyError "bg_color")) /\
  (forall bg, deref h l !! "bg_color" = Some (VColor bg) ->
   deref h l !! "text_color" = None ->
   start_clock l h c = Raise (KeyError "text_color")).
Proof.
  split.
  - intros Hbg. unfold start_clock, getitem. cbn [settings set_settings].
    by rewrite Hbg.
  - intros bg Hbg Hfg. unfold start_clock, getitem. cbn [settings set_settings].
    rewrite Hbg. cbn [bind as_color]. by rewrite Hfg.
Qed.

Lemma start_clock_missing_colour_witness :
  start_clock (settings (MainApp.clock_widget MainApp.init))
    (MainApp.objects MainApp.init) (MainApp.clock_widget MainApp.init)
  = Raise (KeyError "bg_color").
Proof.
  apply (proj1 (start_clock_missing_colour
                  (settings (MainApp.clock_widget MainApp.init))
                  (MainApp.objects MainApp.init)
                  (MainApp.clock_widget MainApp.init))).
  vm_compute. reflexivity.
Defined.

(** X4.  What a tick never touches: when [update_time] returns, the clock
    reads the same dictionary as before, and its timer (active or not, and
    the interval), its two palette colours, the font of the label and the
    focus are what they were.  Only the text of the label and the colon flag
    can differ. *)
Theorem tick_changes_label_and_colon_only
    utc_now (h h' : heap) (c c' : state) :
  update_time utc_now h c = Ok (h', c') ->
  settings c' = settings c /\
  timer_active c' = timer_active c /\ timer_interval c' = timer_interval c /\
  window_color c' = window_color c /\ text_color c' = text_color c /\
  label_font c' = label_font c /\ focus c' = focus c.
Proof.
  unfold update_time. case_bool_decide as Hsize; [by intros [= <- <-]|].
  intros H. bind_inv H as off Hoff. bind_inv H as delta Hdelta.
  bind_inv H as t Ht. bind_inv H as q Hq. by injection H as <- <-.
Qed.

Lemma tick_changes_label_and_colon_only_witness :
  exists c',
    update_time Example.utc_14_00 Example.store Example.clock
      = Ok (Example.store, c') /\
    timer_active c' = timer_active Example.clock.
Proof.
  eexists. split; [vm_compute; reflexivity|].
  refine (proj1 (proj2
            (tick_changes_label_and_colon_only Example.utc_14_00 Example.store
               Example.store Example.clock _ _))).
  vm_compute. reflexivity.
Defined.

(** ** The font size: edges and bounds *)

(** X6.  A height too small for one pixel leaves the pixel size unset: for
    a height from 0 to 65535 with height * percent < 100, [int(height *
    percentage)] is 0, [QFont.setPixelSize] refuses it, and the label gets
    the font of the selected family with the pixel size -1 of a font whose
    size was never set in pixels. *)
Theorem tiny_height_leaves_pixel_size_unset
    (th tw : Z) (m : pyval) (h : heap) (c : state) (fam : string) :
  0 <= th <= 65535 ->
  th * Spec.percent m < 100 ->
  get (deref h (settings c)) "font_family" (VStr "Monospace") = VStr fam ->
  exists c',
    update_font_size th tw m h c = Ok (h, c') /\
    label_font c' = Some {| family := fam; pixelSize := -1 |}.
Proof.
  intros Hth Htiny Hfam. eexists. split; [by apply update_font_size_ok|].
  cbn [label_font setFont]. unfold Spec.font_pixel_size.
  rewrite Z.div_small by (split; [|lia]; unfold Spec.percent;
    repeat case_match; lia).
  reflexivity.
Qed.

Lemma tiny_height_leaves_pixel_size_unset_witness :
  exists c',
    update_font_size 3 4 (VStr "Small") Example.store Example.clock
      = Ok (Example.store, c') /\
    label_font c' = Some {| family := "Monospace"; pixelSize := -1 |}.
Proof.
  apply (tiny_height_leaves_pixel_size_unset 3 4 (VStr "Small") Example.store
           Example.clock "Monospace").
  - lia.
  - vm_compute. reflexivity.
  - vm_compute. reflexivity.
Defined.

(** X7.  For every height from 1 to 65535 the three sizes are ordered and
    stay below the height: 0 <= Small <= Medium <= Full Screen < height, and
    whatever the size mode is, the pixel size [update_font_size] computes is
    one of these three. *)
Theorem pixel_size_below_height (th : Z) (m : pyval) :
  0 < th <= 65535 ->
  exists small medium full px,
    pixel_size th (VStr "Small") = Ok small /\
    pixel_size th (VStr "Medium") = Ok medium /\
    pixel_size th (VStr "Full Screen") = Ok full /\
    pixel_size th m = Ok px /\
    0 <= small <= medium /\ medium <= full /\ full < th /\
    (px = small \/ px = medium \/ px = full).
Proof.
  intros Hth.
  eexists _, _, _, _.
  split; [apply pixel_size_floor; lia|].
  split; [apply pixel_size_floor; lia|].
  split; [apply pixel_size_floor; lia|].
  split; [apply pixel_size_floor; lia|].
  unfold Spec.font_pixel_size.
  change (Spec.percent (VStr "Small")) with 30.
  change (Spec.percent (VStr "Medium")) with 50.
  change (Spec.percent (VStr "Full Screen")) with 55.
  split; [Z.div_mod_to_equations; lia|].
  split; [Z.div_mod_to_equations; lia|].
  split; [Z.div_mod_to_equations; lia|].
  unfold Spec.percent. repeat case_match; auto.
Qed.

Lemma pixel_size_below_height_witness :
  exists small medium full px,
    pixel_size 1080 (VStr "Small") = Ok small /\
    pixel_size 1080 (VStr "Medium") = Ok medium /\
    pixel_size 1080 (VStr "Full Screen") = Ok full /\
    pixel_size 1080 (VStr "Other") = Ok px /\
    0 <= small <= medium /\ medium <= full /\ full < 1080 /\
    (px = small \/ px = medium \/ px = full).
Proof. apply (pixel_size_below_height 1080 (VStr "Other")). lia. Defined.

(** ** Showing the clock: defaults and faults *)

(** show_clock on entries read with their defaults *)
Lemma show_clock_ok_get (pe : MainApp.state -> result MainApp.state) (l : loc)
    (s : MainApp.state) (bg fg : QColor) (r fam : string) (w ht : Z) (m : pyval) :
  let d := deref (MainApp.objects s) l in
  get d "resolution" (VStr "1920x1080") = VStr r ->
  MainApp.parse_resolution r = Ok (w, ht) ->
  0 <= ht <= 65535 ->
  d !! "size" = Some m ->
  d !! "bg_color" = Some (VColor bg) ->
  d !! "text_color" = Some (VColor fg) ->
  get d "font_family" (VStr "Monospace") = VStr fam ->
  Spec.undisturbed pe l s ->
  exists s2,
    pe (MainApp.select_window m (MainApp.setCurrentWidget MainApp.clock_page s))
      = Ok s2 /\
    MainApp.show_clock pe l s =
      Ok (MainApp.with_clock
            (MainApp.objects s2,
             setFocus (setFont
               (let px := Spec.font_pixel_size ht m in
                if px <=? 0 then QFont_of_family fam
                else {| family := fam; pixelSize := px |})
               (setFocus (timer_start 500
                  (set_text_color fg (set_window_color bg
                     (set_settings l (MainApp.clock_widget s2))))))))
            s2).
Proof.
  intros d Hr Hparse Hht Hm Hbg Hfg Hfam Hpe. subst d.
  pose proof (show_clock_window_ok l s r (w, ht) m Hr Hparse Hm) as H1.
  destruct (Hpe _ _ H1) as (s2 & H2 & Hd2).
  rewrite select_window_objects in Hd2.
  cbn [MainApp.objects MainApp.setCurrentWidget] in Hd2.
  exists s2. split; [exact H2|].
  unfold MainApp.show_clock. rewrite H1. cbn [bind]. rewrite H2. cbn [bind].
  apply show_clock_start_ok; rewrite ?Hd2; done.
Qed.

(** X10.  A size text that is none of 'Small', 'Medium' and 'Full Screen'
    does not make [show_clock] fail.  The window is shown normal, [resize] is
    not called, so the geometry is what it was, and the font size is the 55
    percent of the full screen, the [else] branch of [update_font_size].
    This needs the resolution to parse with a height from 2 to 65535 and
    both colours present.  The window is stated for a [processEvents] that
    finds nothing pending; the font size holds whatever it dispatches, as
    long as it returns and leaves the dictionary alone. *)
Theorem unknown_size_mode_gives_plain_window
    (l : loc) (s : MainApp.state) (bg fg : QColor) (r fam t : string) (w ht : Z) :
  let d := deref (MainApp.objects s) l in
  get d "resolution" (VStr "1920x1080") = VStr r ->
  MainApp.parse_resolution r = Ok (w, ht) ->
  2 <= ht <= 65535 ->
  d !! "size" = Some (VStr t) ->
  t ∉ SettingsWidget.sizes ->
  d !! "bg_color" = Some (VColor bg) ->
  d !! "text_color" = Some (VColor fg) ->
  get d "font_family" (VStr "Monospace") = VStr fam ->
  (exists s',
     MainApp.show_clock Ok l s = Ok s' /\
     MainApp.mode s' = MainApp.Normal /\
     MainApp.geometry s' = MainApp.geometry s /\
     label_font (MainApp.clock_widget s')
     = Some {| family := fam; pixelSize := ht * 55 / 100 |}) /\
  (forall pe, Spec.undisturbed pe l s ->
     exists s',
       MainApp.show_clock pe l s = Ok s' /\
       label_font (MainApp.clock_widget s')
       = Some {| family := fam; pixelSize := ht * 55 / 100 |}).
Proof.
  intros d Hr Hparse Hht Hm Hnot Hbg Hfg Hfam.
  assert (Hs : String.eqb t "Small" = false /\ String.eqb t "Medium" = false /\
               String.eqb t "Full Screen" = false).
  { unfold SettingsWidget.sizes in Hnot.
    repeat split; apply String.eqb_neq; intros ->; apply Hnot;
      repeat constructor. }
  destruct Hs as (Hsmall & Hmedium & Hfull).
  assert (Hpx : (Spec.font_pixel_size ht (VStr t) <=? 0) = false /\
                Spec.font_pixel_size ht (VStr t) = ht * 55 / 100).
  { unfold Spec.font_pixel_size, Spec.percent. cbn [eq_str].
    rewrite Hsmall, Hmedium. split; [|reflexivity].
    apply Z.leb_gt. Z.div_mod_to_equations. lia. }
  destruct Hpx as [Hpos Hpx].
  assert (Hget : forall pe, Spec.undisturbed pe l s ->
            exists s2 s',
              pe (MainApp.select_window (VStr t)
                    (MainApp.setCurrentWidget MainApp.clock_page s)) = Ok s2 /\
              MainApp.show_clock pe l s = Ok s' /\
              MainApp.mode s' = MainApp.mode s2 /\
              MainApp.geometry s' = MainApp.geometry s2 /\
              label_font (MainApp.clock_widget s')
              = Some {| family := fam; pixelSize := ht * 55 / 100 |}).
  { intros pe Hpe.
    destruct (show_clock_ok_get pe l s bg fg r fam w ht (VStr t))
      as (s2 & H2 & Hshow);
      [exact Hr|exact Hparse|lia|exact Hm|exact Hbg|exact Hfg|exact Hfam|exact Hpe|].
    eexists s2, _. split; [exact H2|]. split; [exact Hshow|].
    cbn zeta. rewrite Hpos, Hpx. done. }
  split.
  - destruct (Hget Ok (undisturbed_Ok l s)) as (s2 & s' & [= <-] & Hshow & Hmd & Hg & Hf).
    exists s'. split; [exact Hshow|]. rewrite Hmd, Hg.
    unfold MainApp.select_window. cbn [eq_str]. rewrite Hsmall, Hmedium, Hfull.
    done.
  - intros pe Hpe. destruct (Hget pe Hpe) as (s2 & s' & _ & Hshow & _ & _ & Hf).
    by exists s'.
Qed.

Lemma unknown_size_mode_gives_plain_window_witness :
  exists s',
    MainApp.show_clock Ok Example.form (Example.after [MainApp.SetSize "small"])
      = Ok s' /\
    MainApp.mode s' = MainApp.Normal /\
    MainApp.geometry s' = MainApp.geometry (Example.after [MainApp.SetSize "small"]) /\
    label_font (MainApp.clock_widget s')
    = Some {| family := "Monospace"; pixelSize := 1080 * 55 / 100 |}.
Proof.
  apply (unknown_size_mode_gives_plain_window Example.form
           (Example.after [MainApp.SetSize "small"]) Color.black Color.named_red
           "1920x1080" "Monospace" "small" 1920 1080).
  - vm_compute. reflexivity.
  - vm_compute. reflexivity.
  - lia.
  - vm_compute. reflexivity.
  - unfold SettingsWidget.sizes. intros H.
    repeat (apply elem_of_cons in H as [H|H]; [discriminate|]).
    by apply elem_of_nil in H.
  - vm_compute. reflexivity.
  - vm_compute. reflexivity.
  - vm_compute. reflexivity.
Defined.

(** X8.  [show_clock] reads 'size' with [settings['size']] and no default:
    on a dictionary without 'size' whose resolution parses it raises
    KeyError('size'), before it reaches [processEvents]. *)
Theorem show_clock_without_size_raises_KeyError
    (pe : MainApp.state -> result MainApp.state)
    (l : loc) (s : MainApp.state) (r : string) (w ht : Z) :
  get (deref (MainApp.objects s) l) "resolution" (VStr "1920x1080") = VStr r ->
  MainApp.parse_resolution r = Ok (w, ht) ->
  deref (MainApp.objects s) l !! "size" = None ->
  MainApp.show_clock pe l s = Raise (KeyError "size").
Proof.
  intros Hr Hparse Hm. unfold MainApp.show_clock, MainApp.show_clock_window.
  cbn [MainApp.objects MainApp.setCurrentWidget].
  rewrite Hr. cbn [bind str_receiver]. rewrite Hparse. cbn [bind].
  unfold getitem. by rewrite Hm.
Qed.

Lemma show_clock_without_size_raises_KeyError_witness :
  MainApp.show_clock Ok (settings (MainApp.clock_widget MainApp.init)) MainApp.init
  = Raise (KeyError "size").
Proof.
  apply (show_clock_without_size_raises_KeyError Ok
           (settings (MainApp.clock_widget MainApp.init)) MainApp.init
           "1920x1080" 1920 1080).
  - vm_compute. reflexivity.
  - vm_compute. reflexivity.
  - vm_compute. reflexivity.
Defined.

(** X9.  [show_clock] falls back on its defaults: on a dictionary without
    'resolution' and without 'font_family', but with a size and both
    colours, it succeeds, and the label gets the family 'Monospace' at the
    pixel size of the height 1080 of the default '1920x1080'; this whatever
    [processEvents] dispatches, as long as it returns and leaves the
    dictionary alone, as it does when nothing is pending. *)
Theorem show_clock_defaults_for_missing_entries
    (pe : MainApp.state -> result MainApp.state)
    (l : loc) (s : MainApp.state) (bg fg : QColor) (m : pyval) :
  let d := deref (MainApp.objects s) l in
  d !! "resolution" = None ->
  d !! "font_family" = None ->
  d !! "size" = Some m ->
  d !! "bg_color" = Some (VColor bg) ->
  d !! "text_color" = Some (VColor fg) ->
  Spec.undisturbed pe l s ->
  exists s',
    MainApp.show_clock pe l s = Ok s' /\
    label_font (MainApp.clock_widget s')
    = Some {| family := "Monospace"; pixelSize := 1080 * Spec.percent m / 100 |}.
Proof.
  intros d Hr Hfam Hm Hbg Hfg Hpe.
  destruct (show_clock_ok_get pe l s bg fg "1920x1080" "Monospace" 1920 1080 m)
    as (s2 & _ & Hshow); [ | |lia|exact Hm|exact Hbg|exact Hfg| |exact Hpe|].
  - unfold get. fold d. by rewrite Hr.
  - vm_compute. reflexivity.
  - unfold get. fold d. by rewrite Hfam.
  - eexists. split; [exact Hshow|].
    cbn. unfold Spec.font_pixel_size.
    destruct (Z.leb_spec (1080 * Spec.percent m / 100) 0) as [Hle|]; [|reflexivity].
    exfalso. revert Hle. unfold Spec.percent.
    repeat case_match; intros; Z.div_mod_to_equations; lia.
Qed.

Lemma show_clock_defaults_for_missing_entries_witness :
  exists s',
    MainApp.show_clock Ok 1%positive
      (MainApp.with_settings
         ({[ 1%positive := <["size" := VStr "Small"]>
                           (<["bg_color" := VColor Color.black]>
                           (<["text_color" := VColor Color.named_red]> ∅)) ]},
          MainApp.settings_widget MainApp.init) MainApp.init) = Ok s' /\
    label_font (MainApp.clock_widget s')
    = Some {| family := "Monospace";
              pixelSize := 1080 * Spec.percent (VStr "Small") / 100 |}.
Proof.
  apply (show_clock_defaults_for_missing_entries Ok 1%positive _ Color.black
           Color.named_red (VStr "Small"));
    try (vm_compute; reflexivity).
  intros s1 screen _. by exists s1.
Defined.

(** X24.  Start, then Escape: from a state whose form dictionary exists,
    if the start button succeeds, with nothing pending inside it, then
    Escape succeeds after it and leads back to the settings page in a normal
    window of 400 by 500; the settings screen and the entries of its
    dictionary are what they were before the start, and the clock screen is
    the started one with its timer stopped.  The page, the window and the
    stopped timer hold whatever was pending inside the start. *)
Theorem start_then_escape_restores_the_form
    (pending : list MainApp.event) (s s1 : MainApp.state) :
  SettingsWidget.settings (MainApp.settings_widget s) ∈ dom (MainApp.objects s) ->
  MainApp.handle (MainApp.ClickStart pending) s = Ok s1 ->
  exists s2,
    MainApp.handle (MainApp.PressKey Key_Escape) s1 = Ok s2 /\
    MainApp.current_widget s2 = MainApp.settings_page /\
    MainApp.mode s2 = MainApp.Normal /\ MainApp.geometry s2 = (400, 500) /\
    MainApp.clock_widget s2 = timer_stop (MainApp.clock_widget s1) /\
    (pending = [] ->
     MainApp.settings_widget s2 = MainApp.settings_widget s /\
     deref (MainApp.objects s2) (SettingsWidget.settings (MainApp.settings_widget s2))
     = deref (MainApp.objects s) (SettingsWidget.settings (MainApp.settings_widget s))).
Proof.
  intros Hdom Hstart.
  exists (MainApp.show_settings s1). split; [reflexivity|].
  destruct (show_settings_frame s1) as (Hobj2 & Hw2 & Hp & Hc & Hm & Hg).
  split; [exact Hp|]. split; [exact Hm|]. split; [exact Hg|]. split; [exact Hc|].
  intros ->. rewrite handle_ClickStart in Hstart.
  apply show_clock_parts in Hstart as (s0 & screen & s0' & H1 & [= <-] & H3).
  apply show_clock_window_frame in H1 as (Hobj1 & Hw1 & _).
  apply show_clock_start_frame in H3 as (Hobj3 & Hw3 & _).
  rewrite Hobj2, Hw2, Hobj3, Hw3, Hobj1, Hw1.
  cbn [MainApp.with_settings MainApp.objects MainApp.settings_widget fst snd].
  split; [reflexivity|]. by apply deref_alloc_old.
Qed.

Lemma start_then_escape_restores_the_form_witness :
  exists s2,
    MainApp.handle (MainApp.PressKey Key_Escape) Example.started = Ok s2 /\
    MainApp.current_widget s2 = MainApp.settings_page /\
    MainApp.mode s2 = MainApp.Normal /\ MainApp.geometry s2 = (400, 500) /\
    MainApp.clock_widget s2 = timer_stop (MainApp.clock_widget Example.started) /\
    MainApp.settings_widget s2 = MainApp.settings_widget MainApp.init /\
    deref (MainApp.objects s2) (SettingsWidget.settings (MainApp.settings_widget s2))
    = deref (MainApp.objects MainApp.init)
        (SettingsWidget.settings (MainApp.settings_widget MainApp.init)).
Proof.
  destruct (start_then_escape_restores_the_form [] MainApp.init Example.started)
    as (s2 & H1 & H2 & H3 & H4 & H5 & H6).
  - vm_compute. done.
  - vm_compute. reflexivity.
  - exists s2. destruct (H6 eq_refl) as [H7 H8]. done.
Defined.

(** ** The text of the resolution *)

Lemma digit_cases (n : Z) :
  n mod 10 = 0 \/ n mod 10 = 1 \/ n mod 10 = 2 \/ n mod 10 = 3 \/ n mod 10 = 4 \/
  n mod 10 = 5 \/ n mod 10 = 6 \/ n mod 10 = 7 \/ n mod 10 = 8 \/ n mod 10 = 9.
Proof. pose proof (Z.mod_pos_bound n 10). lia. Qed.

Lemma points_digit_char (n : Z) (rest : string) :
  PyStr.points (String (PyStr.digit_char n) rest)
  = (48 + n mod 10) :: PyStr.points rest.
Proof.
  assert (H : PyStr.decode_byte PyStr.Idle (PyStr.digit_char n)
              = ([48 + n mod 10], PyStr.Idle)).
  { unfold PyStr.digit_char.
    destruct (digit_cases n) as [H|[H|[H|[H|[H|[H|[H|[H|[H|H]]]]]]]]];
      rewrite H; vm_compute; reflexivity. }
  unfold PyStr.points. cbn [PyStr.decode]. by rewrite H.
Qed.

Lemma decimal_digit (c : Z) :
  48 <= c <= 57 ->
  PyStr.digit_val c = Some (c - 48) /\ PyStr.is_space c = false /\
  c <> PyStr.minus /\ c <> PyStr.plus.
Proof.
  intros Hc.
  assert (H : c = 48 \/ c = 49 \/ c = 50 \/ c = 51 \/ c = 52 \/ c = 53 \/
              c = 54 \/ c = 55 \/ c = 56 \/ c = 57) by lia.
  destruct H as [H|[H|[H|[H|[H|[H|[H|[H|[H|H]]]]]]]]]; subst c;
    repeat split; try reflexivity; unfold PyStr.minus, PyStr.plus; lia.
Qed.

(** The digits [Text.decimal] writes: they stand for [n], and there are
    as many as [n] has decimal digits. *)
Lemma decimal_aux_points (fuel : nat) :
  forall n rest,
    0 <= n < 2 ^ Z.of_nat (S fuel) ->
    exists ds,
      PyStr.points (Text.decimal_aux (S fuel) n rest) = ds ++ PyStr.points rest /\
      ds <> [] /\ Forall (fun c => 48 <= c <= 57) ds /\
      (forall acc,
         fold_left (fun n c => 10 * n + default 0 (PyStr.digit_val c)) ds acc
         = acc * 10 ^ Z.of_nat (length ds) + n) /\
      n < 10 ^ Z.of_nat (length ds) /\
      (n < 10 -> length ds = 1%nat) /\
      (0 < n -> 10 ^ (Z.of_nat (length ds) - 1) <= n).
Proof.
  assert (Hone : forall n rest, 0 <= n < 10 ->
    exists ds,
      PyStr.points (String (PyStr.digit_char n) rest) = ds ++ PyStr.points rest /\
      ds <> [] /\ Forall (fun c => 48 <= c <= 57) ds /\
      (forall acc,
         fold_left (fun n c => 10 * n + default 0 (PyStr.digit_val c)) ds acc
         = acc * 10 ^ Z.of_nat (length ds) + n) /\
      n < 10 ^ Z.of_nat (length ds) /\
      (n < 10 -> length ds = 1%nat) /\
      (0 < n -> 10 ^ (Z.of_nat (length ds) - 1) <= n)).
  { intros n rest Hn. exists [48 + n].
    rewrite points_digit_char, Z.mod_small by lia.
    split; [reflexivity|]. split; [done|]. split; [repeat constructor; lia|].
    split.
    { intros acc. cbn [fold_left length].
      destruct (decimal_digit (48 + n)) as (-> & _); [lia|].
      cbn [from_option id]. change (10 ^ Z.of_nat 1) with 10. lia. }
    cbn [length]. change (10 ^ Z.of_nat 1) with 10.
    change (10 ^ (Z.of_nat 1 - 1)) with 1. split; [lia|]. split; [done|lia]. }
  induction fuel as [|fuel IH]; intros n rest Hn.
  - change (2 ^ Z.of_nat 1) with 2 in Hn.
    cbn [Text.decimal_aux]. destruct (n <? 10); apply Hone; lia.
  - cbn [Text.decimal_aux].
    destruct (Z.ltb_spec n 10) as [Hsmall|Hbig]; [apply Hone; lia|].
    change (if n `div` 10 <? 10 then _ else _)
      with (Text.decimal_aux (S fuel) (n / 10) (String (PyStr.digit_char n) rest)).
    assert (Hpow : 2 ^ Z.of_nat (S (S fuel)) = 2 * 2 ^ Z.of_nat (S fuel)).
    { rewrite (Nat2Z.inj_succ (S fuel)), Z.pow_succ_r by lia. reflexivity. }
    destruct (IH (n / 10) (String (PyStr.digit_char n) rest))
      as (ds & Hpoints & Hne & Hds & Hval & Hlt & _ & Hge).
    { rewrite Hpow in Hn. Z.div_mod_to_equations. lia. }
    exists (ds ++ [48 + n mod 10]).
    pose proof (Z.mod_pos_bound n 10 ltac:(lia)) as Hmod.
    assert (Hlen : 10 ^ Z.of_nat (length (ds ++ [48 + n mod 10]))
                   = 10 * 10 ^ Z.of_nat (length ds)).
    { rewrite length_app. cbn [length]. rewrite Nat.add_1_r, Nat2Z.inj_succ.
      by rewrite Z.pow_succ_r by lia. }
    split; [by rewrite Hpoints, points_digit_char, <- app_assoc|].
    split; [by destruct ds|].
    split; [apply Forall_app; split; [done|repeat constructor; lia]|].
    split.
    { intros acc. rewrite fold_left_app, Hval, Hlen. cbn [fold_left].
      destruct (decimal_digit (48 + n mod 10)) as (-> & _); [lia|].
      cbn [from_option id]. Z.div_mod_to_equations. lia. }
    split; [rewrite Hlen; Z.div_mod_to_equations; lia|].
    split; [lia|]. intros _.
    replace (Z.of_nat (length (ds ++ [48 + n mod 10])) - 1)
      with (Z.succ (Z.of_nat (length ds) - 1))
      by (rewrite length_app; cbn [length]; lia).
    rewrite Z.pow_succ_r by (destruct ds; [done|cbn [length]; lia]).
    assert (10 ^ (Z.of_nat (length ds) - 1) <= n / 10)
      by (apply Hge; Z.div_mod_to_equations; lia).
    Z.div_mod_to_equations. lia.
Qed.

Lemma decimal_points (n : Z) :
  0 <= n ->
  exists ds,
    PyStr.points (Text.decimal n) = ds /\
    ds <> [] /\ Forall (fun c => 48 <= c <= 57) ds /\
    fold_left (fun n c => 10 * n + default 0 (PyStr.digit_val c)) ds 0 = n /\
    (Z.of_nat (length ds) <= PyStr.max_str_digits
     <-> n < 10 ^ PyStr.max_str_digits).
Proof.
  intros Hn. unfold Text.decimal.
  destruct (decimal_aux_points (Z.to_nat (Z.log2 n)) n EmptyString)
    as (ds & Hpoints & Hne & Hds & Hval & Hlt & Hone & Hge).
  { split; [done|].
    destruct (Z.eq_dec n 0) as [->|Hnz]; [reflexivity|].
    rewrite Nat2Z.inj_succ, Z2Nat.id by apply Z.log2_nonneg.
    apply Z.log2_spec. lia. }
  exists ds. change (PyStr.points "") with (@nil Z) in Hpoints.
  rewrite app_nil_r in Hpoints.
  split; [exact Hpoints|]. split; [exact Hne|]. split; [exact Hds|].
  split; [rewrite Hval; lia|].
  split.
  - intros Hle. eapply Z.lt_le_trans; [exact Hlt|].
    apply Z.pow_le_mono_r; lia.
  - intros Hmax.
    destruct (Z.le_gt_cases (Z.of_nat (length ds)) PyStr.max_str_digits)
      as [|Hgt]; [done|exfalso].
    assert (Hpos : 0 < n).
    { destruct (Z.eq_dec n 0) as [->|]; [|lia].
      rewrite Hone in Hgt by lia. unfold PyStr.max_str_digits in Hgt. lia. }
    assert (10 ^ PyStr.max_str_digits <= 10 ^ (Z.of_nat (length ds) - 1))
      by (apply Z.pow_le_mono_r; unfold PyStr.max_str_digits in *; lia).
    specialize (Hge Hpos). lia.
Qed.

(** [int] of a text of ASCII digits, and of a minus sign before them *)
Lemma int_digits (s : string) (ds : list Z) :
  ds <> [] -> Forall (fun c => 48 <= c <= 57) ds ->
  (PyStr.points s = ds ->
   PyStr.int s =
     if Z.of_nat (length ds) <=? PyStr.max_str_digits
     then Ok (fold_left (fun n c => 10 * n + default 0 (PyStr.digit_val c)) ds 0)
     else Raise ValueError) /\
  (PyStr.points s = PyStr.minus :: ds ->
   PyStr.int s =
     if Z.of_nat (length ds) <=? PyStr.max_str_digits
     then Ok (- fold_left (fun n c => 10 * n + default 0 (PyStr.digit_val c)) ds 0)
     else Raise ValueError).
Proof.
  intros Hne Hds.
  assert (Hns : Forall (fun c => PyStr.is_space c = false) ds).
  { eapply Forall_impl; [exact Hds|]. intros c Hc. by apply decimal_digit. }
  assert (Hdigit : Forall (fun c => is_Some (PyStr.digit_val c)) ds).
  { eapply Forall_impl; [exact Hds|]. intros c Hc.
    destruct (decimal_digit c Hc) as (-> & _). done. }
  assert (Hrun : PyStr.digits 0 0 false ds
                 = Some (fold_left
                           (fun n c => 10 * n + default 0 (PyStr.digit_val c)) ds 0,
                         Z.of_nat (length ds))).
  { rewrite <- (app_nil_r ds) at 1. rewrite (digits_run ds Hdigit).
    destruct ds; [done|]. reflexivity. }
  split; intros Hpoints; unfold PyStr.int; rewrite Hpoints.
  - rewrite lstrip_no_space, rstrip_no_space by done.
    destruct ds as [|c ds']; [done|].
    inversion Hds as [|? ? Hc _]; subst.
    destruct (decimal_digit c Hc) as (_ & _ & Hm & Hp).
    destruct (Z.eqb_spec c PyStr.minus); [done|].
    destruct (Z.eqb_spec c PyStr.plus); [done|].
    rewrite Hrun. by destruct (_ <=? _).
  - rewrite lstrip_head by reflexivity.
    rewrite rstrip_no_space by (by constructor).
    change (PyStr.minus =? PyStr.minus) with true. cbn iota.
    rewrite Hrun. by destruct (_ <=? _).
Qed.

Lemma points_minus (s : string) :
  PyStr.points (String "-" s) = PyStr.minus :: PyStr.points s.
Proof. reflexivity. Qed.

Lemma int_decimal (n : Z) :
  0 <= n ->
  PyStr.int (Text.decimal n)
  = (if n <? 10 ^ PyStr.max_str_digits then Ok n else Raise ValueError) /\
  PyStr.int (String "-" (Text.decimal n))
  = (if n <? 10 ^ PyStr.max_str_digits then Ok (- n) else Raise ValueError).
Proof.
  intros Hn. destruct (decimal_points n Hn) as (ds & Hpoints & Hne & Hds & Hval & Hlen).
  rewrite (proj1 (int_digits (Text.decimal n) ds Hne Hds) Hpoints).
  rewrite (proj2 (int_digits (String "-" (Text.decimal n)) ds Hne Hds))
    by (by rewrite points_minus, Hpoints).
  rewrite Hval.
  destruct (Z.leb_spec (Z.of_nat (length ds)) PyStr.max_str_digits) as [Hle|Hgt];
    destruct (Z.ltb_spec n (10 ^ PyStr.max_str_digits)) as [Hlt|Hge];
    try done; exfalso; lia.
Qed.

Lemma parse_resolution_left (ws hs : string) :
  Spec.free "x" ws -> Spec.free "x" hs ->
  PyStr.int ws = Raise ValueError \/ PyStr.int hs = Raise ValueError ->
  MainApp.parse_resolution (ws +:+ "x" +:+ hs) = Raise ValueError.
Proof.
  intros Hws Hhs Hraise.
  destruct (MainApp.parse_resolution (ws +:+ "x" +:+ hs)) as [[w ht]|e] eqn:Hparse.
  - exfalso. unfold MainApp.parse_resolution in Hparse.
    change ("x" +:+ hs) with (String "x" hs) in Hparse.
    rewrite (split_app "x" ws hs Hws) in Hparse.
    rewrite (split_free "x" hs Hhs) in Hparse.
    destruct Hraise as [Hr|Hr].
    + by rewrite Hr in Hparse.
    + destruct (PyStr.int ws); [|done]. cbn [bind] in Hparse. by rewrite Hr in Hparse.
  - by rewrite (parse_resolution_raises _ e Hparse).
Qed.

Lemma decimal_free (n : Z) : 0 <= n -> Spec.free "x" (Text.decimal n).
Proof.
  intros Hn. destruct (decimal_points n Hn) as (ds & Hpoints & _ & Hds & _).
  apply (decode_free _ PyStr.Idle). fold (PyStr.points (Text.decimal n)).
  rewrite Hpoints. rewrite List.Forall_forall in Hds.
  intros Hin. apply Hds in Hin. lia.
Qed.

(** X11.  Writing two numbers in decimal around the letter x and parsing
    the text gives the numbers back, as long as neither has more than 4300
    digits: for 0 <= w, h < 10^4300, [int] of the decimal digits of w is w,
    [int] of a minus sign and the digits is -w, and the resolution parse of
    WxH is (w, h), of Wx-H is (w, -h).  So the parse accepts far more than
    the eleven resolutions of the list, and negative numbers too.  From
    10^4300 on, [int] raises [ValueError], with or without the sign, and so
    does the parse when either number is that large. *)
Theorem decimal_resolution_round_trip (w ht : Z) :
  0 <= w -> 0 <= ht ->
  (w < 10 ^ PyStr.max_str_digits ->
   PyStr.int (Text.decimal w) = Ok w /\
   PyStr.int (String "-" (Text.decimal w)) = Ok (- w)) /\
  (10 ^ PyStr.max_str_digits <= w ->
   PyStr.int (Text.decimal w) = Raise ValueError /\
   PyStr.int (String "-" (Text.decimal w)) = Raise ValueError) /\
  (w < 10 ^ PyStr.max_str_digits -> ht < 10 ^ PyStr.max_str_digits ->
   MainApp.parse_resolution (Text.decimal w +:+ "x" +:+ Text.decimal ht)
   = Ok (w, ht) /\
   MainApp.parse_resolution (Text.decimal w +:+ "x" +:+ String "-" (Text.decimal ht))
   = Ok (w, - ht)) /\
  (10 ^ PyStr.max_str_digits <= w \/ 10 ^ PyStr.max_str_digits <= ht ->
   MainApp.parse_resolution (Text.decimal w +:+ "x" +:+ Text.decimal ht)
   = Raise ValueError).
Proof.
  intros Hw Hh.
  destruct (int_decimal w Hw) as [Hw1 Hw2]. destruct (int_decimal ht Hh) as [Hh1 Hh2].
  split; [|split; [|split]].
  - intros Hlt. apply Z.ltb_lt in Hlt. by rewrite Hlt in Hw1, Hw2.
  - intros Hge. apply Z.ltb_ge in Hge. by rewrite Hge in Hw1, Hw2.
  - intros Hlt1 Hlt2. apply Z.ltb_lt in Hlt1, Hlt2.
    rewrite Hlt1 in Hw1. rewrite Hlt2 in Hh1, Hh2.
    split; by apply parse_resolution_form.
  - intros Hge. apply parse_resolution_left; [by apply decimal_free..|].
    destruct Hge as [Hge|Hge]; apply Z.ltb_ge in Hge.
    + left. by rewrite Hge in Hw1.
    + right. by rewrite Hge in Hh1.
Qed.

Lemma decimal_resolution_round_trip_witness :
  MainApp.parse_resolution (Text.decimal 2560 +:+ "x" +:+ Text.decimal 1440)
  = Ok (2560, 1440).
Proof.
  refine (proj1 (proj1 (proj2 (proj2
            (decimal_resolution_round_trip 2560 1440 _ _))) _ _));
    try lia; vm_compute; reflexivity.
Defined.

Lemma split_length (sep : ascii) (s : string) :
  length (PyStr.split sep s) = S (Text.count sep s).
Proof.
  induction s as [|c rest IH]; cbn; [done|].
  destruct (Ascii.eqb c sep); cbn; [by rewrite IH|].
  destruct (PyStr.split sep rest) as [|p ps]; cbn in *; [discriminate|done].
Qed.

Lemma join_split (sep : ascii) (s : string) :
  Text.join sep (PyStr.split sep s) = s.
Proof.
  induction s as [|c rest IH]; cbn; [done|].
  destruct (Ascii.eqb_spec c sep) as [->|Hne].
  - destruct (PyStr.split sep rest) as [|p ps] eqn:Hsplit.
    { by apply split_not_nil in Hsplit. }
    cbn [Text.join] in *. by rewrite IH.
  - destruct (PyStr.split sep rest) as [|p ps] eqn:Hsplit.
    { by apply split_not_nil in Hsplit. }
    destruct ps as [|q qs]; cbn [Text.join] in *; by rewrite <- IH.
Qed.

Lemma split_parts_free (sep : ascii) (s : string) :
  Forall (Spec.free sep) (PyStr.split sep s).
Proof.
  induction s as [|c rest IH]; cbn; [by repeat constructor|].
  destruct (Ascii.eqb_spec c sep) as [->|Hne]; [by constructor|].
  destruct (PyStr.split sep rest) as [|p ps]; [by repeat constructor|].
  inversion IH; subst. by constructor.
Qed.

(** X12.  [split] on one character loses nothing: joining the parts with
    the separator gives the text back, there is one part more than the text
    has separators, and no part contains the separator. *)
Theorem split_is_inverted_by_join (sep : ascii) (s : string) :
  Text.join sep (PyStr.split sep s) = s /\
  length (PyStr.split sep s) = S (Text.count sep s) /\
  Forall (Spec.free sep) (PyStr.split sep s).
Proof.
  split; [apply join_split|]. split; [apply split_length|apply split_parts_free].
Qed.

(** X13.  A resolution text needs exactly one letter x.  With none, or
    with two or more, the parse raises [ValueError] (the unpacking into
    [width_str, height_str] fails), and so does [show_clock] on a dictionary
    whose resolution is such a text, before it reaches [processEvents]. *)
Theorem resolution_needs_exactly_one_x
    (pe : MainApp.state -> result MainApp.state)
    (l : loc) (s : MainApp.state) (r : string) :
  Text.count "x" r <> 1%nat ->
  MainApp.parse_resolution r = Raise ValueError /\
  (get (deref (MainApp.objects s) l) "resolution" (VStr "1920x1080") = VStr r ->
   MainApp.show_clock pe l s = Raise ValueError).
Proof.
  intros Hcount.
  assert (Hparse : MainApp.parse_resolution r = Raise ValueError).
  { unfold MainApp.parse_resolution.
    pose proof (split_length "x" r) as Hlen.
    destruct (PyStr.split "x" r) as [|a [|b [|c rest]]]; try reflexivity.
    cbn in Hlen. lia. }
  split; [exact Hparse|].
  intros Hr. unfold MainApp.show_clock, MainApp.show_clock_window.
  cbn [MainApp.objects MainApp.setCurrentWidget].
  rewrite Hr. cbn [bind str_receiver]. by rewrite Hparse.
Qed.

Lemma resolution_needs_exactly_one_x_witness :
  MainApp.parse_resolution "1920x1080x60" = Raise ValueError /\
  MainApp.show_clock Ok Example.form
    (Example.after [MainApp.SetResolution "1920x1080x60"]) = Raise ValueError.
Proof.
  destruct (resolution_needs_exactly_one_x Ok Example.form
              (Example.after [MainApp.SetResolution "1920x1080x60"])
              "1920x1080x60") as [Hparse Hshow].
  - vm_compute. lia.
  - split; [exact Hparse|]. apply Hshow. vm_compute. reflexivity.
Defined.

(** The code points of two texts put together, the first of which is
    well formed *)
Lemma decode_app (a b : string) :
  forall st,
    ~ In (-1) (PyStr.decode st a) ->
    PyStr.decode st (a +:+ b) = PyStr.decode st a ++ PyStr.decode PyStr.Idle b.
Proof.
  induction a as [|c rest IH]; intros st Hnot.
  - rewrite append_nil. destruct st; [reflexivity|].
    exfalso. apply Hnot. by left.
  - rewrite append_cons. cbn [PyStr.decode] in *.
    destruct (PyStr.decode_byte st c) as [out st'].
    rewrite IH, app_assoc; [reflexivity|].
    intros Hin. apply Hnot, in_or_app. by right.
Qed.

Lemma points_app (a b : string) :
  ~ In (-1) (PyStr.points a) ->
  PyStr.points (a +:+ b) = PyStr.points a ++ PyStr.points b.
Proof. apply decode_app. Qed.

Lemma all_space_points (a : string) :
  Text.all_space a = true ->
  Forall (fun c => PyStr.is_space c = true) (PyStr.points a) /\
  ~ In (-1) (PyStr.points a).
Proof.
  unfold Text.all_space. rewrite forallb_forall, <- List.Forall_forall.
  intros Hall. split; [exact Hall|].
  intros Hin. rewrite List.Forall_forall in Hall. by apply Hall in Hin.
Qed.

Lemma integer_text_well_formed (s : string) (n : Z) :
  Spec.integer_text s n -> ~ In (-1) (PyStr.points s).
Proof.
  intros (lead & sign & factor & groups & trail & Hpoints & Hlead & Htrail & Hsign
          & Hne & Hgroups & _).
  rewrite Hpoints.
  destruct groups as [|g gs]; [done|]. inversion Hgroups as [|? ? Hg Hgs]; subst.
  assert (Hx : PyStr.is_space (-1) = false /\ PyStr.digit_val (-1) = None)
    by (split; vm_compute; reflexivity).
  destruct Hx as [Hx1 Hx2].
  rewrite !in_app_iff. intros [Hin|[Hin|[Hin|Hin]]].
  - rewrite List.Forall_forall in Hlead. apply Hlead in Hin. congruence.
  - destruct Hsign; cbn in Hin; lia.
  - apply (underscored_elem g gs (-1) Hg Hgs) in Hin as [Hin|[d Hd]];
      [discriminate|congruence].
  - rewrite List.Forall_forall in Htrail. apply Htrail in Hin. congruence.
Qed.

Lemma int_blank (a s b : string) (n : Z) :
  Text.all_space a = true -> Text.all_space b = true ->
  PyStr.int s = Ok n -> PyStr.int (a +:+ s +:+ b) = Ok n.
Proof.
  intros [Ha Hwa]%all_space_points [Hb _]%all_space_points Hs%int_sound.
  apply int_complete.
  pose proof (integer_text_well_formed s n Hs) as Hws.
  destruct Hs as (lead & sign & factor & groups & trail & Hpoints & Hlead & Htrail
                  & Hsign & Hne & Hgroups & Hmax & Hn).
  exists (PyStr.points a ++ lead), sign, factor, groups, (trail ++ PyStr.points b).
  split.
  { rewrite (points_app a _ Hwa), (points_app s b Hws), Hpoints.
    by rewrite <- !app_assoc. }
  split; [by apply Forall_app|]. split; [by apply Forall_app|]. done.
Qed.

(** X14.  White space around either number does not matter: when [int]
    converts both parts, the resolution parse of the text with white space
    before and after each part is the parse of the text without it. *)
Theorem resolution_tolerates_blanks (a ws b c hs d : string) (w ht : Z) :
  Text.all_space a = true -> Text.all_space b = true ->
  Text.all_space c = true -> Text.all_space d = true ->
  PyStr.int ws = Ok w -> PyStr.int hs = Ok ht ->
  MainApp.parse_resolution ((a +:+ ws +:+ b) +:+ "x" +:+ (c +:+ hs +:+ d))
  = MainApp.parse_resolution (ws +:+ "x" +:+ hs).
Proof.
  intros Ha Hb Hc Hd Hw Hh.
  rewrite (parse_resolution_form ws hs w ht Hw Hh).
  apply parse_resolution_form; by apply int_blank.
Qed.

Lemma resolution_tolerates_blanks_witness :
  MainApp.parse_resolution " 1920 x 1080 " = MainApp.parse_resolution "1920x1080".
Proof.
  apply (resolution_tolerates_blanks " " "1920" " " " " "1080" " " 1920 1080);
    vm_compute; reflexivity.
Defined.

Lemma setitem_commute (l : loc) k1 v1 k2 v2 (h : heap) :
  k1 <> k2 ->
  setitem l k1 v1 (setitem l k2 v2 h) = setitem l k2 v2 (setitem l k1 v1 h).
Proof.
  intros Hk. unfold setitem. rewrite !alter_alter_eq.
  apply alter_ext. intros d _ . cbn. by apply insert_insert_ne.
Qed.

Lemma setitem_twice (l : loc) k v1 v2 (h : heap) :
  setitem l k v2 (setitem l k v1 h) = setitem l k v2 h.
Proof.
  unfold setitem. rewrite alter_alter_eq.
  apply alter_ext. intros d _. cbn. by apply insert_insert_eq.
Qed.

(** X16.  Two handlers of the settings form that write different keys
    commute: run in either order from the same state they lead to the same
    state.  A cancelled colour dialog writes nothing and commutes with every
    handler. *)
Theorem form_handlers_commute (e1 e2 : MainApp.event) (s : MainApp.state) :
  Spec.is_mutation e1 = true -> Spec.is_mutation e2 = true ->
  (forall k1 v1 k2 v2, Form.written e1 = Some (k1, v1) ->
                       Form.written e2 = Some (k2, v2) -> k1 <> k2) ->
  Spec.run_events [e1; e2] s = Spec.run_events [e2; e1] s.
Proof.
  intros H1 H2 Hk.
  destruct e1 as [[q1|]|[q1|]|t1|n1|t1|t1|p1| | ]; try discriminate;
  destruct e2 as [[q2|]|[q2|]|t2|n2|t2|t2|p2| | ]; try discriminate;
    try reflexivity;
    try (exfalso; by eapply (Hk _ _ _ _ eq_refl eq_refl));
    cbn; unfold MainApp.with_settings; cbn; do 2 f_equal;
    by apply setitem_commute.
Qed.

Lemma form_handlers_commute_witness :
  Spec.run_events [MainApp.SetGmt 5; MainApp.SetSize "Small"] MainApp.init
  = Spec.run_events [MainApp.SetSize "Small"; MainApp.SetGmt 5] MainApp.init.
Proof.
  apply form_handlers_commute; [reflexivity|reflexivity|].
  intros k1 v1 k2 v2 [= <- _] [= <- _]. done.
Defined.

(** X17.  The last write wins: when two handlers of the settings form
    write the same key, running both leads to the state that the second
    alone leads to. *)
Theorem form_handler_last_write_wins (e1 e2 : MainApp.event) (s : MainApp.state)
    (k : string) (v1 v2 : pyval) :
  Form.written e1 = Some (k, v1) -> Form.written e2 = Some (k, v2) ->
  Spec.run_events [e1; e2] s = Spec.run_events [e2] s.
Proof.
  intros H1 H2.
  destruct e1 as [[q1|]|[q1|]|t1|n1|t1|t1|p1| | ]; try discriminate;
  destruct e2 as [[q2|]|[q2|]|t2|n2|t2|t2|p2| | ]; try discriminate;
    cbn in H1, H2; simplify_eq;
    cbn; unfold MainApp.with_settings; cbn; do 2 f_equal;
    by apply setitem_twice.
Qed.

Lemma form_handler_last_write_wins_witness :
  Spec.run_events [MainApp.SetGmt 5; MainApp.SetGmt 2] MainApp.init
  = Spec.run_events [MainApp.SetGmt 2] MainApp.init.
Proof.
  apply (form_handler_last_write_wins _ _ _ "gmt_offset" (VInt 5) (VInt 2));
    reflexivity.
Defined.
